(** * Velocity / position / height fusion of the ECL navigation filter

    A shallow embedding of [Ekf::fuseVelPosHeight]
    (src/EKF/vel_pos_fusion.cpp) and the properties of its observation
    assembler, innovation gate, sequential updater and health ledger.

    The routine works on C [float]s.  They are modelled as IEEE-754 binary32
    values through the Standard Library's [spec_float] with a 24 bit
    significand and exponent bound 128, so comparisons with NaN, signed
    zeros and rounding behave as they do in the program. *)

From Stdlib Require Import List ZArith Bool Lia SpecFloat.
Import ListNotations.

Set Implicit Arguments.

(** ** Single precision numbers *)

Definition float32 : Type := spec_float.

Definition f32_prec : Z := 24.
Definition f32_emax : Z := 128.

Definition fadd (x y : float32) : float32 := SFadd f32_prec f32_emax x y.
Definition fsub (x y : float32) : float32 := SFsub f32_prec f32_emax x y.
Definition fmul (x y : float32) : float32 := SFmul f32_prec f32_emax x y.
Definition fdiv (x y : float32) : float32 := SFdiv f32_prec f32_emax x y.
Definition fneg (x : float32) : float32 := SFopp x.
Definition fltb (x y : float32) : bool := SFltb x y.
Definition fleb (x y : float32) : bool := SFleb x y.

(** The binary32 value nearest to an integer. *)
Definition f32_of_Z (n : Z) : float32 := binary_normalize f32_prec f32_emax n 0 false.

Declare Scope f32_scope.
Delimit Scope f32_scope with f32.
Bind Scope f32_scope with float32.
Infix "+" := fadd : f32_scope.
Infix "-" := fsub : f32_scope.
Infix "*" := fmul : f32_scope.
Infix "/" := fdiv : f32_scope.
Notation "- x" := (fneg x) : f32_scope.
Infix "<?" := fltb : f32_scope.
Infix "<=?" := fleb : f32_scope.
Notation "x >? y" := (fltb y x) : f32_scope.

(** The literals of the routine: [0.0f], [1.0f], [1.5f] and [0.01f]
    (bit pattern 0x3C23D70A). *)
Definition f0 : float32 := S754_zero false.
Definition f1 : float32 := S754_finite false 8388608 (-23).
Definition f1_5 : float32 := S754_finite false 12582912 (-23).
Definition f0_01 : float32 := S754_finite false 10737418 (-30).

(** [fmaxf] of the C library.  The one NaN of [float32] stands for a quiet
    NaN, which the library treats as missing data; a signalling NaN, for
    which the library returns NaN, has no counterpart in [float32]. *)
Definition fmaxf (x y : float32) : float32 :=
  match x, y with
  | S754_nan, _ => y
  | _, S754_nan => x
  | _, _ => if (x <? y)%f32 then y else x
  end.

(** Modelled from the spec: the squaring helper [sq], which is defined in
    the mathlib header and not in vel_pos_fusion.cpp. *)
Definition sq (x : float32) : float32 := (x * x)%f32.

(** Modelled from the spec: [math::max] and [math::constrain] (the "clamp"
    of the GPS height variance), which are defined in the mathlib header and
    not in vel_pos_fusion.cpp. *)
Module math.
Definition max (a b : float32) : float32 := if (a >? b)%f32 then a else b.
Definition constrain (val min_val max_val : float32) : float32 :=
  if (val <? min_val)%f32 then min_val
  else if (val >? max_val)%f32 then max_val else val.
End math.

(** ** Fixed-size arrays

    The C arrays are lists read with a default and written in place. *)

Definition matrix : Type := list (list float32).

Definition fget (a : list float32) (i : nat) : float32 := nth i a f0.
Definition bget (a : list bool) (i : nat) : bool := nth i a false.
Definition mget (M : matrix) (row column : nat) : float32 :=
  nth column (nth row M []) f0.

Fixpoint aset (A : Type) (a : list A) (i : nat) (v : A) : list A :=
  match a, i with
  | [], _ => []
  | _ :: t, O => v :: t
  | h :: t, S j => h :: aset t j v
  end.

Fixpoint mapi_from (A B : Type) (f : nat -> A -> B) (k : nat) (a : list A) : list B :=
  match a with
  | [] => []
  | h :: t => f k h :: mapi_from f (S k) t
  end.

Definition mapi (A B : Type) (f : nat -> A -> B) (a : list A) : list B :=
  mapi_from f 0 a.

(** Modelled from the spec: the number of filter states, a constant of the
    class declaration. *)
Definition _k_num_states : nat := 24.

(** Modelled from the spec: the helpers [zeroRows] and [zeroCols] of the
    filter, which are defined outside vel_pos_fusion.cpp, set the rows,
    resp. columns, [first .. last] (inclusive) of a covariance matrix to
    zero. *)
Definition zeroRows (cov_mat : matrix) (first last : nat) : matrix :=
  mapi (fun row r =>
          if (first <=? row)%nat && (row <=? last)%nat
          then map (fun _ => f0) r else r) cov_mat.

Definition zeroCols (cov_mat : matrix) (first last : nat) : matrix :=
  map (mapi (fun column v =>
               if (first <=? column)%nat && (column <=? last)%nat
               then f0 else v)) cov_mat.

(** ** The filter object *)

Record parameters : Type := {
  gps_vel_noise : float32;
  vel_innov_gate : float32;
  baro_noise : float32;
  baro_innov_gate : float32;
  gps_pos_noise : float32;
  pos_noaid_noise : float32;
  range_noise : float32;
  range_noise_scaler : float32;
  rng_gnd_clearance : float32;
  range_cos_max_tilt : float32;
  range_innov_gate : float32;
  ev_innov_gate : float32;
  gnd_effect_deadzone : float32
}.

(** The delayed sensor samples; both the GPS and the baro sample have a
    field [hgt], so each sample type lives in a module of its own. *)
Module gpsSample.
Record t : Type := { hgt : float32; sacc : float32; vacc : float32 }.
End gpsSample.

Module baroSample.
Record t : Type := { hgt : float32 }.
End baroSample.

Module rangeSample.
Record t : Type := { rng : float32 }.
End rangeSample.

(** [posNED_2] is the down component [posNED(2)] of the vision position. *)
Module extVisionSample.
Record t : Type := { posNED_2 : float32; posErr : float32 }.
End extVisionSample.

Record filter_control_status : Type := {
  tilt_align : bool;
  baro_hgt : bool;
  gps_hgt : bool;
  rng_hgt : bool;
  ev_hgt : bool;
  gnd_effect : bool
}.

Record innovation_fault_status : Type := {
  reject_vel_NED : bool;
  reject_pos_NE : bool;
  reject_pos_D : bool
}.

Record fault_status : Type := {
  bad_vel_N : bool;
  bad_vel_E : bool;
  bad_vel_D : bool;
  bad_pos_N : bool;
  bad_pos_E : bool;
  bad_pos_D : bool
}.

Definition set_reject_vel_NED (v : bool) (s : innovation_fault_status) :=
  {| reject_vel_NED := v; reject_pos_NE := reject_pos_NE s; reject_pos_D := reject_pos_D s |}.
Definition set_reject_pos_NE (v : bool) (s : innovation_fault_status) :=
  {| reject_vel_NED := reject_vel_NED s; reject_pos_NE := v; reject_pos_D := reject_pos_D s |}.
Definition set_reject_pos_D (v : bool) (s : innovation_fault_status) :=
  {| reject_vel_NED := reject_vel_NED s; reject_pos_NE := reject_pos_NE s; reject_pos_D := v |}.

Definition set_bad_vel_N (v : bool) (s : fault_status) :=
  {| bad_vel_N := v; bad_vel_E := bad_vel_E s; bad_vel_D := bad_vel_D s;
     bad_pos_N := bad_pos_N s; bad_pos_E := bad_pos_E s; bad_pos_D := bad_pos_D s |}.
Definition set_bad_vel_E (v : bool) (s : fault_status) :=
  {| bad_vel_N := bad_vel_N s; bad_vel_E := v; bad_vel_D := bad_vel_D s;
     bad_pos_N := bad_pos_N s; bad_pos_E := bad_pos_E s; bad_pos_D := bad_pos_D s |}.
Definition set_bad_vel_D (v : bool) (s : fault_status) :=
  {| bad_vel_N := bad_vel_N s; bad_vel_E := bad_vel_E s; bad_vel_D := v;
     bad_pos_N := bad_pos_N s; bad_pos_E := bad_pos_E s; bad_pos_D := bad_pos_D s |}.
Definition set_bad_pos_N (v : bool) (s : fault_status) :=
  {| bad_vel_N := bad_vel_N s; bad_vel_E := bad_vel_E s; bad_vel_D := bad_vel_D s;
     bad_pos_N := v; bad_pos_E := bad_pos_E s; bad_pos_D := bad_pos_D s |}.
Definition set_bad_pos_E (v : bool) (s : fault_status) :=
  {| bad_vel_N := bad_vel_N s; bad_vel_E := bad_vel_E s; bad_vel_D := bad_vel_D s;
     bad_pos_N := bad_pos_N s; bad_pos_E := v; bad_pos_D := bad_pos_D s |}.
Definition set_bad_pos_D (v : bool) (s : fault_status) :=
  {| bad_vel_N := bad_vel_N s; bad_vel_E := bad_vel_E s; bad_vel_D := bad_vel_D s;
     bad_pos_N := bad_pos_N s; bad_pos_E := bad_pos_E s; bad_pos_D := v |}.

(** The members of [Ekf] that [fuseVelPosHeight] reads or writes.  [P] is the
    24 x 24 covariance, [_state] the 24 filter states ([pos(2)] is state 9). *)
Record Ekf : Type := Build_Ekf {
  P : matrix;
  _state : list float32;
  _vel_pos_innov : list float32;
  _aux_vel_innov : list float32;
  _velObsVarNE : list float32;
  _hvelInnovGate : float32;
  _posObsNoiseNE : float32;
  _posInnovGateNE : float32;
  _params : parameters;
  _gps_sample_delayed : gpsSample.t;
  _baro_sample_delayed : baroSample.t;
  _range_sample_delayed : rangeSample.t;
  _ev_sample_delayed : extVisionSample.t;
  _baro_hgt_offset : float32;
  _gps_alt_ref : float32;
  _hgt_sensor_offset : float32;
  _R_rng_to_earth_2_2 : float32;
  _control_status : filter_control_status;
  _fuse_hor_vel : bool;
  _fuse_hor_vel_aux : bool;
  _fuse_vert_vel : bool;
  _fuse_pos : bool;
  _fuse_height : bool;
  _fuse_hpos_as_odom : bool;
  _vel_pos_innov_var : list float32;
  _vel_pos_test_ratio : list float32;
  _time_last_imu : Z;
  _time_last_vel_fuse : Z;
  _time_last_pos_fuse : Z;
  _time_last_delpos_fuse : Z;
  _time_last_hgt_fuse : Z;
  _innov_check_fail_status : innovation_fault_status;
  _fault_status : fault_status
}.

Definition set_P (v : matrix) (ekf : Ekf) : Ekf :=
  {|
    P := v; _state := _state ekf; _vel_pos_innov := _vel_pos_innov ekf;
    _aux_vel_innov := _aux_vel_innov ekf; _velObsVarNE := _velObsVarNE ekf;
    _hvelInnovGate := _hvelInnovGate ekf; _posObsNoiseNE := _posObsNoiseNE ekf;
    _posInnovGateNE := _posInnovGateNE ekf; _params := _params ekf;
    _gps_sample_delayed := _gps_sample_delayed ekf;
    _baro_sample_delayed := _baro_sample_delayed ekf;
    _range_sample_delayed := _range_sample_delayed ekf;
    _ev_sample_delayed := _ev_sample_delayed ekf; _baro_hgt_offset := _baro_hgt_offset ekf;
    _gps_alt_ref := _gps_alt_ref ekf; _hgt_sensor_offset := _hgt_sensor_offset ekf;
    _R_rng_to_earth_2_2 := _R_rng_to_earth_2_2 ekf; _control_status := _control_status ekf;
    _fuse_hor_vel := _fuse_hor_vel ekf; _fuse_hor_vel_aux := _fuse_hor_vel_aux ekf;
    _fuse_vert_vel := _fuse_vert_vel ekf; _fuse_pos := _fuse_pos ekf;
    _fuse_height := _fuse_height ekf; _fuse_hpos_as_odom := _fuse_hpos_as_odom ekf;
    _vel_pos_innov_var := _vel_pos_innov_var ekf; _vel_pos_test_ratio := _vel_pos_test_ratio ekf;
    _time_last_imu := _time_last_imu ekf; _time_last_vel_fuse := _time_last_vel_fuse ekf;
    _time_last_pos_fuse := _time_last_pos_fuse ekf;
    _time_last_delpos_fuse := _time_last_delpos_fuse ekf;
    _time_last_hgt_fuse := _time_last_hgt_fuse ekf;
    _innov_check_fail_status := _innov_check_fail_status ekf; _fault_status := _fault_status ekf
  |}.

Definition set_state (v : list float32) (ekf : Ekf) : Ekf :=
  {|
    P := P ekf; _state := v; _vel_pos_innov := _vel_pos_innov ekf;
    _aux_vel_innov := _aux_vel_innov ekf; _velObsVarNE := _velObsVarNE ekf;
    _hvelInnovGate := _hvelInnovGate ekf; _posObsNoiseNE := _posObsNoiseNE ekf;
    _posInnovGateNE := _posInnovGateNE ekf; _params := _params ekf;
    _gps_sample_delayed := _gps_sample_delayed ekf;
    _baro_sample_delayed := _baro_sample_delayed ekf;
    _range_sample_delayed := _range_sample_delayed ekf;
    _ev_sample_delayed := _ev_sample_delayed ekf; _baro_hgt_offset := _baro_hgt_offset ekf;
    _gps_alt_ref := _gps_alt_ref ekf; _hgt_sensor_offset := _hgt_sensor_offset ekf;
    _R_rng_to_earth_2_2 := _R_rng_to_earth_2_2 ekf; _control_status := _control_status ekf;
    _fuse_hor_vel := _fuse_hor_vel ekf; _fuse_hor_vel_aux := _fuse_hor_vel_aux ekf;
    _fuse_vert_vel := _fuse_vert_vel ekf; _fuse_pos := _fuse_pos ekf;
    _fuse_height := _fuse_height ekf; _fuse_hpos_as_odom := _fuse_hpos_as_odom ekf;
    _vel_pos_innov_var := _vel_pos_innov_var ekf; _vel_pos_test_ratio := _vel_pos_test_ratio ekf;
    _time_last_imu := _time_last_imu ekf; _time_last_vel_fuse := _time_last_vel_fuse ekf;
    _time_last_pos_fuse := _time_last_pos_fuse ekf;
    _time_last_delpos_fuse := _time_last_delpos_fuse ekf;
    _time_last_hgt_fuse := _time_last_hgt_fuse ekf;
    _innov_check_fail_status := _innov_check_fail_status ekf; _fault_status := _fault_status ekf
  |}.

Definition set_vel_pos_innov (v : list float32) (ekf : Ekf) : Ekf :=
  {|
    P := P ekf; _state := _state ekf; _vel_pos_innov := v; _aux_vel_innov := _aux_vel_innov ekf;
    _velObsVarNE := _velObsVarNE ekf; _hvelInnovGate := _hvelInnovGate ekf;
    _posObsNoiseNE := _posObsNoiseNE ekf; _posInnovGateNE := _posInnovGateNE ekf;
    _params := _params ekf; _gps_sample_delayed := _gps_sample_delayed ekf;
    _baro_sample_delayed := _baro_sample_delayed ekf;
    _range_sample_delayed := _range_sample_delayed ekf;
    _ev_sample_delayed := _ev_sample_delayed ekf; _baro_hgt_offset := _baro_hgt_offset ekf;
    _gps_alt_ref := _gps_alt_ref ekf; _hgt_sensor_offset := _hgt_sensor_offset ekf;
    _R_rng_to_earth_2_2 := _R_rng_to_earth_2_2 ekf; _control_status := _control_status ekf;
    _fuse_hor_vel := _fuse_hor_vel ekf; _fuse_hor_vel_aux := _fuse_hor_vel_aux ekf;
    _fuse_vert_vel := _fuse_vert_vel ekf; _fuse_pos := _fuse_pos ekf;
    _fuse_height := _fuse_height ekf; _fuse_hpos_as_odom := _fuse_hpos_as_odom ekf;
    _vel_pos_innov_var := _vel_pos_innov_var ekf; _vel_pos_test_ratio := _vel_pos_test_ratio ekf;
    _time_last_imu := _time_last_imu ekf; _time_last_vel_fuse := _time_last_vel_fuse ekf;
    _time_last_pos_fuse := _time_last_pos_fuse ekf;
    _time_last_delpos_fuse := _time_last_delpos_fuse ekf;
    _time_last_hgt_fuse := _time_last_hgt_fuse ekf;
    _innov_check_fail_status := _innov_check_fail_status ekf; _fault_status := _fault_status ekf
  |}.

Definition set_fuse_hor_vel (v : bool) (ekf : Ekf) : Ekf :=
  {|
    P := P ekf; _state := _state ekf; _vel_pos_innov := _vel_pos_innov ekf;
    _aux_vel_innov := _aux_vel_innov ekf; _velObsVarNE := _velObsVarNE ekf;
    _hvelInnovGate := _hvelInnovGate ekf; _posObsNoiseNE := _posObsNoiseNE ekf;
    _posInnovGateNE := _posInnovGateNE ekf; _params := _params ekf;
    _gps_sample_delayed := _gps_sample_delayed ekf;
    _baro_sample_delayed := _baro_sample_delayed ekf;
    _range_sample_delayed := _range_sample_delayed ekf;
    _ev_sample_delayed := _ev_sample_delayed ekf; _baro_hgt_offset := _baro_hgt_offset ekf;
    _gps_alt_ref := _gps_alt_ref ekf; _hgt_sensor_offset := _hgt_sensor_offset ekf;
    _R_rng_to_earth_2_2 := _R_rng_to_earth_2_2 ekf; _control_status := _control_status ekf;
    _fuse_hor_vel := v; _fuse_hor_vel_aux := _fuse_hor_vel_aux ekf;
    _fuse_vert_vel := _fuse_vert_vel ekf; _fuse_pos := _fuse_pos ekf;
    _fuse_height := _fuse_height ekf; _fuse_hpos_as_odom := _fuse_hpos_as_odom ekf;
    _vel_pos_innov_var := _vel_pos_innov_var ekf; _vel_pos_test_ratio := _vel_pos_test_ratio ekf;
    _time_last_imu := _time_last_imu ekf; _time_last_vel_fuse := _time_last_vel_fuse ekf;
    _time_last_pos_fuse := _time_last_pos_fuse ekf;
    _time_last_delpos_fuse := _time_last_delpos_fuse ekf;
    _time_last_hgt_fuse := _time_last_hgt_fuse ekf;
    _innov_check_fail_status := _innov_check_fail_status ekf; _fault_status := _fault_status ekf
  |}.

Definition set_fuse_hor_vel_aux (v : bool) (ekf : Ekf) : Ekf :=
  {|
    P := P ekf; _state := _state ekf; _vel_pos_innov := _vel_pos_innov ekf;
    _aux_vel_innov := _aux_vel_innov ekf; _velObsVarNE := _velObsVarNE ekf;
    _hvelInnovGate := _hvelInnovGate ekf; _posObsNoiseNE := _posObsNoiseNE ekf;
    _posInnovGateNE := _posInnovGateNE ekf; _params := _params ekf;
    _gps_sample_delayed := _gps_sample_delayed ekf;
    _baro_sample_delayed := _baro_sample_delayed ekf;
    _range_sample_delayed := _range_sample_delayed ekf;
    _ev_sample_delayed := _ev_sample_delayed ekf; _baro_hgt_offset := _baro_hgt_offset ekf;
    _gps_alt_ref := _gps_alt_ref ekf; _hgt_sensor_offset := _hgt_sensor_offset ekf;
    _R_rng_to_earth_2_2 := _R_rng_to_earth_2_2 ekf; _control_status := _control_status ekf;
    _fuse_hor_vel := _fuse_hor_vel ekf; _fuse_hor_vel_aux := v;
    _fuse_vert_vel := _fuse_vert_vel ekf; _fuse_pos := _fuse_pos ekf;
    _fuse_height := _fuse_height ekf; _fuse_hpos_as_odom := _fuse_hpos_as_odom ekf;
    _vel_pos_innov_var := _vel_pos_innov_var ekf; _vel_pos_test_ratio := _vel_pos_test_ratio ekf;
    _time_last_imu := _time_last_imu ekf; _time_last_vel_fuse := _time_last_vel_fuse ekf;
    _time_last_pos_fuse := _time_last_pos_fuse ekf;
    _time_last_delpos_fuse := _time_last_delpos_fuse ekf;
    _time_last_hgt_fuse := _time_last_hgt_fuse ekf;
    _innov_check_fail_status := _innov_check_fail_status ekf; _fault_status := _fault_status ekf
  |}.

Definition set_fuse_vert_vel (v : bool) (ekf : Ekf) : Ekf :=
  {|
    P := P ekf; _state := _state ekf; _vel_pos_innov := _vel_pos_innov ekf;
    _aux_vel_innov := _aux_vel_innov ekf; _velObsVarNE := _velObsVarNE ekf;
    _hvelInnovGate := _hvelInnovGate ekf; _posObsNoiseNE := _posObsNoiseNE ekf;
    _posInnovGateNE := _posInnovGateNE ekf; _params := _params ekf;
    _gps_sample_delayed := _gps_sample_delayed ekf;
    _baro_sample_delayed := _baro_sample_delayed ekf;
    _range_sample_delayed := _range_sample_delayed ekf;
    _ev_sample_delayed := _ev_sample_delayed ekf; _baro_hgt_offset := _baro_hgt_offset ekf;
    _gps_alt_ref := _gps_alt_ref ekf; _hgt_sensor_offset := _hgt_sensor_offset ekf;
    _R_rng_to_earth_2_2 := _R_rng_to_earth_2_2 ekf; _control_status := _control_status ekf;
    _fuse_hor_vel := _fuse_hor_vel ekf; _fuse_hor_vel_aux := _fuse_hor_vel_aux ekf;
    _fuse_vert_vel := v; _fuse_pos := _fuse_pos ekf; _fuse_height := _fuse_height ekf;
    _fuse_hpos_as_odom := _fuse_hpos_as_odom ekf; _vel_pos_innov_var := _vel_pos_innov_var ekf;
    _vel_pos_test_ratio := _vel_pos_test_ratio ekf; _time_last_imu := _time_last_imu ekf;
    _time_last_vel_fuse := _time_last_vel_fuse ekf; _time_last_pos_fuse := _time_last_pos_fuse ekf;
    _time_last_delpos_fuse := _time_last_delpos_fuse ekf;
    _time_last_hgt_fuse := _time_last_hgt_fuse ekf;
    _innov_check_fail_status := _innov_check_fail_status ekf; _fault_status := _fault_status ekf
  |}.

Definition set_fuse_pos (v : bool) (ekf : Ekf) : Ekf :=
  {|
    P := P ekf; _state := _state ekf; _vel_pos_innov := _vel_pos_innov ekf;
    _aux_vel_innov := _aux_vel_innov ekf; _velObsVarNE := _velObsVarNE ekf;
    _hvelInnovGate := _hvelInnovGate ekf; _posObsNoiseNE := _posObsNoiseNE ekf;
    _posInnovGateNE := _posInnovGateNE ekf; _params := _params ekf;
    _gps_sample_delayed := _gps_sample_delayed ekf;
    _baro_sample_delayed := _baro_sample_delayed ekf;
    _range_sample_delayed := _range_sample_delayed ekf;
    _ev_sample_delayed := _ev_sample_delayed ekf; _baro_hgt_offset := _baro_hgt_offset ekf;
    _gps_alt_ref := _gps_alt_ref ekf; _hgt_sensor_offset := _hgt_sensor_offset ekf;
    _R_rng_to_earth_2_2 := _R_rng_to_earth_2_2 ekf; _control_status := _control_status ekf;
    _fuse_hor_vel := _fuse_hor_vel ekf; _fuse_hor_vel_aux := _fuse_hor_vel_aux ekf;
    _fuse_vert_vel := _fuse_vert_vel ekf; _fuse_pos := v; _fuse_height := _fuse_height ekf;
    _fuse_hpos_as_odom := _fuse_hpos_as_odom ekf; _vel_pos_innov_var := _vel_pos_innov_var ekf;
    _vel_pos_test_ratio := _vel_pos_test_ratio ekf; _time_last_imu := _time_last_imu ekf;
    _time_last_vel_fuse := _time_last_vel_fuse ekf; _time_last_pos_fuse := _time_last_pos_fuse ekf;
    _time_last_delpos_fuse := _time_last_delpos_fuse ekf;
    _time_last_hgt_fuse := _time_last_hgt_fuse ekf;
    _innov_check_fail_status := _innov_check_fail_status ekf; _fault_status := _fault_status ekf
  |}.

Definition set_fuse_height (v : bool) (ekf : Ekf) : Ekf :=
  {|
    P := P ekf; _state := _state ekf; _vel_pos_innov := _vel_pos_innov ekf;
    _aux_vel_innov := _aux_vel_innov ekf; _velObsVarNE := _velObsVarNE ekf;
    _hvelInnovGate := _hvelInnovGate ekf; _posObsNoiseNE := _posObsNoiseNE ekf;
    _posInnovGateNE := _posInnovGateNE ekf; _params := _params ekf;
    _gps_sample_delayed := _gps_sample_delayed ekf;
    _baro_sample_delayed := _baro_sample_delayed ekf;
    _range_sample_delayed := _range_sample_delayed ekf;
    _ev_sample_delayed := _ev_sample_delayed ekf; _baro_hgt_offset := _baro_hgt_offset ekf;
    _gps_alt_ref := _gps_alt_ref ekf; _hgt_sensor_offset := _hgt_sensor_offset ekf;
    _R_rng_to_earth_2_2 := _R_rng_to_earth_2_2 ekf; _control_status := _control_status ekf;
    _fuse_hor_vel := _fuse_hor_vel ekf; _fuse_hor_vel_aux := _fuse_hor_vel_aux ekf;
    _fuse_vert_vel := _fuse_vert_vel ekf; _fuse_pos := _fuse_pos ekf; _fuse_height := v;
    _fuse_hpos_as_odom := _fuse_hpos_as_odom ekf; _vel_pos_innov_var := _vel_pos_innov_var ekf;
    _vel_pos_test_ratio := _vel_pos_test_ratio ekf; _time_last_imu := _time_last_imu ekf;
    _time_last_vel_fuse := _time_last_vel_fuse ekf; _time_last_pos_fuse := _time_last_pos_fuse ekf;
    _time_last_delpos_fuse := _time_last_delpos_fuse ekf;
    _time_last_hgt_fuse := _time_last_hgt_fuse ekf;
    _innov_check_fail_status := _innov_check_fail_status ekf; _fault_status := _fault_status ekf
  |}.

Definition set_vel_pos_innov_var (v : list float32) (ekf : Ekf) : Ekf :=
  {|
    P := P ekf; _state := _state ekf; _vel_pos_innov := _vel_pos_innov ekf;
    _aux_vel_innov := _aux_vel_innov ekf; _velObsVarNE := _velObsVarNE ekf;
    _hvelInnovGate := _hvelInnovGate ekf; _posObsNoiseNE := _posObsNoiseNE ekf;
    _posInnovGateNE := _posInnovGateNE ekf; _params := _params ekf;
    _gps_sample_delayed := _gps_sample_delayed ekf;
    _baro_sample_delayed := _baro_sample_delayed ekf;
    _range_sample_delayed := _range_sample_delayed ekf;
    _ev_sample_delayed := _ev_sample_delayed ekf; _baro_hgt_offset := _baro_hgt_offset ekf;
    _gps_alt_ref := _gps_alt_ref ekf; _hgt_sensor_offset := _hgt_sensor_offset ekf;
    _R_rng_to_earth_2_2 := _R_rng_to_earth_2_2 ekf; _control_status := _control_status ekf;
    _fuse_hor_vel := _fuse_hor_vel ekf; _fuse_hor_vel_aux := _fuse_hor_vel_aux ekf;
    _fuse_vert_vel := _fuse_vert_vel ekf; _fuse_pos := _fuse_pos ekf;
    _fuse_height := _fuse_height ekf; _fuse_hpos_as_odom := _fuse_hpos_as_odom ekf;
    _vel_pos_innov_var := v; _vel_pos_test_ratio := _vel_pos_test_ratio ekf;
    _time_last_imu := _time_last_imu ekf; _time_last_vel_fuse := _time_last_vel_fuse ekf;
    _time_last_pos_fuse := _time_last_pos_fuse ekf;
    _time_last_delpos_fuse := _time_last_delpos_fuse ekf;
    _time_last_hgt_fuse := _time_last_hgt_fuse ekf;
    _innov_check_fail_status := _innov_check_fail_status ekf; _fault_status := _fault_status ekf
  |}.

Definition set_vel_pos_test_ratio (v : list float32) (ekf : Ekf) : Ekf :=
  {|
    P := P ekf; _state := _state ekf; _vel_pos_innov := _vel_pos_innov ekf;
    _aux_vel_innov := _aux_vel_innov ekf; _velObsVarNE := _velObsVarNE ekf;
    _hvelInnovGate := _hvelInnovGate ekf; _posObsNoiseNE := _posObsNoiseNE ekf;
    _posInnovGateNE := _posInnovGateNE ekf; _params := _params ekf;
    _gps_sample_delayed := _gps_sample_delayed ekf;
    _baro_sample_delayed := _baro_sample_delayed ekf;
    _range_sample_delayed := _range_sample_delayed ekf;
    _ev_sample_delayed := _ev_sample_delayed ekf; _baro_hgt_offset := _baro_hgt_offset ekf;
    _gps_alt_ref := _gps_alt_ref ekf; _hgt_sensor_offset := _hgt_sensor_offset ekf;
    _R_rng_to_earth_2_2 := _R_rng_to_earth_2_2 ekf; _control_status := _control_status ekf;
    _fuse_hor_vel := _fuse_hor_vel ekf; _fuse_hor_vel_aux := _fuse_hor_vel_aux ekf;
    _fuse_vert_vel := _fuse_vert_vel ekf; _fuse_pos := _fuse_pos ekf;
    _fuse_height := _fuse_height ekf; _fuse_hpos_as_odom := _fuse_hpos_as_odom ekf;
    _vel_pos_innov_var := _vel_pos_innov_var ekf; _vel_pos_test_ratio := v;
    _time_last_imu := _time_last_imu ekf; _time_last_vel_fuse := _time_last_vel_fuse ekf;
    _time_last_pos_fuse := _time_last_pos_fuse ekf;
    _time_last_delpos_fuse := _time_last_delpos_fuse ekf;
    _time_last_hgt_fuse := _time_last_hgt_fuse ekf;
    _innov_check_fail_status := _innov_check_fail_status ekf; _fault_status := _fault_status ekf
  |}.

Definition set_time_last_vel_fuse (v : Z) (ekf : Ekf) : Ekf :=
  {|
    P := P ekf; _state := _state ekf; _vel_pos_innov := _vel_pos_innov ekf;
    _aux_vel_innov := _aux_vel_innov ekf; _velObsVarNE := _velObsVarNE ekf;
    _hvelInnovGate := _hvelInnovGate ekf; _posObsNoiseNE := _posObsNoiseNE ekf;
    _posInnovGateNE := _posInnovGateNE ekf; _params := _params ekf;
    _gps_sample_delayed := _gps_sample_delayed ekf;
    _baro_sample_delayed := _baro_sample_delayed ekf;
    _range_sample_delayed := _range_sample_delayed ekf;
    _ev_sample_delayed := _ev_sample_delayed ekf; _baro_hgt_offset := _baro_hgt_offset ekf;
    _gps_alt_ref := _gps_alt_ref ekf; _hgt_sensor_offset := _hgt_sensor_offset ekf;
    _R_rng_to_earth_2_2 := _R_rng_to_earth_2_2 ekf; _control_status := _control_status ekf;
    _fuse_hor_vel := _fuse_hor_vel ekf; _fuse_hor_vel_aux := _fuse_hor_vel_aux ekf;
    _fuse_vert_vel := _fuse_vert_vel ekf; _fuse_pos := _fuse_pos ekf;
    _fuse_height := _fuse_height ekf; _fuse_hpos_as_odom := _fuse_hpos_as_odom ekf;
    _vel_pos_innov_var := _vel_pos_innov_var ekf; _vel_pos_test_ratio := _vel_pos_test_ratio ekf;
    _time_last_imu := _time_last_imu ekf; _time_last_vel_fuse := v;
    _time_last_pos_fuse := _time_last_pos_fuse ekf;
    _time_last_delpos_fuse := _time_last_delpos_fuse ekf;
    _time_last_hgt_fuse := _time_last_hgt_fuse ekf;
    _innov_check_fail_status := _innov_check_fail_status ekf; _fault_status := _fault_status ekf
  |}.

Definition set_time_last_pos_fuse (v : Z) (ekf : Ekf) : Ekf :=
  {|
    P := P ekf; _state := _state ekf; _vel_pos_innov := _vel_pos_innov ekf;
    _aux_vel_innov := _aux_vel_innov ekf; _velObsVarNE := _velObsVarNE ekf;
    _hvelInnovGate := _hvelInnovGate ekf; _posObsNoiseNE := _posObsNoiseNE ekf;
    _posInnovGateNE := _posInnovGateNE ekf; _params := _params ekf;
    _gps_sample_delayed := _gps_sample_delayed ekf;
    _baro_sample_delayed := _baro_sample_delayed ekf;
    _range_sample_delayed := _range_sample_delayed ekf;
    _ev_sample_delayed := _ev_sample_delayed ekf; _baro_hgt_offset := _baro_hgt_offset ekf;
    _gps_alt_ref := _gps_alt_ref ekf; _hgt_sensor_offset := _hgt_sensor_offset ekf;
    _R_rng_to_earth_2_2 := _R_rng_to_earth_2_2 ekf; _control_status := _control_status ekf;
    _fuse_hor_vel := _fuse_hor_vel ekf; _fuse_hor_vel_aux := _fuse_hor_vel_aux ekf;
    _fuse_vert_vel := _fuse_vert_vel ekf; _fuse_pos := _fuse_pos ekf;
    _fuse_height := _fuse_height ekf; _fuse_hpos_as_odom := _fuse_hpos_as_odom ekf;
    _vel_pos_innov_var := _vel_pos_innov_var ekf; _vel_pos_test_ratio := _vel_pos_test_ratio ekf;
    _time_last_imu := _time_last_imu ekf; _time_last_vel_fuse := _time_last_vel_fuse ekf;
    _time_last_pos_fuse := v; _time_last_delpos_fuse := _time_last_delpos_fuse ekf;
    _time_last_hgt_fuse := _time_last_hgt_fuse ekf;
    _innov_check_fail_status := _innov_check_fail_status ekf; _fault_status := _fault_status ekf
  |}.

Definition set_time_last_delpos_fuse (v : Z) (ekf : Ekf) : Ekf :=
  {|
    P := P ekf; _state := _state ekf; _vel_pos_innov := _vel_pos_innov ekf;
    _aux_vel_innov := _aux_vel_innov ekf; _velObsVarNE := _velObsVarNE ekf;
    _hvelInnovGate := _hvelInnovGate ekf; _posObsNoiseNE := _posObsNoiseNE ekf;
    _posInnovGateNE := _posInnovGateNE ekf; _params := _params ekf;
    _gps_sample_delayed := _gps_sample_delayed ekf;
    _baro_sample_delayed := _baro_sample_delayed ekf;
    _range_sample_delayed := _range_sample_delayed ekf;
    _ev_sample_delayed := _ev_sample_delayed ekf; _baro_hgt_offset := _baro_hgt_offset ekf;
    _gps_alt_ref := _gps_alt_ref ekf; _hgt_sensor_offset := _hgt_sensor_offset ekf;
    _R_rng_to_earth_2_2 := _R_rng_to_earth_2_2 ekf; _control_status := _control_status ekf;
    _fuse_hor_vel := _fuse_hor_vel ekf; _fuse_hor_vel_aux := _fuse_hor_vel_aux ekf;
    _fuse_vert_vel := _fuse_vert_vel ekf; _fuse_pos := _fuse_pos ekf;
    _fuse_height := _fuse_height ekf; _fuse_hpos_as_odom := _fuse_hpos_as_odom ekf;
    _vel_pos_innov_var := _vel_pos_innov_var ekf; _vel_pos_test_ratio := _vel_pos_test_ratio ekf;
    _time_last_imu := _time_last_imu ekf; _time_last_vel_fuse := _time_last_vel_fuse ekf;
    _time_last_pos_fuse := _time_last_pos_fuse ekf; _time_last_delpos_fuse := v;
    _time_last_hgt_fuse := _time_last_hgt_fuse ekf;
    _innov_check_fail_status := _innov_check_fail_status ekf; _fault_status := _fault_status ekf
  |}.

Definition set_time_last_hgt_fuse (v : Z) (ekf : Ekf) : Ekf :=
  {|
    P := P ekf; _state := _state ekf; _vel_pos_innov := _vel_pos_innov ekf;
    _aux_vel_innov := _aux_vel_innov ekf; _velObsVarNE := _velObsVarNE ekf;
    _hvelInnovGate := _hvelInnovGate ekf; _posObsNoiseNE := _posObsNoiseNE ekf;
    _posInnovGateNE := _posInnovGateNE ekf; _params := _params ekf;
    _gps_sample_delayed := _gps_sample_delayed ekf;
    _baro_sample_delayed := _baro_sample_delayed ekf;
    _range_sample_delayed := _range_sample_delayed ekf;
    _ev_sample_delayed := _ev_sample_delayed ekf; _baro_hgt_offset := _baro_hgt_offset ekf;
    _gps_alt_ref := _gps_alt_ref ekf; _hgt_sensor_offset := _hgt_sensor_offset ekf;
    _R_rng_to_earth_2_2 := _R_rng_to_earth_2_2 ekf; _control_status := _control_status ekf;
    _fuse_hor_vel := _fuse_hor_vel ekf; _fuse_hor_vel_aux := _fuse_hor_vel_aux ekf;
    _fuse_vert_vel := _fuse_vert_vel ekf; _fuse_pos := _fuse_pos ekf;
    _fuse_height := _fuse_height ekf; _fuse_hpos_as_odom := _fuse_hpos_as_odom ekf;
    _vel_pos_innov_var := _vel_pos_innov_var ekf; _vel_pos_test_ratio := _vel_pos_test_ratio ekf;
    _time_last_imu := _time_last_imu ekf; _time_last_vel_fuse := _time_last_vel_fuse ekf;
    _time_last_pos_fuse := _time_last_pos_fuse ekf;
    _time_last_delpos_fuse := _time_last_delpos_fuse ekf; _time_last_hgt_fuse := v;
    _innov_check_fail_status := _innov_check_fail_status ekf; _fault_status := _fault_status ekf
  |}.

Definition set_innov_check_fail_status (v : innovation_fault_status) (ekf : Ekf) : Ekf :=
  {|
    P := P ekf; _state := _state ekf; _vel_pos_innov := _vel_pos_innov ekf;
    _aux_vel_innov := _aux_vel_innov ekf; _velObsVarNE := _velObsVarNE ekf;
    _hvelInnovGate := _hvelInnovGate ekf; _posObsNoiseNE := _posObsNoiseNE ekf;
    _posInnovGateNE := _posInnovGateNE ekf; _params := _params ekf;
    _gps_sample_delayed := _gps_sample_delayed ekf;
    _baro_sample_delayed := _baro_sample_delayed ekf;
    _range_sample_delayed := _range_sample_delayed ekf;
    _ev_sample_delayed := _ev_sample_delayed ekf; _baro_hgt_offset := _baro_hgt_offset ekf;
    _gps_alt_ref := _gps_alt_ref ekf; _hgt_sensor_offset := _hgt_sensor_offset ekf;
    _R_rng_to_earth_2_2 := _R_rng_to_earth_2_2 ekf; _control_status := _control_status ekf;
    _fuse_hor_vel := _fuse_hor_vel ekf; _fuse_hor_vel_aux := _fuse_hor_vel_aux ekf;
    _fuse_vert_vel := _fuse_vert_vel ekf; _fuse_pos := _fuse_pos ekf;
    _fuse_height := _fuse_height ekf; _fuse_hpos_as_odom := _fuse_hpos_as_odom ekf;
    _vel_pos_innov_var := _vel_pos_innov_var ekf; _vel_pos_test_ratio := _vel_pos_test_ratio ekf;
    _time_last_imu := _time_last_imu ekf; _time_last_vel_fuse := _time_last_vel_fuse ekf;
    _time_last_pos_fuse := _time_last_pos_fuse ekf;
    _time_last_delpos_fuse := _time_last_delpos_fuse ekf;
    _time_last_hgt_fuse := _time_last_hgt_fuse ekf; _innov_check_fail_status := v;
    _fault_status := _fault_status ekf
  |}.

Definition set_fault_status (v : fault_status) (ekf : Ekf) : Ekf :=
  {|
    P := P ekf; _state := _state ekf; _vel_pos_innov := _vel_pos_innov ekf;
    _aux_vel_innov := _aux_vel_innov ekf; _velObsVarNE := _velObsVarNE ekf;
    _hvelInnovGate := _hvelInnovGate ekf; _posObsNoiseNE := _posObsNoiseNE ekf;
    _posInnovGateNE := _posInnovGateNE ekf; _params := _params ekf;
    _gps_sample_delayed := _gps_sample_delayed ekf;
    _baro_sample_delayed := _baro_sample_delayed ekf;
    _range_sample_delayed := _range_sample_delayed ekf;
    _ev_sample_delayed := _ev_sample_delayed ekf; _baro_hgt_offset := _baro_hgt_offset ekf;
    _gps_alt_ref := _gps_alt_ref ekf; _hgt_sensor_offset := _hgt_sensor_offset ekf;
    _R_rng_to_earth_2_2 := _R_rng_to_earth_2_2 ekf; _control_status := _control_status ekf;
    _fuse_hor_vel := _fuse_hor_vel ekf; _fuse_hor_vel_aux := _fuse_hor_vel_aux ekf;
    _fuse_vert_vel := _fuse_vert_vel ekf; _fuse_pos := _fuse_pos ekf;
    _fuse_height := _fuse_height ekf; _fuse_hpos_as_odom := _fuse_hpos_as_odom ekf;
    _vel_pos_innov_var := _vel_pos_innov_var ekf; _vel_pos_test_ratio := _vel_pos_test_ratio ekf;
    _time_last_imu := _time_last_imu ekf; _time_last_vel_fuse := _time_last_vel_fuse ekf;
    _time_last_pos_fuse := _time_last_pos_fuse ekf;
    _time_last_delpos_fuse := _time_last_delpos_fuse ekf;
    _time_last_hgt_fuse := _time_last_hgt_fuse ekf;
    _innov_check_fail_status := _innov_check_fail_status ekf; _fault_status := v
  |}.


(** The local arrays of the routine, one entry per observation
    [VN, VE, VD, PN, PE, PD]. *)
Record locals : Type := Build_locals {
  fuse_map : list bool;
  innov_check_pass_map : list bool;
  R : list float32;
  gate_size : list float32;
  innovation : list float32
}.

Definition set_fuse_map (v : list bool) (l : locals) : locals :=
  {|
    fuse_map := v; innov_check_pass_map := innov_check_pass_map l; R := R l;
    gate_size := gate_size l; innovation := innovation l
  |}.

Definition set_innov_check_pass_map (v : list bool) (l : locals) : locals :=
  {|
    fuse_map := fuse_map l; innov_check_pass_map := v; R := R l; gate_size := gate_size l;
    innovation := innovation l
  |}.

Definition set_R (v : list float32) (l : locals) : locals :=
  {|
    fuse_map := fuse_map l; innov_check_pass_map := innov_check_pass_map l; R := v;
    gate_size := gate_size l; innovation := innovation l
  |}.

Definition set_gate_size (v : list float32) (l : locals) : locals :=
  {|
    fuse_map := fuse_map l; innov_check_pass_map := innov_check_pass_map l; R := R l;
    gate_size := v; innovation := innovation l
  |}.

Definition set_innovation (v : list float32) (l : locals) : locals :=
  {|
    fuse_map := fuse_map l; innov_check_pass_map := innov_check_pass_map l; R := R l;
    gate_size := gate_size l; innovation := v
  |}.


(** Element assignments to the local arrays and to the member arrays. *)
Definition st_fuse_map (i : nat) (v : bool) (l : locals) : locals :=
  set_fuse_map (aset (fuse_map l) i v) l.
Definition st_innov_check_pass_map (i : nat) (v : bool) (l : locals) : locals :=
  set_innov_check_pass_map (aset (innov_check_pass_map l) i v) l.
Definition st_R (i : nat) (v : float32) (l : locals) : locals :=
  set_R (aset (R l) i v) l.
Definition st_gate_size (i : nat) (v : float32) (l : locals) : locals :=
  set_gate_size (aset (gate_size l) i v) l.
Definition st_innovation (i : nat) (v : float32) (l : locals) : locals :=
  set_innovation (aset (innovation l) i v) l.

Definition st_vel_pos_innov (i : nat) (v : float32) (ekf : Ekf) : Ekf :=
  set_vel_pos_innov (aset (_vel_pos_innov ekf) i v) ekf.
Definition st_vel_pos_innov_var (i : nat) (v : float32) (ekf : Ekf) : Ekf :=
  set_vel_pos_innov_var (aset (_vel_pos_innov_var ekf) i v) ekf.
Definition st_vel_pos_test_ratio (i : nat) (v : float32) (ekf : Ekf) : Ekf :=
  set_vel_pos_test_ratio (aset (_vel_pos_test_ratio ekf) i v) ekf.

(** [_state.pos(2)]: the down position is state 9. *)
Definition pos_2 (x : list float32) : float32 := fget x 9.

(** ** The fusion routine *)

Local Open Scope f32_scope.

(** Lines 52-58: the locals on entry.  [innovation] receives the six entries
    of [_vel_pos_innov]; every other array is zero-initialised. *)
Definition init_locals (ekf : Ekf) : locals :=
  {| fuse_map := repeat false 6;
     innov_check_pass_map := repeat false 6;
     R := repeat f0 6;
     gate_size := repeat f0 6;
     innovation := map (fget (_vel_pos_innov ekf)) (seq 0 6) |}.

(** Lines 61-76: horizontal velocity, from the GPS or the auxiliary source. *)
Definition assemble_hor_vel (ekf : Ekf) (l : locals) : locals :=
  if _fuse_hor_vel ekf || _fuse_hor_vel_aux ekf then
    let l := st_fuse_map 1 true l in
    let l := st_fuse_map 0 true l in
    let l :=
      if negb (_fuse_hor_vel ekf) then
        let l := st_innovation 0 (fget (_aux_vel_innov ekf) 0) l in
        st_innovation 1 (fget (_aux_vel_innov ekf) 1) l
      else l in
    let l := st_R 0 (fget (_velObsVarNE ekf) 0) l in
    let l := st_R 1 (fget (_velObsVarNE ekf) 1) l in
    let l := st_gate_size 0 (_hvelInnovGate ekf) l in
    st_gate_size 1 (fget (gate_size l) 0) l
  else l.

(** Lines 78-87: vertical velocity. *)
Definition assemble_vert_vel (ekf : Ekf) (l : locals) : locals :=
  if _fuse_vert_vel ekf then
    let l := st_fuse_map 2 true l in
    let l := st_R 2 (fmaxf (gps_vel_noise (_params ekf)) f0_01) l in
    let l := st_R 2 (f1_5 * fmaxf (fget (R l) 2) (gpsSample.sacc (_gps_sample_delayed ekf))) l in
    let l := st_R 2 (fget (R l) 2 * fget (R l) 2) l in
    st_gate_size 2 (fmaxf (vel_innov_gate (_params ekf)) f1) l
  else l.

(** Lines 89-97: horizontal position. *)
Definition assemble_pos (ekf : Ekf) (l : locals) : locals :=
  if _fuse_pos ekf then
    let l := st_fuse_map 4 true l in
    let l := st_fuse_map 3 true l in
    let l := st_R 3 (sq (_posObsNoiseNE ekf)) l in
    let l := st_R 4 (fget (R l) 3) l in
    let l := st_gate_size 3 (_posInnovGateNE ekf) l in
    st_gate_size 4 (fget (gate_size l) 3) l
  else l.

(** Lines 112-124: the ground effect deadzone on a baro innovation;
    [deadzone_start] is the constant [0.0f]. *)
Definition baro_deadzone (gnd_effect_flag : bool) (deadzone : float32)
    (innov : float32) : float32 :=
  let deadzone_start := f0 in
  let deadzone_end := deadzone_start + deadzone in
  if gnd_effect_flag then
    if innov <? - deadzone_start then
      if innov <=? - deadzone_end then innov + deadzone_end
      else - deadzone_start
    else innov
  else innov.

(** Lines 100-124: height from the barometer. *)
Definition assemble_baro_hgt (ekf : Ekf) (l : locals) : locals :=
  let l := st_fuse_map 5 true l in
  let l := st_innovation 5
             (pos_2 (_state ekf) + baroSample.hgt (_baro_sample_delayed ekf)
              - _baro_hgt_offset ekf - _hgt_sensor_offset ekf) l in
  let l := st_R 5 (fmaxf (baro_noise (_params ekf)) f0_01) l in
  let l := st_R 5 (fget (R l) 5 * fget (R l) 5) l in
  let l := st_gate_size 5 (fmaxf (baro_innov_gate (_params ekf)) f1) l in
  st_innovation 5
    (baro_deadzone (gnd_effect (_control_status ekf))
       (gnd_effect_deadzone (_params ekf)) (fget (innovation l) 5)) l.

(** Lines 126-137: height from the GPS. *)
Definition assemble_gps_hgt (ekf : Ekf) (l : locals) : locals :=
  let l := st_fuse_map 5 true l in
  let l := st_innovation 5
             (pos_2 (_state ekf) + gpsSample.hgt (_gps_sample_delayed ekf)
              - _gps_alt_ref ekf - _hgt_sensor_offset ekf) l in
  let lower_limit := fmaxf (gps_pos_noise (_params ekf)) f0_01 in
  let upper_limit := fmaxf (pos_noaid_noise (_params ekf)) lower_limit in
  let l := st_R 5 (f1_5 * math.constrain (gpsSample.vacc (_gps_sample_delayed ekf))
                            lower_limit upper_limit) l in
  let l := st_R 5 (fget (R l) 5 * fget (R l) 5) l in
  st_gate_size 5 (fmaxf (baro_innov_gate (_params ekf)) f1) l.

(** Lines 139-146: height from the range finder, with tilt correction. *)
Definition assemble_rng_hgt (ekf : Ekf) (l : locals) : locals :=
  let l := st_fuse_map 5 true l in
  let l := st_innovation 5
             (pos_2 (_state ekf)
              - (- math.max (rangeSample.rng (_range_sample_delayed ekf) * _R_rng_to_earth_2_2 ekf)
                            (rng_gnd_clearance (_params ekf)))
              - _hgt_sensor_offset ekf) l in
  let l := st_R 5 (fmaxf ((sq (range_noise (_params ekf))
                           + sq (range_noise_scaler (_params ekf)
                                 * rangeSample.rng (_range_sample_delayed ekf)))
                          * sq (_R_rng_to_earth_2_2 ekf)) f0_01) l in
  st_gate_size 5 (fmaxf (range_innov_gate (_params ekf)) f1) l.

(** Lines 148-157: height from external vision. *)
Definition assemble_ev_hgt (ekf : Ekf) (l : locals) : locals :=
  let l := st_fuse_map 5 true l in
  let l := st_innovation 5
             (pos_2 (_state ekf) - extVisionSample.posNED_2 (_ev_sample_delayed ekf)) l in
  let l := st_R 5 (fmaxf (extVisionSample.posErr (_ev_sample_delayed ekf)) f0_01) l in
  let l := st_R 5 (fget (R l) 5 * fget (R l) 5) l in
  st_gate_size 5 (fmaxf (ev_innov_gate (_params ekf)) f1) l.

(** Lines 99-183: the height slot.  The debug report published on lines
    159-179 writes no member of the filter and is left out.  Line 182 stores
    the local innovation in [_vel_pos_innov[5]]. *)
Definition assemble_height (ekf : Ekf) (l : locals) : locals * Ekf :=
  if _fuse_height ekf then
    let l :=
      if baro_hgt (_control_status ekf) then assemble_baro_hgt ekf l
      else if gps_hgt (_control_status ekf) then assemble_gps_hgt ekf l
      else if rng_hgt (_control_status ekf)
              && (_R_rng_to_earth_2_2 ekf >? range_cos_max_tilt (_params ekf))
           then assemble_rng_hgt ekf l
      else if ev_hgt (_control_status ekf) then assemble_ev_hgt ekf l
      else l in
    (l, st_vel_pos_innov 5 (fget (innovation l) 5) ekf)
  else (l, ekf).

(** Lines 186-195: innovation variances and test ratios of the active slots. *)
Definition test_ratio_step (l : locals) (ekf : Ekf) (obs_index : nat) : Ekf :=
  if bget (fuse_map l) obs_index then
    let state_index := (obs_index + 4)%nat in
    let ekf := st_vel_pos_innov_var obs_index
                 (mget (P ekf) state_index state_index + fget (R l) obs_index) ekf in
    st_vel_pos_test_ratio obs_index
      (sq (fget (innovation l) obs_index)
       / (sq (fget (gate_size l) obs_index) * fget (_vel_pos_innov_var ekf) obs_index)) ekf
  else ekf.

Definition test_ratios (l : locals) (ekf : Ekf) : Ekf :=
  fold_left (test_ratio_step l) (seq 0 6) ekf.

(** Lines 201-206: the grouped innovation checks, on the stored test ratios. *)
Definition vel_check (ekf : Ekf) : bool :=
  (fget (_vel_pos_test_ratio ekf) 0 <=? f1)
  && (fget (_vel_pos_test_ratio ekf) 1 <=? f1)
  && (fget (_vel_pos_test_ratio ekf) 2 <=? f1).

Definition pos_check (ekf : Ekf) : bool :=
  ((fget (_vel_pos_test_ratio ekf) 3 <=? f1)
   && (fget (_vel_pos_test_ratio ekf) 4 <=? f1))
  || negb (tilt_align (_control_status ekf)).

Definition hgt_check (ekf : Ekf) : bool :=
  (fget (_vel_pos_test_ratio ekf) 5 <=? f1)
  || negb (tilt_align (_control_status ekf)).

Definition innov_checks (vel_check_pass pos_check_pass : bool) (ekf : Ekf) (l : locals)
    : locals :=
  let l := st_innov_check_pass_map 0 vel_check_pass l in
  let l := st_innov_check_pass_map 1 (bget (innov_check_pass_map l) 0) l in
  let l := st_innov_check_pass_map 2 (bget (innov_check_pass_map l) 1) l in
  let l := st_innov_check_pass_map 3 pos_check_pass l in
  let l := st_innov_check_pass_map 4 (bget (innov_check_pass_map l) 3) l in
  st_innov_check_pass_map 5 (hgt_check ekf) l.

(** Lines 208-217: the velocity fusion event and its request flags. *)
Definition record_vel_fuse (vel_check_pass : bool) (ekf : Ekf) : Ekf :=
  let ekf :=
    if (_fuse_hor_vel ekf || _fuse_hor_vel_aux ekf || _fuse_vert_vel ekf)
       && vel_check_pass
    then
      let ekf := set_time_last_vel_fuse (_time_last_imu ekf) ekf in
      set_innov_check_fail_status
        (set_reject_vel_NED false (_innov_check_fail_status ekf)) ekf
    else if negb vel_check_pass then
      set_innov_check_fail_status
        (set_reject_vel_NED true (_innov_check_fail_status ekf)) ekf
    else ekf in
  let ekf := set_fuse_vert_vel false ekf in
  let ekf := set_fuse_hor_vel_aux false ekf in
  set_fuse_hor_vel false ekf.

(** Lines 219-234: the position fusion event. *)
Definition record_pos_fuse (pos_check_pass : bool) (ekf : Ekf) : Ekf :=
  let ekf :=
    if pos_check_pass && _fuse_pos ekf then
      let ekf :=
        if negb (_fuse_hpos_as_odom ekf)
        then set_time_last_pos_fuse (_time_last_imu ekf) ekf
        else set_time_last_delpos_fuse (_time_last_imu ekf) ekf in
      set_innov_check_fail_status
        (set_reject_pos_NE false (_innov_check_fail_status ekf)) ekf
    else if negb pos_check_pass then
      set_innov_check_fail_status
        (set_reject_pos_NE true (_innov_check_fail_status ekf)) ekf
    else ekf in
  set_fuse_pos false ekf.

(** Lines 236-245: the height fusion event. *)
Definition record_hgt_fuse (l : locals) (ekf : Ekf) : Ekf :=
  let ekf :=
    if bget (innov_check_pass_map l) 5 && _fuse_height ekf then
      let ekf := set_time_last_hgt_fuse (_time_last_imu ekf) ekf in
      set_innov_check_fail_status
        (set_reject_pos_D false (_innov_check_fail_status ekf)) ekf
    else if negb (bget (innov_check_pass_map l) 5) then
      set_innov_check_fail_status
        (set_reject_pos_D true (_innov_check_fail_status ekf)) ekf
    else ekf in
  set_fuse_height false ekf.

(** Lines 52-245: assembly, gate and ledger; the result is the locals and
    the filter with which the sequential loop is entered. *)
Definition gate_and_record (ekf : Ekf) : locals * Ekf :=
  let l := init_locals ekf in
  let l := assemble_hor_vel ekf l in
  let l := assemble_vert_vel ekf l in
  let l := assemble_pos ekf l in
  let (l, ekf) := assemble_height ekf l in
  let ekf := test_ratios l ekf in
  let vel_check_pass := vel_check ekf in
  let pos_check_pass := pos_check ekf in
  let l := innov_checks vel_check_pass pos_check_pass ekf l in
  let ekf := record_vel_fuse vel_check_pass ekf in
  let ekf := record_pos_fuse pos_check_pass ekf in
  let ekf := record_hgt_fuse l ekf in
  (l, ekf).

(** Lines 283-300 and 304-321: the fault flag of an observation. *)
Definition set_bad (obs_index : nat) (v : bool) (s : fault_status) : fault_status :=
  if (obs_index =? 0)%nat then set_bad_vel_N v s
  else if (obs_index =? 1)%nat then set_bad_vel_E v s
  else if (obs_index =? 2)%nat then set_bad_vel_D v s
  else if (obs_index =? 3)%nat then set_bad_pos_N v s
  else if (obs_index =? 4)%nat then set_bad_pos_E v s
  else if (obs_index =? 5)%nat then set_bad_pos_D v s
  else s.

Definition bad_flag (obs_index : nat) (s : fault_status) : bool :=
  match obs_index with
  | 0 => bad_vel_N s
  | 1 => bad_vel_E s
  | 2 => bad_vel_D s
  | 3 => bad_pos_N s
  | 4 => bad_pos_E s
  | _ => bad_pos_D s
  end%nat.

(** Lines 256-258: the Kalman gain of one observation. *)
Definition kalman_gain (ekf : Ekf) (obs_index : nat) : list float32 :=
  let state_index := (obs_index + 4)%nat in
  map (fun row => mget (P ekf) row state_index / fget (_vel_pos_innov_var ekf) obs_index)
      (seq 0 _k_num_states).

(** Lines 261-267: the covariance decrement [K H P]. *)
Definition cov_decrement (ekf : Ekf) (Kfusion : list float32) (obs_index : nat) : matrix :=
  let state_index := (obs_index + 4)%nat in
  map (fun row =>
         map (fun column => fget Kfusion row * mget (P ekf) state_index column)
             (seq 0 _k_num_states))
      (seq 0 _k_num_states).

(** Lines 273-323: one index of the variance check; the pair carries the
    filter and the local [healthy]. *)
Definition health_step (obs_index : nat) (KHP : matrix) (st : Ekf * bool) (i : nat)
    : Ekf * bool :=
  let (ekf, healthy) := st in
  if mget (P ekf) i i <? mget KHP i i then
    let ekf := set_P (zeroRows (P ekf) i i) ekf in
    let ekf := set_P (zeroCols (P ekf) i i) ekf in
    (set_fault_status (set_bad obs_index true (_fault_status ekf)) ekf, false)
  else
    (set_fault_status (set_bad obs_index false (_fault_status ekf)) ekf, healthy).

Definition health_check (obs_index : nat) (KHP : matrix) (ekf : Ekf) : Ekf * bool :=
  fold_left (health_step obs_index KHP) (seq 0 _k_num_states) (ekf, true).

(** Lines 328-332: [P = P - KHP]. *)
Definition cov_subtract (M KHP : matrix) : matrix :=
  map (fun row =>
         map (fun column => mget M row column - mget KHP row column)
             (seq 0 _k_num_states))
      (seq 0 _k_num_states).

Section Fusion.

(** The two collaborators of the updater.  [fixCovarianceErrors] is the
    covariance sanitiser invoked after a decrement and [fuse] applies a
    gain and an innovation to the states; both are defined elsewhere in
    the filter, and the routine is studied for every choice of them. *)
Variable fixCovarianceErrors : matrix -> matrix.
Variable fuse : list float32 -> float32 -> list float32 -> list float32.

(** Lines 247-340: the body of the sequential fusion loop. *)
Definition fuse_obs (l : locals) (ekf : Ekf) (obs_index : nat) : Ekf :=
  if negb (bget (fuse_map l) obs_index)
     || negb (bget (innov_check_pass_map l) obs_index)
  then ekf
  else
    let Kfusion := kalman_gain ekf obs_index in
    let KHP := cov_decrement ekf Kfusion obs_index in
    let (ekf, healthy) := health_check obs_index KHP ekf in
    if healthy then
      let ekf := set_P (cov_subtract (P ekf) KHP) ekf in
      let ekf := set_P (fixCovarianceErrors (P ekf)) ekf in
      set_state (fuse Kfusion (fget (innovation l) obs_index) (_state ekf)) ekf
    else ekf.

Definition sequential_fusion (l : locals) (slots : list nat) (ekf : Ekf) : Ekf :=
  fold_left (fuse_obs l) slots ekf.

(** [Ekf::fuseVelPosHeight]. *)
Definition fuseVelPosHeight (ekf : Ekf) : Ekf :=
  let (l, ekf) := gate_and_record ekf in
  sequential_fusion l (seq 0 6) ekf.

End Fusion.

(** ** Names for the intermediate results

    A height source is selected on the first match of the chain on lines
    100-148; the locals and the filter after the assembler (lines 52-183). *)
Definition hgt_source_selected (ekf : Ekf) : bool :=
  baro_hgt (_control_status ekf)
  || gps_hgt (_control_status ekf)
  || (rng_hgt (_control_status ekf)
      && (_R_rng_to_earth_2_2 ekf >? range_cos_max_tilt (_params ekf)))
  || ev_hgt (_control_status ekf).

Definition locals_before_height (ekf : Ekf) : locals :=
  assemble_pos ekf (assemble_vert_vel ekf (assemble_hor_vel ekf (init_locals ekf))).

Definition assembled_locals (ekf : Ekf) : locals :=
  fst (assemble_height ekf (locals_before_height ekf)).

Definition assembled_ekf (ekf : Ekf) : Ekf :=
  snd (assemble_height ekf (locals_before_height ekf)).

(** The filter after the test ratio loop (lines 186-195), and the locals and
    the filter with which the sequential loop is entered. *)
Definition ratio_ekf (ekf : Ekf) : Ekf :=
  test_ratios (assembled_locals ekf) (assembled_ekf ekf).

Definition gate_locals (ekf : Ekf) : locals :=
  innov_checks (vel_check (ratio_ekf ekf)) (pos_check (ratio_ekf ekf))
    (ratio_ekf ekf) (assembled_locals ekf).

Definition gate_ekf (ekf : Ekf) : Ekf :=
  record_hgt_fuse (gate_locals ekf)
    (record_pos_fuse (pos_check (ratio_ekf ekf))
       (record_vel_fuse (vel_check (ratio_ekf ekf)) (ratio_ekf ekf))).


(** What the sequential updater leaves alone: the request flags, the ledger
    and the innovation arrays. *)
Definition updater_preserves (ekf ekf' : Ekf) : Prop :=
  _fuse_hor_vel ekf' = _fuse_hor_vel ekf
  /\ _fuse_hor_vel_aux ekf' = _fuse_hor_vel_aux ekf
  /\ _fuse_vert_vel ekf' = _fuse_vert_vel ekf
  /\ _fuse_pos ekf' = _fuse_pos ekf
  /\ _fuse_height ekf' = _fuse_height ekf
  /\ _time_last_vel_fuse ekf' = _time_last_vel_fuse ekf
  /\ _time_last_pos_fuse ekf' = _time_last_pos_fuse ekf
  /\ _time_last_delpos_fuse ekf' = _time_last_delpos_fuse ekf
  /\ _time_last_hgt_fuse ekf' = _time_last_hgt_fuse ekf
  /\ _innov_check_fail_status ekf' = _innov_check_fail_status ekf
  /\ _vel_pos_innov ekf' = _vel_pos_innov ekf
  /\ _vel_pos_innov_var ekf' = _vel_pos_innov_var ekf
  /\ _vel_pos_test_ratio ekf' = _vel_pos_test_ratio ekf.

(** The test of line 274: the decrement would leave a negative variance at
    index [i]. *)
Definition variance_fails (M KHP : matrix) (i : nat) : bool :=
  (mget M i i <? mget KHP i i)%f32.

(** Zeros of either sign, and the numbers that are neither NaN nor
    infinite. *)
Definition is_zero (x : float32) : bool :=
  match x with S754_zero _ => true | _ => false end.

Definition is_finite (x : float32) : bool :=
  match x with S754_zero _ | S754_finite _ _ _ => true | _ => false end.

(** ** Sample filters

    Concrete collaborators and filter objects on which the routine is run.
    [fuse_linear] subtracts gain times innovation from every state and
    [keep_covariance] leaves the covariance as it is. *)

Definition keep_covariance (M : matrix) : matrix := M.

Definition fuse_linear (K : list float32) (innov : float32) (x : list float32)
    : list float32 :=
  mapi (fun i xi => (xi - fget K i * innov)%f32) x.

Definition f32_ratio (n d : Z) : float32 := (f32_of_Z n / f32_of_Z d)%f32.

Definition sample_params : parameters :=
  {| gps_vel_noise := f32_ratio 1 2;
     vel_innov_gate := f32_of_Z 5;
     baro_noise := f32_ratio 1 5;
     baro_innov_gate := f32_of_Z 5;
     gps_pos_noise := f32_ratio 1 2;
     pos_noaid_noise := f32_of_Z 10;
     range_noise := f32_ratio 1 10;
     range_noise_scaler := f0;
     rng_gnd_clearance := f32_ratio 1 10;
     range_cos_max_tilt := f32_ratio 7 10;
     range_innov_gate := f32_of_Z 5;
     ev_innov_gate := f32_of_Z 5;
     gnd_effect_deadzone := f32_ratio 1 2 |}.

(** A covariance with unit variances, except for a down position variance
    [P[9][9] = 0.1] below its covariance [P[8][9] = P[9][8] = 1] with the
    east position, and [P[7][8] = P[8][7] = 0.5]. *)
Definition sample_P : matrix :=
  map (fun row =>
         map (fun column =>
                if (row =? 9)%nat && (column =? 9)%nat then f32_ratio 1 10
                else if (row =? column)%nat then f1
                else if ((row =? 8)%nat && (column =? 9)%nat)
                        || ((row =? 9)%nat && (column =? 8)%nat) then f1
                else if ((row =? 7)%nat && (column =? 8)%nat)
                        || ((row =? 8)%nat && (column =? 7)%nat) then f32_ratio 1 2
                else f0)
             (seq 0 _k_num_states))
      (seq 0 _k_num_states).

Definition no_hgt_source : filter_control_status :=
  {| tilt_align := true; baro_hgt := false; gps_hgt := false; rng_hgt := false;
     ev_hgt := false; gnd_effect := false |}.

Definition baro_source : filter_control_status :=
  {| tilt_align := true; baro_hgt := true; gps_hgt := false; rng_hgt := false;
     ev_hgt := false; gnd_effect := false |}.

Definition rng_source : filter_control_status :=
  {| tilt_align := true; baro_hgt := false; gps_hgt := false; rng_hgt := true;
     ev_hgt := false; gnd_effect := false |}.

(** A filter at time 1000 with every ledger time at 0, all fault flags set
    and [reject] as the three reject flags; [hor], [vert], [pos], [hgt] are
    the request flags, [ratios] the stored test ratios and [tilt_cos] the
    range finder tilt term. *)
Definition sample_ekf (cs : filter_control_status) (hor vert pos hgt reject : bool)
    (ratios : list float32) (tilt_cos : float32) : Ekf :=
  {| P := sample_P;
     _state := repeat f0 24;
     _vel_pos_innov := repeat f0 6;
     _aux_vel_innov := repeat f0 2;
     _velObsVarNE := [f32_ratio 1 4; f32_ratio 1 4];
     _hvelInnovGate := f32_of_Z 3;
     _posObsNoiseNE := f32_ratio 1 2;
     _posInnovGateNE := f32_of_Z 3;
     _params := sample_params;
     _gps_sample_delayed :=
       {| gpsSample.hgt := f0; gpsSample.sacc := f32_ratio 1 2; gpsSample.vacc := f1 |};
     _baro_sample_delayed := {| baroSample.hgt := f32_ratio 1 10 |};
     _range_sample_delayed := {| rangeSample.rng := f1 |};
     _ev_sample_delayed :=
       {| extVisionSample.posNED_2 := f0; extVisionSample.posErr := f32_ratio 1 10 |};
     _baro_hgt_offset := f0;
     _gps_alt_ref := f0;
     _hgt_sensor_offset := f0;
     _R_rng_to_earth_2_2 := tilt_cos;
     _control_status := cs;
     _fuse_hor_vel := hor;
     _fuse_hor_vel_aux := false;
     _fuse_vert_vel := vert;
     _fuse_pos := pos;
     _fuse_height := hgt;
     _fuse_hpos_as_odom := false;
     _vel_pos_innov_var := repeat f0 6;
     _vel_pos_test_ratio := ratios;
     _time_last_imu := 1000;
     _time_last_vel_fuse := 0;
     _time_last_pos_fuse := 0;
     _time_last_delpos_fuse := 0;
     _time_last_hgt_fuse := 0;
     _innov_check_fail_status :=
       {| reject_vel_NED := reject; reject_pos_NE := reject; reject_pos_D := reject |};
     _fault_status :=
       {| bad_vel_N := true; bad_vel_E := true; bad_vel_D := true;
          bad_pos_N := true; bad_pos_E := true; bad_pos_D := true |} |}.

(** Only a vertical velocity request, with a stored ratio of 2 in the
    north velocity slot. *)
Definition ekf_stale_vel : Ekf :=
  sample_ekf no_hgt_source false true false false false
    [f32_of_Z 2; f0; f0; f0; f0; f0] f1.

(** A height request with the range finder selected and tilted beyond the
    limit: [_R_rng_to_earth_2_2 = 0.5] against [range_cos_max_tilt = 0.7]. *)
Definition ekf_rng_tilted : Ekf :=
  sample_ekf rng_source false false false true true (repeat f0 6) (f32_ratio 1 2).

(** The same with a stored ratio of 2 in the height slot and the reject
    flags clear. *)
Definition ekf_rng_tilted_stale : Ekf :=
  sample_ekf rng_source false false false true false
    [f0; f0; f0; f0; f0; f32_of_Z 2] (f32_ratio 1 2).

(** A position request on [sample_P], and the same with a baro height
    request. *)
Definition ekf_pos : Ekf :=
  sample_ekf no_hgt_source false false true false false (repeat f0 6) f1.

Definition ekf_pos_hgt : Ekf :=
  sample_ekf baro_source false false true true false (repeat f0 6) f1.

(** Two height sources flagged at once. *)
Definition gps_and_ev : filter_control_status :=
  {| tilt_align := true; baro_hgt := false; gps_hgt := true; rng_hgt := false;
     ev_hgt := true; gnd_effect := true |}.

(** No request at all, with stored ratios of 2 in the north velocity, the
    north position and the height slot. *)
Definition ekf_no_request : Ekf :=
  sample_ekf baro_source false false false false false
    [f32_of_Z 2; f0; f0; f32_of_Z 2; f0; f32_of_Z 2] f1.

(** The members the routine only reads. *)
Definition same_inputs (ekf ekf' : Ekf) : Prop :=
  _params ekf' = _params ekf
  /\ _control_status ekf' = _control_status ekf
  /\ _gps_sample_delayed ekf' = _gps_sample_delayed ekf
  /\ _baro_sample_delayed ekf' = _baro_sample_delayed ekf
  /\ _range_sample_delayed ekf' = _range_sample_delayed ekf
  /\ _ev_sample_delayed ekf' = _ev_sample_delayed ekf
  /\ _baro_hgt_offset ekf' = _baro_hgt_offset ekf
  /\ _gps_alt_ref ekf' = _gps_alt_ref ekf
  /\ _hgt_sensor_offset ekf' = _hgt_sensor_offset ekf
  /\ _R_rng_to_earth_2_2 ekf' = _R_rng_to_earth_2_2 ekf
  /\ _aux_vel_innov ekf' = _aux_vel_innov ekf
  /\ _velObsVarNE ekf' = _velObsVarNE ekf
  /\ _hvelInnovGate ekf' = _hvelInnovGate ekf
  /\ _posObsNoiseNE ekf' = _posObsNoiseNE ekf
  /\ _posInnovGateNE ekf' = _posInnovGateNE ekf
  /\ _fuse_hpos_as_odom ekf' = _fuse_hpos_as_odom ekf
  /\ _time_last_imu ekf' = _time_last_imu ekf.

(** A filter before tilt alignment, and one with NaN among its stored test
    ratios. *)
Definition baro_unaligned : filter_control_status :=
  {| tilt_align := false; baro_hgt := true; gps_hgt := false; rng_hgt := false;
     ev_hgt := false; gnd_effect := false |}.

Definition ekf_unaligned : Ekf :=
  sample_ekf baro_unaligned false false false true true
    [f0; f0; f0; f32_of_Z 2; f32_of_Z 2; f32_of_Z 2] f1.

Definition ekf_nan_ratio : Ekf :=
  sample_ekf baro_source false false false false false
    [S754_nan; f0; f0; f0; S754_nan; S754_nan] f1.

(** An auxiliary velocity request without the primary one: the filter holds
    innovations of 1 in the two horizontal velocity slots, the auxiliary
    innovations are 0. *)
Definition ekf_aux_vel : Ekf :=
  set_fuse_hor_vel_aux true
    (set_vel_pos_innov [f1; f1; f0; f0; f0; f0]
       (sample_ekf no_hgt_source false false false false false (repeat f0 6) f1)).

(** Gate parameters below 1: a vertical velocity gate of 0.5 and a
    barometer gate of -1, on a call that requests the vertical velocity and
    the barometer height. *)
Definition low_gate_params : parameters :=
  {| gps_vel_noise := gps_vel_noise sample_params;
     vel_innov_gate := f32_ratio 1 2;
     baro_noise := baro_noise sample_params;
     baro_innov_gate := f32_of_Z (-1);
     gps_pos_noise := gps_pos_noise sample_params;
     pos_noaid_noise := pos_noaid_noise sample_params;
     range_noise := range_noise sample_params;
     range_noise_scaler := range_noise_scaler sample_params;
     rng_gnd_clearance := rng_gnd_clearance sample_params;
     range_cos_max_tilt := range_cos_max_tilt sample_params;
     range_innov_gate := range_innov_gate sample_params;
     ev_innov_gate := ev_innov_gate sample_params;
     gnd_effect_deadzone := gnd_effect_deadzone sample_params |}.

Definition ekf_low_gates : Ekf :=
  let e := sample_ekf baro_source false true false true false (repeat f0 6) f1 in
  {| P := P e;
     _state := _state e;
     _vel_pos_innov := _vel_pos_innov e;
     _aux_vel_innov := _aux_vel_innov e;
     _velObsVarNE := _velObsVarNE e;
     _hvelInnovGate := _hvelInnovGate e;
     _posObsNoiseNE := _posObsNoiseNE e;
     _posInnovGateNE := _posInnovGateNE e;
     _params := low_gate_params;
     _gps_sample_delayed := _gps_sample_delayed e;
     _baro_sample_delayed := _baro_sample_delayed e;
     _range_sample_delayed := _range_sample_delayed e;
     _ev_sample_delayed := _ev_sample_delayed e;
     _baro_hgt_offset := _baro_hgt_offset e;
     _gps_alt_ref := _gps_alt_ref e;
     _hgt_sensor_offset := _hgt_sensor_offset e;
     _R_rng_to_earth_2_2 := _R_rng_to_earth_2_2 e;
     _control_status := _control_status e;
     _fuse_hor_vel := _fuse_hor_vel e;
     _fuse_hor_vel_aux := _fuse_hor_vel_aux e;
     _fuse_vert_vel := _fuse_vert_vel e;
     _fuse_pos := _fuse_pos e;
     _fuse_height := _fuse_height e;
     _fuse_hpos_as_odom := _fuse_hpos_as_odom e;
     _vel_pos_innov_var := _vel_pos_innov_var e;
     _vel_pos_test_ratio := _vel_pos_test_ratio e;
     _time_last_imu := _time_last_imu e;
     _time_last_vel_fuse := _time_last_vel_fuse e;
     _time_last_pos_fuse := _time_last_pos_fuse e;
     _time_last_delpos_fuse := _time_last_delpos_fuse e;
     _time_last_hgt_fuse := _time_last_hgt_fuse e;
     _innov_check_fail_status := _innov_check_fail_status e;
     _fault_status := _fault_status e |}.
(** * Properties *)

(** Field reads through field writes, and nothing else. *)
Ltac ekf_simpl :=
  cbn [
    P _state _vel_pos_innov _aux_vel_innov _velObsVarNE _hvelInnovGate _posObsNoiseNE
    _posInnovGateNE _params _gps_sample_delayed _baro_sample_delayed _range_sample_delayed
    _ev_sample_delayed _baro_hgt_offset _gps_alt_ref _hgt_sensor_offset _R_rng_to_earth_2_2
    _control_status _fuse_hor_vel _fuse_hor_vel_aux _fuse_vert_vel _fuse_pos _fuse_height
    _fuse_hpos_as_odom _vel_pos_innov_var _vel_pos_test_ratio _time_last_imu
    _time_last_vel_fuse _time_last_pos_fuse _time_last_delpos_fuse _time_last_hgt_fuse
    _innov_check_fail_status _fault_status set_P set_state set_vel_pos_innov set_fuse_hor_vel
    set_fuse_hor_vel_aux set_fuse_vert_vel set_fuse_pos set_fuse_height set_vel_pos_innov_var
    set_vel_pos_test_ratio set_time_last_vel_fuse set_time_last_pos_fuse
    set_time_last_delpos_fuse set_time_last_hgt_fuse set_innov_check_fail_status
    set_fault_status fuse_map innov_check_pass_map R gate_size innovation set_fuse_map
    set_innov_check_pass_map set_R set_gate_size set_innovation reject_vel_NED reject_pos_NE
    reject_pos_D set_reject_vel_NED set_reject_pos_NE set_reject_pos_D bad_vel_N bad_vel_E
    bad_vel_D bad_pos_N bad_pos_E bad_pos_D set_bad_vel_N set_bad_vel_E set_bad_vel_D
    set_bad_pos_N set_bad_pos_E set_bad_pos_D st_fuse_map st_innov_check_pass_map st_R
    st_gate_size st_innovation st_vel_pos_innov st_vel_pos_innov_var st_vel_pos_test_ratio fst
    snd
  ].

Ltac ekf_simpl_in H :=
  cbn [
    P _state _vel_pos_innov _aux_vel_innov _velObsVarNE _hvelInnovGate _posObsNoiseNE
    _posInnovGateNE _params _gps_sample_delayed _baro_sample_delayed _range_sample_delayed
    _ev_sample_delayed _baro_hgt_offset _gps_alt_ref _hgt_sensor_offset _R_rng_to_earth_2_2
    _control_status _fuse_hor_vel _fuse_hor_vel_aux _fuse_vert_vel _fuse_pos _fuse_height
    _fuse_hpos_as_odom _vel_pos_innov_var _vel_pos_test_ratio _time_last_imu
    _time_last_vel_fuse _time_last_pos_fuse _time_last_delpos_fuse _time_last_hgt_fuse
    _innov_check_fail_status _fault_status set_P set_state set_vel_pos_innov set_fuse_hor_vel
    set_fuse_hor_vel_aux set_fuse_vert_vel set_fuse_pos set_fuse_height set_vel_pos_innov_var
    set_vel_pos_test_ratio set_time_last_vel_fuse set_time_last_pos_fuse
    set_time_last_delpos_fuse set_time_last_hgt_fuse set_innov_check_fail_status
    set_fault_status fuse_map innov_check_pass_map R gate_size innovation set_fuse_map
    set_innov_check_pass_map set_R set_gate_size set_innovation reject_vel_NED reject_pos_NE
    reject_pos_D set_reject_vel_NED set_reject_pos_NE set_reject_pos_D bad_vel_N bad_vel_E
    bad_vel_D bad_pos_N bad_pos_E bad_pos_D set_bad_vel_N set_bad_vel_E set_bad_vel_D
    set_bad_pos_N set_bad_pos_E set_bad_pos_D st_fuse_map st_innov_check_pass_map st_R
    st_gate_size st_innovation st_vel_pos_innov st_vel_pos_innov_var st_vel_pos_test_ratio fst
    snd
  ] in H.

(** ** Arrays *)

Lemma length_aset (A : Type) (a : list A) (i : nat) (v : A) :
  length (aset a i v) = length a.
Proof.
  revert i; induction a as [|h t IH]; intros [|i]; simpl; auto.
Qed.

Lemma nth_aset_eq (A : Type) (a : list A) (i : nat) (v d : A) :
  (i < length a)%nat -> nth i (aset a i v) d = v.
Proof.
  revert i; induction a as [|h t IH]; intros [|i] Hi; simpl in *; try lia; auto.
  apply IH; lia.
Qed.

Lemma nth_aset_ne (A : Type) (a : list A) (i j : nat) (v d : A) :
  i <> j -> nth j (aset a i v) d = nth j a d.
Proof.
  revert i j; induction a as [|h t IH]; intros [|i] [|j] Hij; simpl; auto;
    try congruence.
Qed.

Lemma nth_mapi_from (A B : Type) (f : nat -> A -> B) (a : list A) (k i : nat) (da : A) (db : B) :
  (i < length a)%nat -> nth i (mapi_from f k a) db = f (k + i)%nat (nth i a da).
Proof.
  revert k i; induction a as [|h t IH]; intros k [|i] Hi; simpl in *; try lia.
  - now rewrite Nat.add_0_r.
  - rewrite (IH (S k) i) by lia. f_equal; lia.
Qed.

Lemma length_mapi_from (A B : Type) (f : nat -> A -> B) (a : list A) (k : nat) :
  length (mapi_from f k a) = length a.
Proof.
  revert k; induction a as [|h t IH]; intros k; simpl; auto.
Qed.

Lemma nth_map_const (A B : Type) (a : list A) (i : nat) (d : B) :
  nth i (map (fun _ => d) a) d = d.
Proof.
  revert i; induction a as [|h t IH]; intros [|i]; simpl; auto.
Qed.

(** Reading a matrix after [zeroRows] and [zeroCols] on a single index. *)
Lemma mget_zeroRows (M : matrix) (i row column : nat) :
  mget (zeroRows M i i) row column = if (row =? i)%nat then f0 else mget M row column.
Proof.
  unfold mget, zeroRows, mapi.
  destruct (Nat.lt_ge_cases row (length M)) as [Hlt|Hge].
  - rewrite (nth_mapi_from _ M 0 [] [] Hlt). simpl.
    destruct (Nat.eqb_spec row i) as [->|Hne].
    + rewrite !Nat.leb_refl. simpl. apply nth_map_const.
    + replace ((i <=? row)%nat && (row <=? i)%nat) with false; auto.
      symmetry. apply andb_false_iff.
      destruct (Nat.leb_spec i row), (Nat.leb_spec row i); auto; lia.
  - rewrite (nth_overflow (mapi_from _ _ _)) by now rewrite length_mapi_from.
    rewrite (nth_overflow M) by auto.
    destruct column; simpl; now destruct (row =? i)%nat.
Qed.

Lemma mget_zeroCols (M : matrix) (i row column : nat) :
  mget (zeroCols M i i) row column = if (column =? i)%nat then f0 else mget M row column.
Proof.
  unfold mget, zeroCols.
  change (@nil float32) with (mapi (fun (c : nat) (v : float32) =>
            if (i <=? c)%nat && (c <=? i)%nat then f0 else v) []) at 1.
  rewrite map_nth. unfold mapi.
  destruct (Nat.lt_ge_cases column (length (nth row M []))) as [Hlt|Hge].
  - rewrite (nth_mapi_from _ _ 0 f0 f0 Hlt). simpl.
    destruct (Nat.eqb_spec column i) as [->|Hne].
    + now rewrite !Nat.leb_refl.
    + replace ((i <=? column)%nat && (column <=? i)%nat) with false; auto.
      symmetry. apply andb_false_iff.
      destruct (Nat.leb_spec i column), (Nat.leb_spec column i); auto; lia.
  - rewrite nth_overflow by now rewrite length_mapi_from.
    rewrite (nth_overflow (nth row M [])) by auto.
    now destruct (column =? i)%nat.
Qed.

(** ** What each phase may write *)

Lemma updater_noop (ekf : Ekf) :
  ekf = set_P (P ekf) (set_state (_state ekf) (set_fault_status (_fault_status ekf) ekf)).
Proof. now destruct ekf. Qed.

Lemma ratios_noop (ekf : Ekf) :
  ekf = set_vel_pos_innov_var (_vel_pos_innov_var ekf)
          (set_vel_pos_test_ratio (_vel_pos_test_ratio ekf) ekf).
Proof. now destruct ekf. Qed.

(** The variance check writes [P] and the fault flags only. *)
Lemma health_fold_frame (obs_index : nat) (KHP : matrix) (idx : list nat) :
  forall (ekf : Ekf) (healthy : bool),
  exists M s,
    fst (fold_left (health_step obs_index KHP) idx (ekf, healthy))
    = set_P M (set_fault_status s ekf).
Proof.
  induction idx as [|i idx IH]; intros ekf healthy; simpl.
  - exists (P ekf), (_fault_status ekf). now destruct ekf.
  - destruct (mget (P ekf) i i <? mget KHP i i).
    + match goal with |- context [fold_left _ idx (?e, ?h)] =>
        destruct (IH e h) as (M & s & ->) end.
      now exists M, s.
    + match goal with |- context [fold_left _ idx (?e, ?h)] =>
        destruct (IH e h) as (M & s & ->) end.
      now exists M, s.
Qed.

(** The test ratio loop writes the innovation variances and the test
    ratios only. *)
Lemma test_ratios_frame (l : locals) (ekf : Ekf) :
  exists iv tr,
    test_ratios l ekf = set_vel_pos_innov_var iv (set_vel_pos_test_ratio tr ekf).
Proof.
  unfold test_ratios. generalize (seq 0 6) as idx.
  intros idx; revert ekf; induction idx as [|i idx IH]; intros ekf; simpl.
  - exists (_vel_pos_innov_var ekf), (_vel_pos_test_ratio ekf). apply ratios_noop.
  - destruct (IH (test_ratio_step l ekf i)) as (iv & tr & ->).
    unfold test_ratio_step. destruct (bget (fuse_map l) i).
    + now exists iv, tr.
    + now exists iv, tr.
Qed.

Section Updater.

Variable fixCovarianceErrors : matrix -> matrix.
Variable fuse : list float32 -> float32 -> list float32 -> list float32.

(** One pass of the sequential loop writes [P], the states and the fault
    flags only. *)
Lemma fuse_obs_frame (l : locals) (ekf : Ekf) (obs_index : nat) :
  exists M x s,
    fuse_obs fixCovarianceErrors fuse l ekf obs_index
    = set_P M (set_state x (set_fault_status s ekf)).
Proof.
  unfold fuse_obs.
  destruct (negb (bget (fuse_map l) obs_index)
            || negb (bget (innov_check_pass_map l) obs_index)).
  - exists (P ekf), (_state ekf), (_fault_status ekf). apply updater_noop.
  - unfold health_check.
    match goal with |- context [fold_left ?f ?idx (ekf, true)] =>
      destruct (health_fold_frame obs_index
                  (cov_decrement ekf (kalman_gain ekf obs_index) obs_index)
                  idx ekf true) as (M & s & HM);
      destruct (fold_left f idx (ekf, true)) as [ekf' healthy] end.
    simpl in HM. subst ekf'. destruct healthy.
    + eexists _, _, s. reflexivity.
    + exists M, (_state ekf), s. now destruct ekf.
Qed.

Lemma sequential_fusion_frame (l : locals) (slots : list nat) :
  forall ekf : Ekf,
  exists M x s,
    sequential_fusion fixCovarianceErrors fuse l slots ekf
    = set_P M (set_state x (set_fault_status s ekf)).
Proof.
  unfold sequential_fusion.
  induction slots as [|i slots IH]; intros ekf; simpl.
  - exists (P ekf), (_state ekf), (_fault_status ekf). apply updater_noop.
  - destruct (IH (fuse_obs fixCovarianceErrors fuse l ekf i)) as (M & x & s & ->).
    destruct (fuse_obs_frame l ekf i) as (M' & x' & s' & ->).
    now exists M, x, s.
Qed.

Lemma sequential_fusion_preserves (l : locals) (slots : list nat) (ekf : Ekf) :
  updater_preserves ekf (sequential_fusion fixCovarianceErrors fuse l slots ekf).
Proof.
  destruct (sequential_fusion_frame l slots ekf) as (M & x & s & ->).
  unfold updater_preserves. ekf_simpl. repeat split.
Qed.

End Updater.

(** ** The observation assembler *)

Lemma gate_and_record_eq (ekf : Ekf) :
  gate_and_record ekf = (gate_locals ekf, gate_ekf ekf).
Proof.
  unfold gate_and_record, gate_ekf, gate_locals, ratio_ekf, assembled_locals,
    assembled_ekf, locals_before_height.
  now destruct (assemble_height _ _).
Qed.

Lemma fuse_map_before_height (ekf : Ekf) :
  fuse_map (locals_before_height ekf) =
  [ _fuse_hor_vel ekf || _fuse_hor_vel_aux ekf;
    _fuse_hor_vel ekf || _fuse_hor_vel_aux ekf;
    _fuse_vert_vel ekf; _fuse_pos ekf; _fuse_pos ekf; false ].
Proof.
  unfold locals_before_height, assemble_pos, assemble_vert_vel, assemble_hor_vel.
  destruct (_fuse_hor_vel ekf), (_fuse_hor_vel_aux ekf), (_fuse_vert_vel ekf),
    (_fuse_pos ekf); reflexivity.
Qed.

Lemma fuse_map_assembled (ekf : Ekf) :
  fuse_map (assembled_locals ekf) =
  [ _fuse_hor_vel ekf || _fuse_hor_vel_aux ekf;
    _fuse_hor_vel ekf || _fuse_hor_vel_aux ekf;
    _fuse_vert_vel ekf; _fuse_pos ekf; _fuse_pos ekf;
    _fuse_height ekf && hgt_source_selected ekf ].
Proof.
  unfold assembled_locals, assemble_height, hgt_source_selected.
  destruct (_fuse_height ekf); simpl.
  - destruct (baro_hgt (_control_status ekf));
      [ | destruct (gps_hgt (_control_status ekf));
          [ | destruct (rng_hgt (_control_status ekf)
                        && (_R_rng_to_earth_2_2 ekf >? range_cos_max_tilt (_params ekf)));
              [ | destruct (ev_hgt (_control_status ekf)) ] ] ];
      simpl; unfold assemble_baro_hgt, assemble_gps_hgt, assemble_rng_hgt, assemble_ev_hgt;
      simpl; rewrite ?fuse_map_before_height; reflexivity.
  - apply fuse_map_before_height.
Qed.

(** The assembler writes [_vel_pos_innov] only. *)
Lemma assembled_ekf_frame (ekf : Ekf) :
  exists a, assembled_ekf ekf = set_vel_pos_innov a ekf.
Proof.
  unfold assembled_ekf, assemble_height.
  destruct (_fuse_height ekf); simpl.
  - eexists; reflexivity.
  - exists (_vel_pos_innov ekf). now destruct ekf.
Qed.

(** Inactive slots keep their stored innovation variance and test ratio. *)
Lemma test_ratio_fold_inactive (l : locals) (i : nat) (idx : list nat) :
  bget (fuse_map l) i = false ->
  forall ekf : Ekf,
    fget (_vel_pos_test_ratio (fold_left (test_ratio_step l) idx ekf)) i
    = fget (_vel_pos_test_ratio ekf) i
    /\ fget (_vel_pos_innov_var (fold_left (test_ratio_step l) idx ekf)) i
       = fget (_vel_pos_innov_var ekf) i.
Proof.
  intros Hi. induction idx as [|j idx IH]; intros ekf; simpl; auto.
  destruct (IH (test_ratio_step l ekf j)) as [-> ->].
  unfold test_ratio_step. destruct (bget (fuse_map l) j) eqn:Hj; auto.
  assert (j <> i) by congruence.
  simpl. unfold fget. now rewrite !nth_aset_ne.
Qed.

Lemma test_ratios_inactive (l : locals) (ekf : Ekf) (i : nat) :
  bget (fuse_map l) i = false ->
  fget (_vel_pos_test_ratio (test_ratios l ekf)) i = fget (_vel_pos_test_ratio ekf) i
  /\ fget (_vel_pos_innov_var (test_ratios l ekf)) i = fget (_vel_pos_innov_var ekf) i.
Proof. intros Hi. now apply test_ratio_fold_inactive. Qed.

Lemma fuse_map_innov_checks (v p : bool) (ekf : Ekf) (l : locals) :
  fuse_map (innov_checks v p ekf l) = fuse_map l.
Proof. reflexivity. Qed.

Lemma pass_map_before_height (ekf : Ekf) :
  innov_check_pass_map (locals_before_height ekf) = repeat false 6.
Proof.
  unfold locals_before_height, assemble_pos, assemble_vert_vel, assemble_hor_vel.
  destruct (_fuse_hor_vel ekf), (_fuse_hor_vel_aux ekf), (_fuse_vert_vel ekf),
    (_fuse_pos ekf); reflexivity.
Qed.

Lemma pass_map_assembled (ekf : Ekf) :
  innov_check_pass_map (assembled_locals ekf) = repeat false 6.
Proof.
  unfold assembled_locals, assemble_height.
  destruct (_fuse_height ekf); ekf_simpl.
  - destruct (baro_hgt (_control_status ekf));
      [ | destruct (gps_hgt (_control_status ekf));
          [ | destruct (rng_hgt (_control_status ekf)
                        && (_R_rng_to_earth_2_2 ekf >? range_cos_max_tilt (_params ekf)));
              [ | destruct (ev_hgt (_control_status ekf)) ] ] ];
      unfold assemble_baro_hgt, assemble_gps_hgt, assemble_rng_hgt, assemble_ev_hgt;
      ekf_simpl; apply pass_map_before_height.
  - apply pass_map_before_height.
Qed.

Lemma pass_map_innov_checks (v p : bool) (ekf : Ekf) (l : locals) :
  innov_check_pass_map l = repeat false 6 ->
  innov_check_pass_map (innov_checks v p ekf l) = [v; v; v; p; p; hgt_check ekf].
Proof.
  intros Hl. unfold innov_checks. ekf_simpl. rewrite Hl. reflexivity.
Qed.

Lemma gate_locals_pass_map (ekf : Ekf) :
  innov_check_pass_map (gate_locals ekf)
  = [ vel_check (ratio_ekf ekf); vel_check (ratio_ekf ekf); vel_check (ratio_ekf ekf);
      pos_check (ratio_ekf ekf); pos_check (ratio_ekf ekf); hgt_check (ratio_ekf ekf) ].
Proof. unfold gate_locals. apply pass_map_innov_checks, pass_map_assembled. Qed.

Lemma gate_locals_fuse_map (ekf : Ekf) :
  fuse_map (gate_locals ekf) =
  [ _fuse_hor_vel ekf || _fuse_hor_vel_aux ekf;
    _fuse_hor_vel ekf || _fuse_hor_vel_aux ekf;
    _fuse_vert_vel ekf; _fuse_pos ekf; _fuse_pos ekf;
    _fuse_height ekf && hgt_source_selected ekf ].
Proof. unfold gate_locals. rewrite fuse_map_innov_checks. apply fuse_map_assembled. Qed.

(** Up to the test ratio loop only the innovation arrays are written. *)
Lemma ratio_ekf_frame (ekf : Ekf) :
  exists a iv tr,
    ratio_ekf ekf
    = set_vel_pos_innov_var iv (set_vel_pos_test_ratio tr (set_vel_pos_innov a ekf)).
Proof.
  unfold ratio_ekf.
  destruct (test_ratios_frame (assembled_locals ekf) (assembled_ekf ekf)) as (iv & tr & ->).
  destruct (assembled_ekf_frame ekf) as (a & ->).
  now exists a, iv, tr.
Qed.

Lemma ratio_ekf_fields (ekf : Ekf) :
  P (ratio_ekf ekf) = P ekf /\ _state (ratio_ekf ekf) = _state ekf
  /\ _fault_status (ratio_ekf ekf) = _fault_status ekf
  /\ _control_status (ratio_ekf ekf) = _control_status ekf
  /\ _fuse_hor_vel (ratio_ekf ekf) = _fuse_hor_vel ekf
  /\ _fuse_hor_vel_aux (ratio_ekf ekf) = _fuse_hor_vel_aux ekf
  /\ _fuse_vert_vel (ratio_ekf ekf) = _fuse_vert_vel ekf
  /\ _fuse_pos (ratio_ekf ekf) = _fuse_pos ekf
  /\ _fuse_height (ratio_ekf ekf) = _fuse_height ekf
  /\ _fuse_hpos_as_odom (ratio_ekf ekf) = _fuse_hpos_as_odom ekf
  /\ _time_last_imu (ratio_ekf ekf) = _time_last_imu ekf
  /\ _time_last_vel_fuse (ratio_ekf ekf) = _time_last_vel_fuse ekf
  /\ _time_last_pos_fuse (ratio_ekf ekf) = _time_last_pos_fuse ekf
  /\ _time_last_delpos_fuse (ratio_ekf ekf) = _time_last_delpos_fuse ekf
  /\ _time_last_hgt_fuse (ratio_ekf ekf) = _time_last_hgt_fuse ekf
  /\ _innov_check_fail_status (ratio_ekf ekf) = _innov_check_fail_status ekf.
Proof.
  destruct (ratio_ekf_frame ekf) as (a & iv & tr & ->). ekf_simpl. repeat split.
Qed.

(** The stored test ratio and innovation variance of a slot that is not
    live survive the test ratio loop. *)
Lemma ratio_ekf_inactive (ekf : Ekf) (i : nat) :
  bget (fuse_map (assembled_locals ekf)) i = false ->
  fget (_vel_pos_test_ratio (ratio_ekf ekf)) i = fget (_vel_pos_test_ratio ekf) i
  /\ fget (_vel_pos_innov_var (ratio_ekf ekf)) i = fget (_vel_pos_innov_var ekf) i.
Proof.
  intros Hi. unfold ratio_ekf.
  destruct (test_ratios_inactive (assembled_locals ekf) (assembled_ekf ekf) i Hi)
    as [-> ->].
  destruct (assembled_ekf_frame ekf) as (a & ->). now ekf_simpl.
Qed.

(** ** The health and timing ledger *)

Lemma record_vel_fuse_eq (v : bool) (ekf : Ekf) :
  record_vel_fuse v ekf =
  let c := (_fuse_hor_vel ekf || _fuse_hor_vel_aux ekf || _fuse_vert_vel ekf) && v in
  set_fuse_hor_vel false (set_fuse_hor_vel_aux false (set_fuse_vert_vel false
    (set_innov_check_fail_status
       (set_reject_vel_NED
          (if c then false else if negb v then true
           else reject_vel_NED (_innov_check_fail_status ekf))
          (_innov_check_fail_status ekf))
       (set_time_last_vel_fuse
          (if c then _time_last_imu ekf else _time_last_vel_fuse ekf) ekf)))).
Proof.
  unfold record_vel_fuse. cbv zeta.
  destruct ((_fuse_hor_vel ekf || _fuse_hor_vel_aux ekf || _fuse_vert_vel ekf) && v).
  - reflexivity.
  - destruct v; cbn [negb]; destruct ekf as [? ? ? ? ? ? ? ? ? ? ? ? ? ? ? ? ? ?
      ? ? ? ? ? ? ? ? ? ? ? ? ? [? ? ?] ?]; reflexivity.
Qed.

Lemma record_pos_fuse_eq (p : bool) (ekf : Ekf) :
  record_pos_fuse p ekf =
  let c := p && _fuse_pos ekf in
  set_fuse_pos false
    (set_innov_check_fail_status
       (set_reject_pos_NE
          (if c then false else if negb p then true
           else reject_pos_NE (_innov_check_fail_status ekf))
          (_innov_check_fail_status ekf))
       (set_time_last_delpos_fuse
          (if c && _fuse_hpos_as_odom ekf
           then _time_last_imu ekf else _time_last_delpos_fuse ekf)
          (set_time_last_pos_fuse
             (if c && negb (_fuse_hpos_as_odom ekf)
              then _time_last_imu ekf else _time_last_pos_fuse ekf) ekf))).
Proof.
  unfold record_pos_fuse. cbv zeta.
  destruct (p && _fuse_pos ekf).
  - destruct (_fuse_hpos_as_odom ekf); cbn [negb andb];
      destruct ekf as [? ? ? ? ? ? ? ? ? ? ? ? ? ? ? ? ? ?
        ? ? ? ? ? ? ? ? ? ? ? ? ? [? ? ?] ?]; reflexivity.
  - destruct p; cbn [negb andb]; destruct ekf as [? ? ? ? ? ? ? ? ? ? ? ? ? ? ? ? ? ?
      ? ? ? ? ? ? ? ? ? ? ? ? ? [? ? ?] ?]; reflexivity.
Qed.

Lemma record_hgt_fuse_eq (l : locals) (ekf : Ekf) :
  record_hgt_fuse l ekf =
  let h := bget (innov_check_pass_map l) 5 in
  let c := h && _fuse_height ekf in
  set_fuse_height false
    (set_innov_check_fail_status
       (set_reject_pos_D
          (if c then false else if negb h then true
           else reject_pos_D (_innov_check_fail_status ekf))
          (_innov_check_fail_status ekf))
       (set_time_last_hgt_fuse
          (if c then _time_last_imu ekf else _time_last_hgt_fuse ekf) ekf)).
Proof.
  unfold record_hgt_fuse. cbv zeta.
  destruct (bget (innov_check_pass_map l) 5 && _fuse_height ekf).
  - reflexivity.
  - destruct (bget (innov_check_pass_map l) 5); cbn [negb];
      destruct ekf as [? ? ? ? ? ? ? ? ? ? ? ? ? ? ? ? ? ?
        ? ? ? ? ? ? ? ? ? ? ? ? ? [? ? ?] ?]; reflexivity.
Qed.

Lemma gate_ekf_flags (ekf : Ekf) :
  _fuse_hor_vel (gate_ekf ekf) = false /\ _fuse_hor_vel_aux (gate_ekf ekf) = false
  /\ _fuse_vert_vel (gate_ekf ekf) = false /\ _fuse_pos (gate_ekf ekf) = false
  /\ _fuse_height (gate_ekf ekf) = false.
Proof.
  unfold gate_ekf. generalize (gate_locals ekf) (vel_check (ratio_ekf ekf))
    (pos_check (ratio_ekf ekf)) (ratio_ekf ekf).
  intros l v p e.
  rewrite record_hgt_fuse_eq, record_pos_fuse_eq, record_vel_fuse_eq.
  cbv zeta. ekf_simpl. repeat split.
Qed.

(** The ledger leaves the covariance, the states, the fault flags and the
    innovation arrays alone. *)
Lemma gate_ekf_frame (ekf : Ekf) :
  P (gate_ekf ekf) = P (ratio_ekf ekf)
  /\ _state (gate_ekf ekf) = _state (ratio_ekf ekf)
  /\ _fault_status (gate_ekf ekf) = _fault_status (ratio_ekf ekf)
  /\ _vel_pos_innov (gate_ekf ekf) = _vel_pos_innov (ratio_ekf ekf)
  /\ _vel_pos_innov_var (gate_ekf ekf) = _vel_pos_innov_var (ratio_ekf ekf)
  /\ _vel_pos_test_ratio (gate_ekf ekf) = _vel_pos_test_ratio (ratio_ekf ekf).
Proof.
  unfold gate_ekf. generalize (gate_locals ekf) (vel_check (ratio_ekf ekf))
    (pos_check (ratio_ekf ekf)) (ratio_ekf ekf).
  intros l v p e.
  rewrite record_hgt_fuse_eq, record_pos_fuse_eq, record_vel_fuse_eq.
  cbv zeta. ekf_simpl. repeat split.
Qed.

(** What the ledger records, for a velocity check [v], a position check [p]
    and the height entry of the pass map. *)
Lemma ledger_outcome (l : locals) (v p : bool) (ekf : Ekf) :
  let ekf' := record_hgt_fuse l (record_pos_fuse p (record_vel_fuse v ekf)) in
  let h := bget (innov_check_pass_map l) 5 in
  let req_vel := _fuse_hor_vel ekf || _fuse_hor_vel_aux ekf || _fuse_vert_vel ekf in
  _time_last_vel_fuse ekf'
  = (if req_vel && v then _time_last_imu ekf else _time_last_vel_fuse ekf)
  /\ _time_last_pos_fuse ekf'
     = (if p && _fuse_pos ekf && negb (_fuse_hpos_as_odom ekf)
        then _time_last_imu ekf else _time_last_pos_fuse ekf)
  /\ _time_last_delpos_fuse ekf'
     = (if p && _fuse_pos ekf && _fuse_hpos_as_odom ekf
        then _time_last_imu ekf else _time_last_delpos_fuse ekf)
  /\ _time_last_hgt_fuse ekf'
     = (if h && _fuse_height ekf then _time_last_imu ekf else _time_last_hgt_fuse ekf)
  /\ reject_vel_NED (_innov_check_fail_status ekf')
     = (if req_vel && v then false
        else if negb v then true
        else reject_vel_NED (_innov_check_fail_status ekf))
  /\ reject_pos_NE (_innov_check_fail_status ekf')
     = (if p && _fuse_pos ekf then false
        else if negb p then true
        else reject_pos_NE (_innov_check_fail_status ekf))
  /\ reject_pos_D (_innov_check_fail_status ekf')
     = (if h && _fuse_height ekf then false
        else if negb h then true
        else reject_pos_D (_innov_check_fail_status ekf)).
Proof.
  cbv zeta. rewrite record_hgt_fuse_eq, record_pos_fuse_eq, record_vel_fuse_eq.
  cbv zeta. ekf_simpl. repeat split.
Qed.

(** The same for the routine, in terms of the filter on entry. *)
Lemma gate_ekf_ledger (ekf : Ekf) :
  let v := vel_check (ratio_ekf ekf) in
  let p := pos_check (ratio_ekf ekf) in
  let h := hgt_check (ratio_ekf ekf) in
  let req_vel := _fuse_hor_vel ekf || _fuse_hor_vel_aux ekf || _fuse_vert_vel ekf in
  _time_last_vel_fuse (gate_ekf ekf)
  = (if req_vel && v then _time_last_imu ekf else _time_last_vel_fuse ekf)
  /\ _time_last_pos_fuse (gate_ekf ekf)
     = (if p && _fuse_pos ekf && negb (_fuse_hpos_as_odom ekf)
        then _time_last_imu ekf else _time_last_pos_fuse ekf)
  /\ _time_last_delpos_fuse (gate_ekf ekf)
     = (if p && _fuse_pos ekf && _fuse_hpos_as_odom ekf
        then _time_last_imu ekf else _time_last_delpos_fuse ekf)
  /\ _time_last_hgt_fuse (gate_ekf ekf)
     = (if h && _fuse_height ekf then _time_last_imu ekf else _time_last_hgt_fuse ekf)
  /\ reject_vel_NED (_innov_check_fail_status (gate_ekf ekf))
     = (if req_vel && v then false
        else if negb v then true
        else reject_vel_NED (_innov_check_fail_status ekf))
  /\ reject_pos_NE (_innov_check_fail_status (gate_ekf ekf))
     = (if p && _fuse_pos ekf then false
        else if negb p then true
        else reject_pos_NE (_innov_check_fail_status ekf))
  /\ reject_pos_D (_innov_check_fail_status (gate_ekf ekf))
     = (if h && _fuse_height ekf then false
        else if negb h then true
        else reject_pos_D (_innov_check_fail_status ekf)).
Proof.
  cbv zeta.
  pose proof (ledger_outcome (gate_locals ekf) (vel_check (ratio_ekf ekf))
                (pos_check (ratio_ekf ekf)) (ratio_ekf ekf)) as H.
  cbv zeta in H. fold (gate_ekf ekf) in H.
  rewrite gate_locals_pass_map in H.
  change (bget [vel_check (ratio_ekf ekf); vel_check (ratio_ekf ekf);
                vel_check (ratio_ekf ekf); pos_check (ratio_ekf ekf);
                pos_check (ratio_ekf ekf); hgt_check (ratio_ekf ekf)] 5)
    with (hgt_check (ratio_ekf ekf)) in H.
  destruct (ratio_ekf_fields ekf)
    as (_ & _ & _ & _ & E1 & E2 & E3 & E4 & E5 & E6 & E7 & E8 & E9 & E10 & E11 & E12).
  rewrite E1, E2, E3, E4, E5, E6, E7, E8, E9, E10, E11, E12 in H.
  exact H.
Qed.

Section Ledger.

Variable fixCovarianceErrors : matrix -> matrix.
Variable fuse : list float32 -> float32 -> list float32 -> list float32.

Lemma fuseVelPosHeight_eq (ekf : Ekf) :
  fuseVelPosHeight fixCovarianceErrors fuse ekf
  = sequential_fusion fixCovarianceErrors fuse (gate_locals ekf) (seq 0 6) (gate_ekf ekf).
Proof. unfold fuseVelPosHeight. now rewrite gate_and_record_eq. Qed.

(** C6.  Whatever the input, the routine returns with all five one-shot
    request flags false: [_fuse_hor_vel], [_fuse_hor_vel_aux],
    [_fuse_vert_vel], [_fuse_pos] and [_fuse_height]. *)
Theorem request_flags_one_shot (ekf : Ekf) :
  let ekf' := fuseVelPosHeight fixCovarianceErrors fuse ekf in
  _fuse_hor_vel ekf' = false /\ _fuse_hor_vel_aux ekf' = false
  /\ _fuse_vert_vel ekf' = false /\ _fuse_pos ekf' = false
  /\ _fuse_height ekf' = false.
Proof.
  cbv zeta. rewrite fuseVelPosHeight_eq.
  destruct (sequential_fusion_preserves fixCovarianceErrors fuse (gate_locals ekf)
              (seq 0 6) (gate_ekf ekf)) as (-> & -> & -> & -> & -> & _).
  apply gate_ekf_flags.
Qed.

End Ledger.
(** ** Checks on stored ratios *)

(** A group none of whose slots is live is checked on the test ratios
    stored by an earlier call. *)
Lemma vel_check_stale (ekf : Ekf) :
  _fuse_hor_vel ekf = false -> _fuse_hor_vel_aux ekf = false ->
  _fuse_vert_vel ekf = false ->
  vel_check (ratio_ekf ekf) = vel_check ekf.
Proof.
  intros H1 H2 H3. unfold vel_check.
  destruct (ratio_ekf_inactive ekf 0) as [-> _];
    [ rewrite fuse_map_assembled, H1, H2; reflexivity | ].
  destruct (ratio_ekf_inactive ekf 1) as [-> _];
    [ rewrite fuse_map_assembled, H1, H2; reflexivity | ].
  destruct (ratio_ekf_inactive ekf 2) as [-> _];
    [ rewrite fuse_map_assembled, H3; reflexivity | ].
  reflexivity.
Qed.

Lemma pos_check_stale (ekf : Ekf) :
  _fuse_pos ekf = false -> pos_check (ratio_ekf ekf) = pos_check ekf.
Proof.
  intros H. unfold pos_check.
  destruct (ratio_ekf_inactive ekf 3) as [-> _];
    [ rewrite fuse_map_assembled, H; reflexivity | ].
  destruct (ratio_ekf_inactive ekf 4) as [-> _];
    [ rewrite fuse_map_assembled, H; reflexivity | ].
  destruct (ratio_ekf_fields ekf) as (_ & _ & _ & -> & _). reflexivity.
Qed.

Lemma hgt_check_stale (ekf : Ekf) :
  _fuse_height ekf && hgt_source_selected ekf = false ->
  hgt_check (ratio_ekf ekf) = hgt_check ekf.
Proof.
  intros H. unfold hgt_check.
  destruct (ratio_ekf_inactive ekf 5) as [-> _];
    [ rewrite fuse_map_assembled, H; reflexivity | ].
  destruct (ratio_ekf_fields ekf) as (_ & _ & _ & -> & _). reflexivity.
Qed.

Section Idle.

Variable fixCovarianceErrors : matrix -> matrix.
Variable fuse : list float32 -> float32 -> list float32 -> list float32.

(** The sequential loop skips a slot that is not live. *)
Lemma fuse_obs_inactive (l : locals) (ekf : Ekf) (obs_index : nat) :
  bget (fuse_map l) obs_index = false ->
  fuse_obs fixCovarianceErrors fuse l ekf obs_index = ekf.
Proof. intros H. unfold fuse_obs. now rewrite H. Qed.

Lemma sequential_fusion_idle (l : locals) (slots : list nat) (ekf : Ekf) :
  (forall i, In i slots -> bget (fuse_map l) i = false) ->
  sequential_fusion fixCovarianceErrors fuse l slots ekf = ekf.
Proof.
  unfold sequential_fusion. revert ekf.
  induction slots as [|i slots IH]; intros ekf H; simpl; auto.
  rewrite fuse_obs_inactive by (apply H; now left).
  apply IH. intros j Hj. apply H. now right.
Qed.

(** C5.  If all five request flags are false on entry, the states [x] and
    the covariance [P] are unchanged on exit and none of the four last-fuse
    timestamps is updated. *)
Theorem no_request_no_change (ekf : Ekf) :
  _fuse_hor_vel ekf = false -> _fuse_hor_vel_aux ekf = false ->
  _fuse_vert_vel ekf = false -> _fuse_pos ekf = false -> _fuse_height ekf = false ->
  let ekf' := fuseVelPosHeight fixCovarianceErrors fuse ekf in
  _state ekf' = _state ekf /\ P ekf' = P ekf
  /\ _time_last_vel_fuse ekf' = _time_last_vel_fuse ekf
  /\ _time_last_pos_fuse ekf' = _time_last_pos_fuse ekf
  /\ _time_last_delpos_fuse ekf' = _time_last_delpos_fuse ekf
  /\ _time_last_hgt_fuse ekf' = _time_last_hgt_fuse ekf.
Proof.
  intros H1 H2 H3 H4 H5. cbv zeta. rewrite fuseVelPosHeight_eq.
  rewrite sequential_fusion_idle.
  - destruct (gate_ekf_frame ekf) as (-> & -> & _).
    destruct (ratio_ekf_fields ekf) as (-> & -> & _).
    destruct (gate_ekf_ledger ekf) as (-> & -> & -> & -> & _).
    rewrite H1, H2, H3, H4, H5. cbn [orb andb].
    rewrite !andb_false_r. cbn [andb]. repeat split.
  - intros i _. rewrite gate_locals_fuse_map, H1, H2, H3, H4, H5.
    cbn [orb andb]. unfold bget.
    do 6 (destruct i as [|i]; [reflexivity|]). now destruct i.
Qed.

(** C10.  The reject flags are written on calls without the corresponding
    request: with no velocity request, [reject_vel_NED] is set whenever the
    stored test ratios of slots 0..2 fail the velocity check; likewise
    [reject_pos_NE] without [_fuse_pos] and [reject_pos_D] without
    [_fuse_height], on the stored ratios of their slots. *)
Theorem reject_flags_follow_stored_ratios (ekf : Ekf) :
  let ekf' := fuseVelPosHeight fixCovarianceErrors fuse ekf in
  (_fuse_hor_vel ekf = false -> _fuse_hor_vel_aux ekf = false ->
   _fuse_vert_vel ekf = false -> vel_check ekf = false ->
   reject_vel_NED (_innov_check_fail_status ekf') = true)
  /\ (_fuse_pos ekf = false -> pos_check ekf = false ->
      reject_pos_NE (_innov_check_fail_status ekf') = true)
  /\ (_fuse_height ekf = false -> hgt_check ekf = false ->
      reject_pos_D (_innov_check_fail_status ekf') = true).
Proof.
  cbv zeta. rewrite fuseVelPosHeight_eq.
  destruct (sequential_fusion_preserves fixCovarianceErrors fuse (gate_locals ekf)
              (seq 0 6) (gate_ekf ekf)) as (_ & _ & _ & _ & _ & _ & _ & _ & _ & -> & _).
  destruct (gate_ekf_ledger ekf) as (_ & _ & _ & _ & -> & -> & ->).
  repeat split.
  - intros H1 H2 H3 Hv. rewrite vel_check_stale, Hv, H1, H2, H3 by assumption.
    reflexivity.
  - intros H Hp. rewrite pos_check_stale, Hp, H by assumption. reflexivity.
  - intros H Hh. rewrite hgt_check_stale, Hh, H by (rewrite H; reflexivity).
    reflexivity.
Qed.

End Idle.
Section VelocityGroup.

Variable fixCovarianceErrors : matrix -> matrix.
Variable fuse : list float32 -> float32 -> list float32 -> list float32.

(** The test ratios the routine returns are those of the gate. *)
Lemma final_test_ratio (ekf : Ekf) :
  _vel_pos_test_ratio (fuseVelPosHeight fixCovarianceErrors fuse ekf)
  = _vel_pos_test_ratio (ratio_ekf ekf).
Proof.
  rewrite fuseVelPosHeight_eq.
  destruct (sequential_fusion_preserves fixCovarianceErrors fuse (gate_locals ekf)
              (seq 0 6) (gate_ekf ekf)) as (_ & _ & _ & _ & _ & _ & _ & _ & _ & _ & _ & _ & ->).
  now destruct (gate_ekf_frame ekf) as (_ & _ & _ & _ & _ & ->).
Qed.

Lemma final_ledger (ekf : Ekf) :
  let ekf' := fuseVelPosHeight fixCovarianceErrors fuse ekf in
  _time_last_vel_fuse ekf' = _time_last_vel_fuse (gate_ekf ekf)
  /\ _time_last_pos_fuse ekf' = _time_last_pos_fuse (gate_ekf ekf)
  /\ _time_last_delpos_fuse ekf' = _time_last_delpos_fuse (gate_ekf ekf)
  /\ _time_last_hgt_fuse ekf' = _time_last_hgt_fuse (gate_ekf ekf)
  /\ _innov_check_fail_status ekf' = _innov_check_fail_status (gate_ekf ekf).
Proof.
  cbv zeta. rewrite fuseVelPosHeight_eq.
  destruct (sequential_fusion_preserves fixCovarianceErrors fuse (gate_locals ekf)
              (seq 0 6) (gate_ekf ekf))
    as (_ & _ & _ & _ & _ & -> & -> & -> & -> & -> & _).
  repeat split.
Qed.

(** C1 (amended).  The velocity group is checked on the three test ratios
    held in [_vel_pos_test_ratio[0..2]]: the ratio computed in this call for
    a live slot, the stored one for a slot that is not live.  Provided the
    stored ratio of every velocity slot that is not live is at most 1, the
    group passes if and only if every live velocity slot has a test ratio
    of at most 1.  The decision is written to all of [pass[0..2]]; when the
    group fails, [reject_vel_NED] is set and [_time_last_vel_fuse] is not
    advanced, and when it passes on a velocity request the time is stamped
    and the flag cleared. *)
Theorem vel_group_decision (ekf : Ekf) :
  let l := fst (gate_and_record ekf) in
  let ekf' := fuseVelPosHeight fixCovarianceErrors fuse ekf in
  let live i := bget (fuse_map l) i in
  let pass i := bget (innov_check_pass_map l) i in
  let ratio i := fget (_vel_pos_test_ratio ekf') i in
  (pass 0%nat = true <-> (forall i, (i < 3)%nat -> (ratio i <=? f1) = true))
  /\ (forall i, (i < 3)%nat -> live i = false ->
                ratio i = fget (_vel_pos_test_ratio ekf) i)
  /\ ((forall i, (i < 3)%nat -> live i = false ->
                 (fget (_vel_pos_test_ratio ekf) i <=? f1) = true) ->
      (pass 0%nat = true <->
       (forall i, (i < 3)%nat -> live i = true -> (ratio i <=? f1) = true)))
  /\ pass 1%nat = pass 0%nat /\ pass 2%nat = pass 0%nat
  /\ (pass 0%nat = false ->
      reject_vel_NED (_innov_check_fail_status ekf') = true
      /\ _time_last_vel_fuse ekf' = _time_last_vel_fuse ekf)
  /\ (pass 0%nat = true ->
      _fuse_hor_vel ekf || _fuse_hor_vel_aux ekf || _fuse_vert_vel ekf = true ->
      reject_vel_NED (_innov_check_fail_status ekf') = false
      /\ _time_last_vel_fuse ekf' = _time_last_imu ekf).
Proof.
  cbv zeta. rewrite gate_and_record_eq. cbn [fst].
  rewrite gate_locals_pass_map, final_test_ratio.
  destruct (final_ledger ekf) as (-> & _ & _ & _ & ->).
  destruct (gate_ekf_ledger ekf) as (-> & _ & _ & _ & -> & _).
  unfold gate_locals. rewrite fuse_map_innov_checks.
  cbn [bget nth].
  assert (Hall : vel_check (ratio_ekf ekf) = true
                 <-> (forall i, (i < 3)%nat ->
                        (fget (_vel_pos_test_ratio (ratio_ekf ekf)) i <=? f1) = true)).
  { unfold vel_check. rewrite !andb_true_iff. split.
    - intros [[H0 H1] H2] i Hi. destruct i as [|[|[|i]]]; auto; lia.
    - intros H. repeat split; apply H; lia. }
  split; [exact Hall|].
  split; [intros i _ Hdead; now destruct (ratio_ekf_inactive ekf i Hdead)|].
  split.
  - intros Hstale. rewrite Hall. split.
    + intros H i Hi _. now apply H.
    + intros H i Hi.
      destruct (bget (fuse_map (assembled_locals ekf)) i) eqn:Hlive; [now apply H|].
      destruct (ratio_ekf_inactive ekf i Hlive) as [-> _]. now apply Hstale.
  - split; [reflexivity|]. split; [reflexivity|].
    split; [intros Hfail | intros Hpass Hreq].
    + rewrite Hfail, andb_false_r. split; reflexivity.
    + rewrite Hpass, Hreq. split; reflexivity.
Qed.

End VelocityGroup.

(** C1 as stated fails: with only a vertical velocity request and a stored
    ratio of 2 in the north velocity slot, every live velocity slot has a
    test ratio of at most 1, yet the group is rejected; with a stored ratio
    of 0 in that slot the same request passes. *)
Lemma vel_group_reads_stored_ratio :
  let l := fst (gate_and_record ekf_stale_vel) in
  let ekf' := fuseVelPosHeight keep_covariance fuse_linear ekf_stale_vel in
  ~ (bget (innov_check_pass_map l) 0 = true <->
     (forall i, (i < 3)%nat -> bget (fuse_map l) i = true ->
                (fget (_vel_pos_test_ratio ekf') i <=? f1) = true))
  /\ reject_vel_NED (_innov_check_fail_status ekf') = true
  /\ _time_last_vel_fuse ekf' = 0%Z
  /\ bget (innov_check_pass_map
             (fst (gate_and_record
                     (set_vel_pos_test_ratio (repeat f0 6) ekf_stale_vel)))) 0 = true.
Proof.
  cbv zeta. split; [|vm_compute; auto].
  intros [_ H].
  assert (Hpass : bget (innov_check_pass_map (fst (gate_and_record ekf_stale_vel))) 0 = false)
    by (vm_compute; reflexivity).
  rewrite H in Hpass; [discriminate|].
  intros i Hi. destruct i as [|[|[|i]]]; try lia; vm_compute; auto.
Qed.

Lemma vel_group_decision_witness :
  let ekf := sample_ekf no_hgt_source false true false false true (repeat f0 6) f1 in
  let l := fst (gate_and_record ekf) in
  let ekf' := fuseVelPosHeight keep_covariance fuse_linear ekf in
  (forall i, (i < 3)%nat -> bget (fuse_map l) i = false ->
             (fget (_vel_pos_test_ratio ekf) i <=? f1) = true)
  /\ bget (innov_check_pass_map l) 0 = true
  /\ reject_vel_NED (_innov_check_fail_status ekf) = true
  /\ reject_vel_NED (_innov_check_fail_status ekf') = false
  /\ _time_last_vel_fuse ekf' = 1000%Z.
Proof.
  cbv zeta.
  assert (Hstale : forall i, (i < 3)%nat ->
            bget (fuse_map (fst (gate_and_record
              (sample_ekf no_hgt_source false true false false true (repeat f0 6) f1)))) i
            = false ->
            (fget (_vel_pos_test_ratio
               (sample_ekf no_hgt_source false true false false true (repeat f0 6) f1)) i
             <=? f1) = true).
  { intros i Hi _. destruct i as [|[|[|i]]]; try lia; vm_compute; reflexivity. }
  split; [exact Hstale|].
  destruct (vel_group_decision keep_covariance fuse_linear
              (sample_ekf no_hgt_source false true false false true (repeat f0 6) f1))
    as (_ & _ & Hiff & _ & _ & _ & Hpass).
  assert (Hp : bget (innov_check_pass_map (fst (gate_and_record
              (sample_ekf no_hgt_source false true false false true (repeat f0 6) f1)))) 0
               = true).
  { apply (Hiff Hstale). intros i Hi _.
    destruct i as [|[|[|i]]]; try lia; vm_compute; reflexivity. }
  split; [exact Hp|]. split; [reflexivity|].
  apply Hpass; [exact Hp | vm_compute; reflexivity].
Defined.
(** ** Comparisons of binary32 numbers *)

Lemma SFcompare_antisym (x y : float32) :
  SFcompare y x = option_map CompOpp (SFcompare x y).
Proof.
  destruct x as [[]|[]| |[] mx ex], y as [[]|[]| |[] my ey]; simpl; try reflexivity;
    f_equal; rewrite (Z.compare_antisym ex ey); destruct (ex ?= ey)%Z; simpl;
    try reflexivity; rewrite <- (Pos.compare_cont_antisym _ _ Eq); simpl;
    try reflexivity; now rewrite CompOpp_involutive.
Qed.

(** [a <= b] excludes [a > b]. *)
Lemma fleb_not_gt (a b : float32) : (a <=? b) = true -> (a >? b) = false.
Proof.
  unfold fleb, fltb, SFleb, SFltb. rewrite (SFcompare_antisym a b).
  destruct (SFcompare a b) as [[| |]|]; simpl; auto; discriminate.
Qed.

Section MissingSource.

Variable fixCovarianceErrors : matrix -> matrix.
Variable fuse : list float32 -> float32 -> list float32 -> list float32.

Lemma final_innov_var (ekf : Ekf) :
  _vel_pos_innov_var (fuseVelPosHeight fixCovarianceErrors fuse ekf)
  = _vel_pos_innov_var (ratio_ekf ekf).
Proof.
  rewrite fuseVelPosHeight_eq.
  destruct (sequential_fusion_preserves fixCovarianceErrors fuse (gate_locals ekf)
              (seq 0 6) (gate_ekf ekf)) as (_ & _ & _ & _ & _ & _ & _ & _ & _ & _ & _ & -> & _).
  now destruct (gate_ekf_frame ekf) as (_ & _ & _ & _ & -> & _).
Qed.

Lemma sequential_fusion_snoc (l : locals) (slots : list nat) (i : nat) (ekf : Ekf) :
  sequential_fusion fixCovarianceErrors fuse l (slots ++ [i]) ekf
  = fuse_obs fixCovarianceErrors fuse l
      (sequential_fusion fixCovarianceErrors fuse l slots ekf) i.
Proof. unfold sequential_fusion. now rewrite fold_left_app. Qed.

(** C2 (amended).  If [_fuse_height] is set but no height source populates
    slot 5 (no height flag set, or only [rng_hgt] with
    [_R_rng_to_earth_2_2 <= range_cos_max_tilt]), slot 5 stays inactive and
    height fusion is skipped for the call: the sequential loop ends with
    slot 4 and the stored innovation variance and test ratio of slot 5 are
    kept.  The height check is then made on that stored ratio, and when it
    fails [_time_last_hgt_fuse] is not advanced and [reject_pos_D] is set. *)
Theorem missing_hgt_source_skips_fusion (ekf : Ekf) :
  _fuse_height ekf = true ->
  baro_hgt (_control_status ekf) = false ->
  gps_hgt (_control_status ekf) = false ->
  ev_hgt (_control_status ekf) = false ->
  (rng_hgt (_control_status ekf) = false
   \/ (_R_rng_to_earth_2_2 ekf <=? range_cos_max_tilt (_params ekf)) = true) ->
  let l := fst (gate_and_record ekf) in
  let ekf' := fuseVelPosHeight fixCovarianceErrors fuse ekf in
  bget (fuse_map l) 5 = false
  /\ ekf' = sequential_fusion fixCovarianceErrors fuse l (seq 0 5)
              (snd (gate_and_record ekf))
  /\ fget (_vel_pos_innov_var ekf') 5 = fget (_vel_pos_innov_var ekf) 5
  /\ fget (_vel_pos_test_ratio ekf') 5 = fget (_vel_pos_test_ratio ekf) 5
  /\ (hgt_check ekf = false ->
      _time_last_hgt_fuse ekf' = _time_last_hgt_fuse ekf
      /\ reject_pos_D (_innov_check_fail_status ekf') = true).
Proof.
  intros Hreq Hbaro Hgps Hev Hrng. cbv zeta.
  assert (Hsel : _fuse_height ekf && hgt_source_selected ekf = false).
  { unfold hgt_source_selected. rewrite Hbaro, Hgps, Hev, Hreq. cbn [orb andb].
    rewrite orb_false_r. destruct Hrng as [-> | Hle]; [reflexivity|].
    rewrite (fleb_not_gt _ _ Hle). apply andb_false_r. }
  assert (Hlive : bget (fuse_map (assembled_locals ekf)) 5 = false)
    by (rewrite fuse_map_assembled; exact Hsel).
  rewrite gate_and_record_eq. cbn [fst snd].
  rewrite final_innov_var, final_test_ratio.
  destruct (final_ledger fixCovarianceErrors fuse ekf) as (_ & _ & _ & -> & ->).
  destruct (gate_ekf_ledger ekf) as (_ & _ & _ & -> & _ & _ & ->).
  destruct (ratio_ekf_inactive ekf 5 Hlive) as [-> ->].
  rewrite (hgt_check_stale ekf Hsel).
  split; [unfold gate_locals; rewrite fuse_map_innov_checks; exact Hlive|].
  split.
  - rewrite fuseVelPosHeight_eq.
    change (seq 0 6) with (seq 0 5 ++ [5%nat]).
    rewrite sequential_fusion_snoc. apply fuse_obs_inactive.
    unfold gate_locals. rewrite fuse_map_innov_checks. exact Hlive.
  - split; [reflexivity|]. split; [reflexivity|].
    intros Hfail. rewrite Hfail. split; reflexivity.
Qed.

End MissingSource.

(** C2 as stated fails: with the range finder selected and tilted beyond
    the limit no source populates slot 5, yet the call advances
    [_time_last_hgt_fuse] from 0 to 1000 and clears [reject_pos_D], on the
    stored test ratio 0 of slot 5; with a stored ratio of 2 the same call
    sets [reject_pos_D]. *)
Lemma missing_hgt_source_still_recorded :
  let ekf := ekf_rng_tilted in
  let ekf' := fuseVelPosHeight keep_covariance fuse_linear ekf in
  let stale := fuseVelPosHeight keep_covariance fuse_linear ekf_rng_tilted_stale in
  _fuse_height ekf = true
  /\ baro_hgt (_control_status ekf) = false
  /\ gps_hgt (_control_status ekf) = false
  /\ ev_hgt (_control_status ekf) = false
  /\ rng_hgt (_control_status ekf) = true
  /\ (_R_rng_to_earth_2_2 ekf <=? range_cos_max_tilt (_params ekf)) = true
  /\ bget (fuse_map (fst (gate_and_record ekf))) 5 = false
  /\ _time_last_hgt_fuse ekf = 0%Z /\ _time_last_hgt_fuse ekf' = 1000%Z
  /\ reject_pos_D (_innov_check_fail_status ekf) = true
  /\ reject_pos_D (_innov_check_fail_status ekf') = false
  /\ reject_pos_D (_innov_check_fail_status ekf_rng_tilted_stale) = false
  /\ reject_pos_D (_innov_check_fail_status stale) = true.
Proof. vm_compute. repeat split. Qed.

Lemma missing_hgt_source_skips_fusion_witness :
  let ekf := ekf_rng_tilted_stale in
  let ekf' := fuseVelPosHeight keep_covariance fuse_linear ekf in
  (_fuse_height ekf = true
   /\ baro_hgt (_control_status ekf) = false
   /\ gps_hgt (_control_status ekf) = false
   /\ ev_hgt (_control_status ekf) = false
   /\ (_R_rng_to_earth_2_2 ekf <=? range_cos_max_tilt (_params ekf)) = true
   /\ hgt_check ekf = false)
  /\ bget (fuse_map (fst (gate_and_record ekf))) 5 = false
  /\ _time_last_hgt_fuse ekf' = 0%Z
  /\ reject_pos_D (_innov_check_fail_status ekf') = true.
Proof.
  cbv zeta. split; [vm_compute; repeat split|].
  destruct (missing_hgt_source_skips_fusion keep_covariance fuse_linear
              ekf_rng_tilted_stale)
    as (Hlive & _ & _ & _ & Hfail);
    [ reflexivity | reflexivity | reflexivity | reflexivity
    | right; vm_compute; reflexivity | ].
  split; [exact Hlive|]. apply Hfail. vm_compute. reflexivity.
Defined.
(** ** The variance check of the sequential updater *)

Lemma existsb_seq_pick (f : nat -> bool) (row column n : nat) :
  existsb (fun i => f i && ((row =? i)%nat || (column =? i)%nat)) (seq 0 n)
  = ((row <? n)%nat && f row) || ((column <? n)%nat && f column).
Proof.
  induction n as [|n IH].
  - reflexivity.
  - rewrite seq_S, existsb_app, IH. cbn [existsb Nat.add]. rewrite orb_false_r.
    destruct (Nat.eqb_spec row n) as [Hr|Hr], (Nat.eqb_spec column n) as [Hc|Hc];
      destruct (Nat.ltb_spec row n), (Nat.ltb_spec row (S n)),
        (Nat.ltb_spec column n), (Nat.ltb_spec column (S n)); try lia;
      try subst row; try subst column; cbn [andb orb];
      repeat match goal with |- context [f ?x] => destruct (f x) end; reflexivity.
Qed.

(** The scan over a list of distinct indices: the states are not touched,
    [healthy] is cleared as soon as one index fails, and exactly the rows and
    columns of the failing indices are zeroed.  [M0] carries the diagonal
    the scan started from. *)
Lemma health_fold_spec (obs_index : nat) (KHP M0 : matrix) (idx : list nat) :
  NoDup idx ->
  forall (ekf : Ekf) (healthy : bool),
    (forall i, In i idx -> mget (P ekf) i i = mget M0 i i) ->
    let r := fold_left (health_step obs_index KHP) idx (ekf, healthy) in
    _state (fst r) = _state ekf
    /\ snd r = healthy && forallb (fun i => negb (variance_fails M0 KHP i)) idx
    /\ forall row column,
         mget (P (fst r)) row column
         = if existsb (fun i => variance_fails M0 KHP i
                                && ((row =? i)%nat || (column =? i)%nat)) idx
           then f0 else mget (P ekf) row column.
Proof.
  induction 1 as [|a idx Ha Hnd IH]; intros ekf healthy Hdiag.
  - cbn. rewrite andb_true_r. auto.
  - cbn [fold_left health_step forallb existsb]. cbv zeta.
    fold (variance_fails (P ekf) KHP a).
    assert (Hfa : variance_fails (P ekf) KHP a = variance_fails M0 KHP a)
      by (unfold variance_fails; rewrite Hdiag by (now left); reflexivity).
    rewrite Hfa. destruct (variance_fails M0 KHP a) eqn:Hfail.
    + match goal with |- context [fold_left _ idx (?e, ?h)] =>
        destruct (IH e h) as (Hx & Hh & HP) end.
      { intros i Hi. ekf_simpl. rewrite mget_zeroCols, mget_zeroRows.
        destruct (Nat.eqb_spec i a) as [->|Hne]; [contradiction|].
        apply Hdiag. now right. }
      rewrite Hx, Hh. ekf_simpl. repeat split.
      * now rewrite andb_false_r.
      * intros row column. rewrite HP. ekf_simpl.
        rewrite mget_zeroCols, mget_zeroRows. cbn [andb negb].
        destruct (existsb _ idx); [now rewrite orb_true_r|].
        rewrite orb_false_r.
        destruct (row =? a)%nat, (column =? a)%nat; reflexivity.
    + match goal with |- context [fold_left _ idx (?e, ?h)] =>
        destruct (IH e h) as (Hx & Hh & HP) end.
      { intros i Hi. ekf_simpl. apply Hdiag. now right. }
      rewrite Hx, Hh. ekf_simpl. repeat split.
      intros row column. rewrite HP. ekf_simpl. reflexivity.
Qed.

Lemma health_check_spec (obs_index : nat) (KHP : matrix) (ekf : Ekf) :
  let r := health_check obs_index KHP ekf in
  _state (fst r) = _state ekf
  /\ snd r = forallb (fun i => negb (variance_fails (P ekf) KHP i)) (seq 0 _k_num_states)
  /\ forall row column,
       mget (P (fst r)) row column
       = if ((row <? _k_num_states)%nat && variance_fails (P ekf) KHP row)
            || ((column <? _k_num_states)%nat && variance_fails (P ekf) KHP column)
         then f0 else mget (P ekf) row column.
Proof.
  cbv zeta. unfold health_check.
  destruct (health_fold_spec obs_index KHP (P ekf) (seq_NoDup _k_num_states 0) ekf true)
    as (Hx & Hh & HP); [reflexivity|].
  repeat split; auto.
  intros row column. rewrite HP. now rewrite existsb_seq_pick.
Qed.

Section Guard.

Variable fixCovarianceErrors : matrix -> matrix.
Variable fuse : list float32 -> float32 -> list float32 -> list float32.

(** C4.  When the variance check fails for a live and accepted slot (some
    index [i] has [P[i][i] < KHP[i][i]]), the update of that slot is
    abandoned: the states are left as they are, the decrement is not
    applied, and [P] changes only in that the rows and columns of the
    failing indices are zeroed; the loop goes on with the slots that
    follow. *)
Theorem unhealthy_update_abandoned (l : locals) (ekf : Ekf) (obs_index : nat) :
  bget (fuse_map l) obs_index = true ->
  bget (innov_check_pass_map l) obs_index = true ->
  let KHP := cov_decrement ekf (kalman_gain ekf obs_index) obs_index in
  let fails i := (i <? _k_num_states)%nat && variance_fails (P ekf) KHP i in
  (exists i, fails i = true) ->
  let ekf' := fuse_obs fixCovarianceErrors fuse l ekf obs_index in
  _state ekf' = _state ekf
  /\ (forall row column,
        mget (P ekf') row column
        = if fails row || fails column then f0 else mget (P ekf) row column)
  /\ (forall slots,
        sequential_fusion fixCovarianceErrors fuse l (obs_index :: slots) ekf
        = sequential_fusion fixCovarianceErrors fuse l slots ekf').
Proof.
  intros Hlive Hpass. cbv zeta. intros [i Hi].
  apply andb_true_iff in Hi. destruct Hi as [Hlt Hfail].
  apply Nat.ltb_lt in Hlt.
  destruct (health_check_spec obs_index
              (cov_decrement ekf (kalman_gain ekf obs_index) obs_index) ekf)
    as (Hx & Hh & HP).
  assert (Heq : fuse_obs fixCovarianceErrors fuse l ekf obs_index
                = fst (health_check obs_index
                         (cov_decrement ekf (kalman_gain ekf obs_index) obs_index) ekf)).
  { unfold fuse_obs. rewrite Hlive, Hpass. cbn [negb orb]. cbv zeta.
    destruct (health_check obs_index _ ekf) as [ekf1 healthy].
    cbn [fst snd] in Hh |- *.
    assert (Hun : healthy = false).
    { rewrite Hh. apply not_true_is_false. intros Hall.
      rewrite forallb_forall in Hall.
      assert (Hin : In i (seq 0 _k_num_states)) by (apply in_seq; lia).
      specialize (Hall i Hin). now rewrite Hfail in Hall. }
    now rewrite Hun. }
  repeat split.
  - now rewrite Heq.
  - intros row column. rewrite Heq. apply HP.
Qed.

End Guard.
Lemma unhealthy_update_abandoned_witness :
  let l := fst (gate_and_record ekf_pos_hgt) in
  let ekf3 := fuse_obs keep_covariance fuse_linear l (snd (gate_and_record ekf_pos_hgt)) 3 in
  let KHP := cov_decrement ekf3 (kalman_gain ekf3 4) 4 in
  let ekf4 := fuse_obs keep_covariance fuse_linear l ekf3 4 in
  (bget (fuse_map l) 4 = true /\ bget (innov_check_pass_map l) 4 = true
   /\ variance_fails (P ekf3) KHP 9 = true)
  /\ _state ekf4 = _state ekf3
  /\ mget (P ekf4) 9 9 = f0 /\ mget (P ekf4) 8 9 = f0
  /\ mget (P ekf4) 8 8 = mget (P ekf3) 8 8
  /\ sequential_fusion keep_covariance fuse_linear l [4; 5]%nat ekf3
     = sequential_fusion keep_covariance fuse_linear l [5]%nat ekf4
  /\ bad_pos_D (_fault_status ekf4) = true
  /\ bad_pos_D (_fault_status
                  (sequential_fusion keep_covariance fuse_linear l [5]%nat ekf4)) = false.
Proof.
  cbv zeta. split; [vm_compute; repeat split|].
  destruct (unhealthy_update_abandoned keep_covariance fuse_linear
              (fst (gate_and_record ekf_pos_hgt))
              (fuse_obs keep_covariance fuse_linear (fst (gate_and_record ekf_pos_hgt))
                 (snd (gate_and_record ekf_pos_hgt)) 3) 4)
    as (Hx & HP & Hseq);
    [ vm_compute; reflexivity | vm_compute; reflexivity
    | exists 9%nat; vm_compute; reflexivity | ].
  split; [exact Hx|].
  split; [rewrite HP; vm_compute; reflexivity|].
  split; [rewrite HP; vm_compute; reflexivity|].
  split; [rewrite HP; vm_compute; reflexivity|].
  split; [apply Hseq|].
  split; vm_compute; reflexivity.
Defined.

(** The fault flag of a slot, once written. *)
Lemma bad_flag_set_bad (obs_index : nat) (v : bool) (s : fault_status) :
  (obs_index < 6)%nat -> bad_flag obs_index (set_bad obs_index v s) = v.
Proof.
  intros H. do 6 (destruct obs_index as [|obs_index]; [reflexivity|]). lia.
Qed.

(** After the scan the fault flag of the slot is the outcome of the test at
    the last index, 23, whatever happened at the indices before. *)
Lemma health_check_flag_last (obs_index : nat) (KHP : matrix) (ekf : Ekf) :
  (obs_index < 6)%nat ->
  bad_flag obs_index (_fault_status (fst (health_check obs_index KHP ekf)))
  = variance_fails (P ekf) KHP 23.
Proof.
  intros Hk. unfold health_check.
  change (seq 0 _k_num_states) with (seq 0 23 ++ [23%nat]).
  rewrite fold_left_app.
  destruct (@health_fold_spec obs_index KHP (P ekf) (seq 0 23) (seq_NoDup 23 0) ekf true)
    as (_ & _ & HP); [reflexivity|].
  specialize (HP 23%nat 23%nat). rewrite existsb_seq_pick in HP.
  cbn [Nat.ltb Nat.leb andb orb] in HP.
  destruct (fold_left _ (seq 0 23) (ekf, true)) as [ekf1 healthy].
  cbn [fst] in HP. cbn [fold_left health_step]. cbv zeta.
  fold (variance_fails (P ekf1) KHP 23).
  replace (variance_fails (P ekf1) KHP 23) with (variance_fails (P ekf) KHP 23)
    by (unfold variance_fails; now rewrite HP).
  destruct (variance_fails (P ekf) KHP 23); cbn [fst]; ekf_simpl;
    now apply bad_flag_set_bad.
Qed.

(** C3 fails on the code.  On [ekf_pos] the east position slot (slot 4) is
    fused after the north one; the test fails at index 9
    ([P[9][9] < KHP[9][9]]) and [healthy] is cleared, but the indices after
    9 pass and overwrite the flag: [bad_pos_E] is false when the scan ends
    and when the routine returns, although the filter entered with the flag
    set. *)
Theorem bad_flag_lost_after_failure :
  let l := fst (gate_and_record ekf_pos) in
  let ekf3 := fuse_obs keep_covariance fuse_linear l (snd (gate_and_record ekf_pos)) 3 in
  let KHP := cov_decrement ekf3 (kalman_gain ekf3 4) 4 in
  bget (fuse_map l) 4 = true /\ bget (innov_check_pass_map l) 4 = true
  /\ variance_fails (P ekf3) KHP 9 = true
  /\ snd (health_check 4 KHP ekf3) = false
  /\ bad_pos_E (_fault_status ekf3) = true
  /\ bad_pos_E (_fault_status (fst (health_check 4 KHP ekf3))) = false
  /\ bad_pos_E (_fault_status (fuseVelPosHeight keep_covariance fuse_linear ekf_pos))
     = false.
Proof. vm_compute. repeat split. Qed.
(** ** The height slot *)

Lemma lengths_before_height (ekf : Ekf) :
  length (innovation (locals_before_height ekf)) = 6%nat
  /\ length (R (locals_before_height ekf)) = 6%nat
  /\ length (gate_size (locals_before_height ekf)) = 6%nat.
Proof.
  unfold locals_before_height, assemble_pos, assemble_vert_vel, assemble_hor_vel.
  destruct (_fuse_hor_vel ekf), (_fuse_hor_vel_aux ekf), (_fuse_vert_vel ekf),
    (_fuse_pos ekf); ekf_simpl; cbn [orb negb];
    rewrite ?length_aset; repeat split; reflexivity.
Qed.

(** Reading back an entry of a local array. *)
Lemma fget_aset_eq (a : list float32) (i : nat) (v : float32) :
  (i < length a)%nat -> fget (aset a i v) i = v.
Proof. apply nth_aset_eq. Qed.

Ltac slot5 :=
  ekf_simpl; rewrite ?fget_aset_eq; rewrite ?length_aset; try reflexivity; try lia.

(** What each source stores in slot 5. *)
Lemma baro_slot5 (ekf : Ekf) (l : locals) :
  length (innovation l) = 6%nat -> length (R l) = 6%nat -> length (gate_size l) = 6%nat ->
  let l' := assemble_baro_hgt ekf l in
  fget (innovation l') 5
  = baro_deadzone (gnd_effect (_control_status ekf)) (gnd_effect_deadzone (_params ekf))
      (pos_2 (_state ekf) + baroSample.hgt (_baro_sample_delayed ekf)
       - _baro_hgt_offset ekf - _hgt_sensor_offset ekf)
  /\ fget (R l') 5 = sq (fmaxf (baro_noise (_params ekf)) f0_01)
  /\ fget (gate_size l') 5 = fmaxf (baro_innov_gate (_params ekf)) f1.
Proof.
  intros Hi Hr Hg. cbv zeta. unfold assemble_baro_hgt.
  repeat split; slot5; rewrite ?Hi, ?Hr, ?Hg; try lia.
Qed.

Lemma gps_slot5 (ekf : Ekf) (l : locals) :
  length (innovation l) = 6%nat -> length (R l) = 6%nat -> length (gate_size l) = 6%nat ->
  let l' := assemble_gps_hgt ekf l in
  fget (innovation l') 5
  = pos_2 (_state ekf) + gpsSample.hgt (_gps_sample_delayed ekf)
    - _gps_alt_ref ekf - _hgt_sensor_offset ekf
  /\ fget (R l') 5
     = sq (f1_5 * math.constrain (gpsSample.vacc (_gps_sample_delayed ekf))
                    (fmaxf (gps_pos_noise (_params ekf)) f0_01)
                    (fmaxf (pos_noaid_noise (_params ekf))
                       (fmaxf (gps_pos_noise (_params ekf)) f0_01)))
  /\ fget (gate_size l') 5 = fmaxf (baro_innov_gate (_params ekf)) f1.
Proof.
  intros Hi Hr Hg. cbv zeta. unfold assemble_gps_hgt.
  repeat split; slot5; rewrite ?Hi, ?Hr, ?Hg; try lia.
Qed.

Lemma rng_slot5 (ekf : Ekf) (l : locals) :
  length (innovation l) = 6%nat -> length (R l) = 6%nat -> length (gate_size l) = 6%nat ->
  let l' := assemble_rng_hgt ekf l in
  fget (innovation l') 5
  = pos_2 (_state ekf)
    - (- math.max (rangeSample.rng (_range_sample_delayed ekf) * _R_rng_to_earth_2_2 ekf)
                  (rng_gnd_clearance (_params ekf)))
    - _hgt_sensor_offset ekf
  /\ fget (R l') 5
     = fmaxf ((sq (range_noise (_params ekf))
               + sq (range_noise_scaler (_params ekf)
                     * rangeSample.rng (_range_sample_delayed ekf)))
              * sq (_R_rng_to_earth_2_2 ekf)) f0_01
  /\ fget (gate_size l') 5 = fmaxf (range_innov_gate (_params ekf)) f1.
Proof.
  intros Hi Hr Hg. cbv zeta. unfold assemble_rng_hgt.
  repeat split; slot5; rewrite ?Hi, ?Hr, ?Hg; try lia.
Qed.

Lemma ev_slot5 (ekf : Ekf) (l : locals) :
  length (innovation l) = 6%nat -> length (R l) = 6%nat -> length (gate_size l) = 6%nat ->
  let l' := assemble_ev_hgt ekf l in
  fget (innovation l') 5
  = pos_2 (_state ekf) - extVisionSample.posNED_2 (_ev_sample_delayed ekf)
  /\ fget (R l') 5 = sq (fmaxf (extVisionSample.posErr (_ev_sample_delayed ekf)) f0_01)
  /\ fget (gate_size l') 5 = fmaxf (ev_innov_gate (_params ekf)) f1.
Proof.
  intros Hi Hr Hg. cbv zeta. unfold assemble_ev_hgt.
  repeat split; slot5; rewrite ?Hi, ?Hr, ?Hg; try lia.
Qed.

(** The gate keeps the innovations, variances and gate sizes of the
    assembler. *)
Lemma gate_locals_obs (ekf : Ekf) :
  innovation (gate_locals ekf) = innovation (assembled_locals ekf)
  /\ R (gate_locals ekf) = R (assembled_locals ekf)
  /\ gate_size (gate_locals ekf) = gate_size (assembled_locals ekf).
Proof. unfold gate_locals, innov_checks. ekf_simpl. repeat split. Qed.

(** The source selected on a height request, by the chain of lines 100-148. *)
Lemma assembled_locals_source (ekf : Ekf) :
  _fuse_height ekf = true ->
  assembled_locals ekf =
  let l := locals_before_height ekf in
  if baro_hgt (_control_status ekf) then assemble_baro_hgt ekf l
  else if gps_hgt (_control_status ekf) then assemble_gps_hgt ekf l
  else if rng_hgt (_control_status ekf)
          && (_R_rng_to_earth_2_2 ekf >? range_cos_max_tilt (_params ekf))
       then assemble_rng_hgt ekf l
  else if ev_hgt (_control_status ekf) then assemble_ev_hgt ekf l
  else l.
Proof. intros H. unfold assembled_locals, assemble_height. now rewrite H. Qed.

(** C8.  On a height request with several source flags set exactly one
    source fills slot 5, the first of baro, GPS, range finder and external
    vision whose flag is set, the range finder counting only when
    [_R_rng_to_earth_2_2 > range_cos_max_tilt]; and the gate of the GPS
    height is [max(baro_innov_gate, 1)]. *)
Theorem height_source_priority (ekf : Ekf) :
  _fuse_height ekf = true ->
  let l := fst (gate_and_record ekf) in
  let cs := _control_status ekf in
  let x := pos_2 (_state ekf) in
  let tilt_ok := _R_rng_to_earth_2_2 ekf >? range_cos_max_tilt (_params ekf) in
  (baro_hgt cs = true ->
   bget (fuse_map l) 5 = true
   /\ fget (innovation l) 5
      = baro_deadzone (gnd_effect cs) (gnd_effect_deadzone (_params ekf))
          (x + baroSample.hgt (_baro_sample_delayed ekf)
           - _baro_hgt_offset ekf - _hgt_sensor_offset ekf)
   /\ fget (R l) 5 = sq (fmaxf (baro_noise (_params ekf)) f0_01)
   /\ fget (gate_size l) 5 = fmaxf (baro_innov_gate (_params ekf)) f1)
  /\ (baro_hgt cs = false -> gps_hgt cs = true ->
      bget (fuse_map l) 5 = true
      /\ fget (innovation l) 5
         = x + gpsSample.hgt (_gps_sample_delayed ekf)
           - _gps_alt_ref ekf - _hgt_sensor_offset ekf
      /\ fget (R l) 5
         = sq (f1_5 * math.constrain (gpsSample.vacc (_gps_sample_delayed ekf))
                        (fmaxf (gps_pos_noise (_params ekf)) f0_01)
                        (fmaxf (pos_noaid_noise (_params ekf))
                           (fmaxf (gps_pos_noise (_params ekf)) f0_01)))
      /\ fget (gate_size l) 5 = fmaxf (baro_innov_gate (_params ekf)) f1)
  /\ (baro_hgt cs = false -> gps_hgt cs = false -> rng_hgt cs && tilt_ok = true ->
      bget (fuse_map l) 5 = true
      /\ fget (innovation l) 5
         = x - (- math.max (rangeSample.rng (_range_sample_delayed ekf)
                            * _R_rng_to_earth_2_2 ekf)
                           (rng_gnd_clearance (_params ekf)))
           - _hgt_sensor_offset ekf
      /\ fget (R l) 5
         = fmaxf ((sq (range_noise (_params ekf))
                   + sq (range_noise_scaler (_params ekf)
                         * rangeSample.rng (_range_sample_delayed ekf)))
                  * sq (_R_rng_to_earth_2_2 ekf)) f0_01
      /\ fget (gate_size l) 5 = fmaxf (range_innov_gate (_params ekf)) f1)
  /\ (baro_hgt cs = false -> gps_hgt cs = false -> rng_hgt cs && tilt_ok = false ->
      ev_hgt cs = true ->
      bget (fuse_map l) 5 = true
      /\ fget (innovation l) 5
         = x - extVisionSample.posNED_2 (_ev_sample_delayed ekf)
      /\ fget (R l) 5
         = sq (fmaxf (extVisionSample.posErr (_ev_sample_delayed ekf)) f0_01)
      /\ fget (gate_size l) 5 = fmaxf (ev_innov_gate (_params ekf)) f1).
Proof.
  intros Hreq. cbv zeta. rewrite gate_and_record_eq. cbn [fst].
  rewrite gate_locals_fuse_map.
  destruct (gate_locals_obs ekf) as (-> & -> & ->).
  rewrite (assembled_locals_source ekf Hreq). cbv zeta.
  destruct (lengths_before_height ekf) as (Hi & Hr & Hg).
  unfold hgt_source_selected. rewrite Hreq. cbn [bget nth andb].
  split; [intros Hbaro | split; [intros Hbaro Hgps
    | split; [intros Hbaro Hgps Hrng | intros Hbaro Hgps Hrng Hev]]].
  - rewrite Hbaro. split; [reflexivity | now apply baro_slot5].
  - rewrite Hbaro, Hgps. split; [reflexivity | now apply gps_slot5].
  - rewrite Hbaro, Hgps, Hrng. split; [reflexivity | now apply rng_slot5].
  - rewrite Hbaro, Hgps, Hrng, Hev. split; [reflexivity | now apply ev_slot5].
Qed.

Lemma height_source_priority_witness :
  let ekf := sample_ekf gps_and_ev false false false true false (repeat f0 6) f1 in
  let l := fst (gate_and_record ekf) in
  _fuse_height ekf = true
  /\ gps_hgt (_control_status ekf) = true /\ ev_hgt (_control_status ekf) = true
  /\ bget (fuse_map l) 5 = true
  /\ fget (innovation l) 5 = f0
  /\ fget (gate_size l) 5 = baro_innov_gate sample_params.
Proof.
  cbv zeta.
  destruct (height_source_priority
              (sample_ekf gps_and_ev false false false true false (repeat f0 6) f1))
    as (_ & Hgps & _); [reflexivity|].
  destruct Hgps as (Hlive & Hinn & _ & Hgate); [reflexivity | reflexivity |].
  split; [reflexivity|]. split; [reflexivity|]. split; [reflexivity|].
  split; [exact Hlive|].
  split; [rewrite Hinn; vm_compute; reflexivity|].
  rewrite Hgate. vm_compute. reflexivity.
Defined.
(** ** The ground effect deadzone *)

Lemma fadd_opp_finite (s : bool) (m : positive) (e : Z) :
  S754_finite s m e + S754_finite (negb s) m e = S754_zero false.
Proof.
  unfold fadd, SFadd. rewrite Z.min_id. unfold shl_align. rewrite Z.sub_diag.
  destruct s; cbn; now rewrite Z.pos_sub_diag.
Qed.

(** Two finite numbers of the same sign that are each at most the other
    are the same number. *)
Lemma fleb_antisym_finite (s : bool) (m m' : positive) (e e' : Z) :
  (S754_finite s m e <=? S754_finite s m' e') = true ->
  (S754_finite s m' e' <=? S754_finite s m e) = true ->
  m = m' /\ e = e'.
Proof.
  unfold fleb, SFleb. rewrite (SFcompare_antisym (S754_finite s m e)). cbn.
  intros H1 H2.
  assert (He : (e ?= e')%Z = Eq)
    by (destruct s, (e ?= e')%Z; cbn in *; congruence).
  rewrite He in H1, H2.
  assert (Hm : Pos.compare_cont Eq m m' = Eq)
    by (destruct s, (Pos.compare_cont Eq m m'); cbn in *; congruence).
  split; [now apply Pos.compare_eq | now apply Z.compare_eq].
Qed.

Lemma fltb_fleb (a b : float32) : (a <? b) = true -> (a <=? b) = true.
Proof.
  unfold fltb, fleb, SFltb, SFleb. now destruct (SFcompare a b) as [[| |]|].
Qed.

(** The deadzone on a non-negative finite width [d], piece by piece. *)
Lemma deadzone_identity (d innov : float32) :
  (f0 <=? innov) = true -> baro_deadzone true d innov = innov.
Proof.
  intros H. unfold baro_deadzone.
  replace (innov <? - f0) with false; [reflexivity|].
  destruct innov as [[]|[]| |[] m e]; cbn in *; congruence.
Qed.

Lemma deadzone_plateau (d innov : float32) :
  is_finite d = true -> (f0 <=? d) = true ->
  (- d <=? innov) = true -> (innov <? f0) = true ->
  is_zero (baro_deadzone true d innov) = true.
Proof.
  intros Hfin Hd Hlo Hhi. unfold baro_deadzone.
  destruct innov as [[]|[]| |[] m e]; try (cbn in Hhi; discriminate).
  - destruct d as [[]|[]| |[] md ed]; cbn in Hlo, Hd, Hfin; discriminate.
  - destruct d as [[]|[]| |[] md ed];
      try (cbn in Hd, Hfin; discriminate); try (cbn in Hlo; discriminate).
    change (f0 + S754_finite false md ed) with (S754_finite false md ed).
    change (- S754_finite false md ed) with (S754_finite true md ed) in *.
    change (S754_finite true m e <? - f0) with true. cbv iota.
    destruct (S754_finite true m e <=? S754_finite true md ed) eqn:Hle.
    + destruct (fleb_antisym_finite _ _ _ _ _ Hle Hlo) as [-> ->].
      pose proof (fadd_opp_finite true md ed) as Hz. cbn [negb] in Hz.
      now rewrite Hz.
    + reflexivity.
Qed.

Lemma deadzone_shift (d innov : float32) :
  is_finite d = true -> (f0 <=? d) = true ->
  (innov <? - d) = true -> baro_deadzone true d innov = innov + d.
Proof.
  intros Hfin Hd Hlt. unfold baro_deadzone.
  destruct d as [sd|[]| |[] md ed]; try (cbn in Hd, Hfin; discriminate).
  - destruct innov as [[]|[]| |[] m e]; destruct sd; try (cbn in Hlt; discriminate);
      reflexivity.
  - change (f0 + S754_finite false md ed) with (S754_finite false md ed).
    rewrite (fltb_fleb _ _ Hlt).
    replace (innov <? - f0) with true; [reflexivity|].
    destruct innov as [[]|[]| |[] m e]; try (cbn in Hlt; discriminate); reflexivity.
Qed.

Lemma deadzone_junctions (d : float32) :
  is_finite d = true -> (f0 <=? d) = true ->
  is_zero (- d + d) = true
  /\ is_zero (baro_deadzone true d (- d)) = true
  /\ is_zero (baro_deadzone true d f0) = true.
Proof.
  intros Hfin Hd.
  destruct d as [[]|[]| |[] md ed]; try (cbn in Hd, Hfin; discriminate);
    try (repeat split; reflexivity).
  assert (Hz : - S754_finite false md ed + S754_finite false md ed = S754_zero false)
    by apply (fadd_opp_finite true md ed).
  repeat split.
  - now rewrite Hz.
  - apply deadzone_plateau; auto.
    unfold fleb, SFleb. cbn. rewrite Z.compare_refl.
    now rewrite (Pos.compare_cont_refl md Eq).
Qed.

(** C7.  With the baro source and the [gnd_effect] flag set, the adjusted
    innovation is the raw baro innovation for an innovation of at least 0,
    zero for an innovation in [[-d, 0)] and [innovation + d] below [-d],
    where [d = gnd_effect_deadzone] is a finite width of at least 0.  The
    map is continuous: the neighbouring pieces take the same value, zero,
    where they meet at [-d] and at 0.  It is the identity when [gnd_effect]
    is not set, and the innovations of the other height sources do not go
    through it. *)
Theorem gnd_effect_deadzone_shape (d : float32) :
  is_finite d = true -> (f0 <=? d) = true ->
  (forall innov, (f0 <=? innov) = true -> baro_deadzone true d innov = innov)
  /\ (forall innov, (- d <=? innov) = true -> (innov <? f0) = true ->
                    is_zero (baro_deadzone true d innov) = true)
  /\ (forall innov, (innov <? - d) = true -> baro_deadzone true d innov = innov + d)
  /\ (is_zero (- d + d) = true
      /\ is_zero (baro_deadzone true d (- d)) = true
      /\ is_zero (baro_deadzone true d f0) = true)
  /\ (forall innov, baro_deadzone false d innov = innov)
  /\ (forall ekf : Ekf,
        gnd_effect_deadzone (_params ekf) = d -> _fuse_height ekf = true ->
        let l := fst (gate_and_record ekf) in
        let cs := _control_status ekf in
        let x := pos_2 (_state ekf) in
        (baro_hgt cs = true ->
         fget (innovation l) 5
         = baro_deadzone (gnd_effect cs) d
             (x + baroSample.hgt (_baro_sample_delayed ekf)
              - _baro_hgt_offset ekf - _hgt_sensor_offset ekf))
        /\ (baro_hgt cs = false -> gps_hgt cs = true ->
            fget (innovation l) 5
            = x + gpsSample.hgt (_gps_sample_delayed ekf)
              - _gps_alt_ref ekf - _hgt_sensor_offset ekf)
        /\ (baro_hgt cs = false -> gps_hgt cs = false ->
            rng_hgt cs
            && (_R_rng_to_earth_2_2 ekf >? range_cos_max_tilt (_params ekf)) = true ->
            fget (innovation l) 5
            = x - (- math.max (rangeSample.rng (_range_sample_delayed ekf)
                               * _R_rng_to_earth_2_2 ekf)
                              (rng_gnd_clearance (_params ekf)))
              - _hgt_sensor_offset ekf)
        /\ (baro_hgt cs = false -> gps_hgt cs = false ->
            rng_hgt cs
            && (_R_rng_to_earth_2_2 ekf >? range_cos_max_tilt (_params ekf)) = false ->
            ev_hgt cs = true ->
            fget (innovation l) 5
            = x - extVisionSample.posNED_2 (_ev_sample_delayed ekf))).
Proof.
  intros Hfin Hd.
  split; [intros innov; apply deadzone_identity|].
  split; [intros innov; now apply deadzone_plateau|].
  split; [intros innov; now apply deadzone_shift|].
  split; [now apply deadzone_junctions|].
  split; [reflexivity|].
  intros ekf Hdz Hreq. cbv zeta. rewrite gate_and_record_eq. cbn [fst].
  destruct (gate_locals_obs ekf) as (-> & _ & _).
  rewrite (assembled_locals_source ekf Hreq). cbv zeta.
  destruct (lengths_before_height ekf) as (Hi & Hr & Hg).
  split; [intros Hbaro | split; [intros Hbaro Hgps
    | split; [intros Hbaro Hgps Hrng | intros Hbaro Hgps Hrng Hev]]].
  - rewrite Hbaro, <- Hdz. now apply baro_slot5.
  - rewrite Hbaro, Hgps. now apply gps_slot5.
  - rewrite Hbaro, Hgps, Hrng. now apply rng_slot5.
  - rewrite Hbaro, Hgps, Hrng, Hev. now apply ev_slot5.
Qed.

Lemma gnd_effect_deadzone_shape_witness :
  let d := f32_ratio 1 2 in
  (is_finite d = true /\ (f0 <=? d) = true)
  /\ baro_deadzone true d (f32_ratio 1 4) = f32_ratio 1 4
  /\ is_zero (baro_deadzone true d (- f32_ratio 3 10)) = true
  /\ baro_deadzone true d (- f1) = - f32_ratio 1 2
  /\ baro_deadzone false d (- f32_ratio 3 10) = - f32_ratio 3 10.
Proof.
  cbv zeta. split; [split; reflexivity|].
  destruct (gnd_effect_deadzone_shape (f32_ratio 1 2))
    as (Hid & Hzero & Hshift & _ & Hoff & _); [reflexivity | reflexivity |].
  split; [apply Hid; reflexivity|].
  split; [apply Hzero; reflexivity|].
  split; [rewrite Hshift by reflexivity; reflexivity|].
  apply Hoff.
Defined.
(** ** Innovation variances *)

Lemma test_ratio_step_frame (l : locals) (ekf : Ekf) (j : nat) :
  P (test_ratio_step l ekf j) = P ekf
  /\ length (_vel_pos_innov_var (test_ratio_step l ekf j)) = length (_vel_pos_innov_var ekf).
Proof.
  unfold test_ratio_step. destruct (bget (fuse_map l) j); ekf_simpl;
    rewrite ?length_aset; auto.
Qed.

(** A step of the test ratio loop at another index keeps the variance. *)
Lemma test_ratio_step_other (l : locals) (ekf : Ekf) (i j : nat) :
  j <> i ->
  fget (_vel_pos_innov_var (test_ratio_step l ekf j)) i = fget (_vel_pos_innov_var ekf) i.
Proof.
  intros Hji. unfold test_ratio_step. destruct (bget (fuse_map l) j); ekf_simpl; auto.
  unfold fget. now rewrite nth_aset_ne.
Qed.

Lemma test_ratio_fold_other (l : locals) (i : nat) (idx : list nat) :
  ~ In i idx ->
  forall ekf : Ekf,
    fget (_vel_pos_innov_var (fold_left (test_ratio_step l) idx ekf)) i
    = fget (_vel_pos_innov_var ekf) i.
Proof.
  induction idx as [|j idx IH]; intros Hni ekf; cbn [fold_left]; auto.
  rewrite IH by (intros Hin; apply Hni; now right).
  apply test_ratio_step_other. intros ->. apply Hni. now left.
Qed.

(** The variance of a live slot is the sum of the state variance on entry
    of the loop and the observation variance. *)
Lemma test_ratio_fold_live (l : locals) (i : nat) (idx : list nat) :
  NoDup idx -> In i idx -> bget (fuse_map l) i = true ->
  forall ekf : Ekf,
    (i < length (_vel_pos_innov_var ekf))%nat ->
    fget (_vel_pos_innov_var (fold_left (test_ratio_step l) idx ekf)) i
    = mget (P ekf) (i + 4) (i + 4) + fget (R l) i.
Proof.
  intros Hnd. induction Hnd as [|j idx Hj Hnd IH]; intros Hin Hlive ekf Hlen.
  - destruct Hin.
  - cbn [fold_left]. destruct (Nat.eq_dec j i) as [->|Hne].
    + rewrite test_ratio_fold_other by exact Hj.
      unfold test_ratio_step. rewrite Hlive. ekf_simpl.
      now apply fget_aset_eq.
    + destruct (test_ratio_step_frame l ekf j) as [HP Hl].
      rewrite IH; [now rewrite HP | | exact Hlive | now rewrite Hl].
      destruct Hin as [Heq|Hin]; [contradiction|exact Hin].
Qed.


(** ** The theorems on sample filters *)

Lemma no_request_no_change_witness :
  let ekf' := fuseVelPosHeight keep_covariance fuse_linear ekf_no_request in
  (_fuse_hor_vel ekf_no_request = false /\ _fuse_hor_vel_aux ekf_no_request = false
   /\ _fuse_vert_vel ekf_no_request = false /\ _fuse_pos ekf_no_request = false
   /\ _fuse_height ekf_no_request = false)
  /\ _state ekf' = _state ekf_no_request /\ P ekf' = sample_P
  /\ _time_last_vel_fuse ekf' = 0%Z /\ _time_last_pos_fuse ekf' = 0%Z
  /\ _time_last_delpos_fuse ekf' = 0%Z /\ _time_last_hgt_fuse ekf' = 0%Z.
Proof.
  cbv zeta. split; [repeat split|].
  exact (@no_request_no_change keep_covariance fuse_linear ekf_no_request
           eq_refl eq_refl eq_refl eq_refl eq_refl).
Defined.

Lemma reject_flags_follow_stored_ratios_witness :
  let ekf' := fuseVelPosHeight keep_covariance fuse_linear ekf_no_request in
  (vel_check ekf_no_request = false /\ pos_check ekf_no_request = false
   /\ hgt_check ekf_no_request = false)
  /\ _innov_check_fail_status ekf_no_request
     = {| reject_vel_NED := false; reject_pos_NE := false; reject_pos_D := false |}
  /\ reject_vel_NED (_innov_check_fail_status ekf') = true
  /\ reject_pos_NE (_innov_check_fail_status ekf') = true
  /\ reject_pos_D (_innov_check_fail_status ekf') = true.
Proof.
  cbv zeta. split; [repeat split|]. split; [reflexivity|].
  destruct (reject_flags_follow_stored_ratios keep_covariance fuse_linear ekf_no_request)
    as (Hvel & Hpos & Hhgt).
  split; [apply Hvel; reflexivity|].
  split; [apply Hpos; reflexivity | apply Hhgt; reflexivity].
Defined.
(** * Further properties of the routine *)

(** ** What the routine never writes *)

Lemma same_inputs_trans (a b c : Ekf) :
  same_inputs a b -> same_inputs b c -> same_inputs a c.
Proof.
  unfold same_inputs.
  intros (A1 & A2 & A3 & A4 & A5 & A6 & A7 & A8 & A9 & A10 & A11 & A12 & A13 & A14
          & A15 & A16 & A17)
         (B1 & B2 & B3 & B4 & B5 & B6 & B7 & B8 & B9 & B10 & B11 & B12 & B13 & B14
          & B15 & B16 & B17).
  repeat split; congruence.
Qed.

Lemma updater_same_inputs (M : matrix) (x : list float32) (s : fault_status) (ekf : Ekf) :
  same_inputs ekf (set_P M (set_state x (set_fault_status s ekf))).
Proof. unfold same_inputs. ekf_simpl. repeat split. Qed.

Lemma ratios_same_inputs (a iv tr : list float32) (ekf : Ekf) :
  same_inputs ekf
    (set_vel_pos_innov_var iv (set_vel_pos_test_ratio tr (set_vel_pos_innov a ekf))).
Proof. unfold same_inputs. ekf_simpl. repeat split. Qed.

Lemma ledger_same_inputs (l : locals) (v p : bool) (ekf : Ekf) :
  same_inputs ekf (record_hgt_fuse l (record_pos_fuse p (record_vel_fuse v ekf))).
Proof.
  rewrite record_hgt_fuse_eq, record_pos_fuse_eq, record_vel_fuse_eq. cbv zeta.
  unfold same_inputs. ekf_simpl. repeat split.
Qed.

Lemma gate_ekf_same_inputs (ekf : Ekf) : same_inputs ekf (gate_ekf ekf).
Proof.
  apply same_inputs_trans with (b := ratio_ekf ekf).
  - destruct (ratio_ekf_frame ekf) as (a & iv & tr & ->). apply ratios_same_inputs.
  - unfold gate_ekf. apply ledger_same_inputs.
Qed.

Section ReadOnly.

Variable fixCovarianceErrors : matrix -> matrix.
Variable fuse : list float32 -> float32 -> list float32 -> list float32.

(** The routine only reads the tuning parameters, the control status, the
    delayed samples, the sensor offsets, the tilt term, the auxiliary
    velocity innovations, the horizontal observation variances and gates,
    the odometry switch and the IMU time: all of them are the same on
    return. *)
Theorem inputs_read_only (ekf : Ekf) :
  same_inputs ekf (fuseVelPosHeight fixCovarianceErrors fuse ekf).
Proof.
  rewrite fuseVelPosHeight_eq.
  destruct (sequential_fusion_frame fixCovarianceErrors fuse (gate_locals ekf)
              (seq 0 6) (gate_ekf ekf)) as (M & x & s & ->).
  apply same_inputs_trans with (b := gate_ekf ekf).
  - apply gate_ekf_same_inputs.
  - apply updater_same_inputs.
Qed.

End ReadOnly.
(** ** Slots the sequential loop skips *)

Section Skipped.

Variable fixCovarianceErrors : matrix -> matrix.
Variable fuse : list float32 -> float32 -> list float32 -> list float32.

Lemma fuse_obs_skipped (l : locals) (ekf : Ekf) (obs_index : nat) :
  bget (fuse_map l) obs_index && bget (innov_check_pass_map l) obs_index = false ->
  fuse_obs fixCovarianceErrors fuse l ekf obs_index = ekf.
Proof.
  intros H. unfold fuse_obs.
  destruct (bget (fuse_map l) obs_index), (bget (innov_check_pass_map l) obs_index);
    try discriminate; reflexivity.
Qed.

Lemma sequential_fusion_skipped (l : locals) (slots : list nat) (ekf : Ekf) :
  (forall i, In i slots ->
             bget (fuse_map l) i && bget (innov_check_pass_map l) i = false) ->
  sequential_fusion fixCovarianceErrors fuse l slots ekf = ekf.
Proof.
  unfold sequential_fusion. revert ekf.
  induction slots as [|i slots IH]; intros ekf H; cbn [fold_left]; auto.
  rewrite fuse_obs_skipped by (apply H; now left).
  apply IH. intros j Hj. apply H. now right.
Qed.

(** Gate rejection changes no state: when every live slot belongs to a
    group that failed its innovation check, the covariance, the states and
    the fault flags are the same on return. *)
Theorem rejected_observations_change_nothing (ekf : Ekf) :
  let l := fst (gate_and_record ekf) in
  let ekf' := fuseVelPosHeight fixCovarianceErrors fuse ekf in
  (forall i, (i < 6)%nat -> bget (fuse_map l) i = true ->
             bget (innov_check_pass_map l) i = false) ->
  P ekf' = P ekf /\ _state ekf' = _state ekf /\ _fault_status ekf' = _fault_status ekf.
Proof.
  cbv zeta. rewrite gate_and_record_eq. cbn [fst]. intros Hrej.
  rewrite fuseVelPosHeight_eq, sequential_fusion_skipped.
  - destruct (gate_ekf_frame ekf) as (-> & -> & -> & _).
    destruct (ratio_ekf_fields ekf) as (-> & -> & -> & _). repeat split.
  - intros i Hi. apply in_seq in Hi.
    destruct (bget (fuse_map (gate_locals ekf)) i) eqn:Hlive; [|reflexivity].
    rewrite (Hrej i) by (lia || exact Hlive). reflexivity.
Qed.

End Skipped.

Lemma rejected_observations_change_nothing_witness :
  let l := fst (gate_and_record ekf_stale_vel) in
  let ekf' := fuseVelPosHeight keep_covariance fuse_linear ekf_stale_vel in
  bget (fuse_map l) 2 = true
  /\ (forall i, (i < 6)%nat -> bget (fuse_map l) i = true ->
                bget (innov_check_pass_map l) i = false)
  /\ P ekf' = sample_P /\ _state ekf' = repeat f0 24.
Proof.
  cbv zeta. split; [reflexivity|].
  assert (Hrej : forall i, (i < 6)%nat ->
            bget (fuse_map (fst (gate_and_record ekf_stale_vel))) i = true ->
            bget (innov_check_pass_map (fst (gate_and_record ekf_stale_vel))) i = false).
  { intros i Hi. do 6 (destruct i as [|i]; [vm_compute; auto; discriminate|]). lia. }
  split; [exact Hrej|].
  destruct (rejected_observations_change_nothing keep_covariance fuse_linear
              ekf_stale_vel Hrej) as (HP & Hx & _).
  split; [exact HP | exact Hx].
Defined.
(** ** The variance check and the update of a healthy slot *)

Lemma bad_flag_set_bad_other (k j : nat) (v : bool) (s : fault_status) :
  (j < 6)%nat -> k <> j -> bad_flag j (set_bad k v s) = bad_flag j s.
Proof.
  intros Hj Hkj.
  do 6 (destruct k as [|k];
        [ do 6 (destruct j as [|j]; [try reflexivity; congruence|]); lia | ]).
  reflexivity.
Qed.

(** The scan writes the fault flag of its own slot only. *)
Lemma health_fold_other_flags (obs_index j : nat) (KHP : matrix) (idx : list nat) :
  (j < 6)%nat -> obs_index <> j ->
  forall (ekf : Ekf) (healthy : bool),
    bad_flag j (_fault_status (fst (fold_left (health_step obs_index KHP) idx (ekf, healthy))))
    = bad_flag j (_fault_status ekf).
Proof.
  intros Hj Hne. induction idx as [|i idx IH]; intros ekf healthy.
  - reflexivity.
  - cbn [fold_left health_step]. cbv zeta.
    destruct (mget (P ekf) i i <? mget KHP i i);
      rewrite IH; ekf_simpl; now apply bad_flag_set_bad_other.
Qed.

(** When no index of the list fails, the scan leaves the covariance and
    [healthy] as they are and clears the fault flag of the slot. *)
Lemma health_fold_healthy (obs_index : nat) (KHP : matrix) (idx : list nat) :
  forall (ekf : Ekf) (healthy : bool),
    (forall i, In i idx -> variance_fails (P ekf) KHP i = false) ->
    let r := fold_left (health_step obs_index KHP) idx (ekf, healthy) in
    P (fst r) = P ekf /\ _state (fst r) = _state ekf /\ snd r = healthy
    /\ ((obs_index < 6)%nat -> idx <> [] ->
        bad_flag obs_index (_fault_status (fst r)) = false).
Proof.
  induction idx as [|i idx IH]; intros ekf healthy Hok.
  - cbn. repeat split. intros _ H. now elim H.
  - cbn [fold_left health_step]. cbv zeta.
    fold (variance_fails (P ekf) KHP i). rewrite (Hok i) by now left.
    match goal with |- context [fold_left _ idx (?e, ?h)] =>
      destruct (IH e h) as (HP & Hx & Hh & Hflag) end.
    { intros k Hk. ekf_simpl. apply Hok. now right. }
    rewrite HP, Hx, Hh. ekf_simpl. repeat split.
    intros Hk _. destruct idx as [|i' idx'].
    + cbn [fold_left fst]. ekf_simpl. now apply bad_flag_set_bad.
    + apply Hflag; [exact Hk | discriminate].
Qed.

Section Healthy.

Variable fixCovarianceErrors : matrix -> matrix.
Variable fuse : list float32 -> float32 -> list float32 -> list float32.

(** The local [healthy] is false after the scan exactly when some index of
    the diagonal failed the test against the decrement computed before the
    scan: zeroing the rows and columns of earlier indices does not disturb
    the tests that follow.  The scan does not touch the states. *)
Theorem healthy_iff_no_negative_variance (obs_index : nat) (KHP : matrix) (ekf : Ekf) :
  let r := health_check obs_index KHP ekf in
  (snd r = false <->
   exists i, (i < _k_num_states)%nat /\ variance_fails (P ekf) KHP i = true)
  /\ _state (fst r) = _state ekf.
Proof.
  cbv zeta. destruct (health_check_spec obs_index KHP ekf) as (Hx & Hh & _).
  split; [|exact Hx]. rewrite Hh. split.
  - intros Hall.
    destruct (existsb (variance_fails (P ekf) KHP) (seq 0 _k_num_states)) eqn:Hex.
    + apply existsb_exists in Hex. destruct Hex as (i & Hi & Hfail).
      apply in_seq in Hi. exists i. split; [lia | exact Hfail].
    + exfalso. rewrite <- not_true_iff_false in Hall. apply Hall.
      apply forallb_forall. intros i Hi.
      destruct (variance_fails (P ekf) KHP i) eqn:Hfail; [|reflexivity].
      rewrite <- not_true_iff_false in Hex. elim Hex.
      apply existsb_exists. exists i. split; assumption.
  - intros (i & Hi & Hfail). apply not_true_iff_false. intros Hall.
    rewrite forallb_forall in Hall.
    assert (Hin : In i (seq 0 _k_num_states)) by (apply in_seq; lia).
    specialize (Hall i Hin). now rewrite Hfail in Hall.
Qed.

(** A live and accepted slot none of whose indices fails the variance test
    is fused: the covariance becomes [fixCovarianceErrors (P - KHP)], the
    states become [fuse Kfusion innovation[slot]] of the old states, with
    the gain and the decrement computed from the covariance before the
    update, and the fault flag of the slot is cleared. *)
Theorem healthy_update_applied (l : locals) (ekf : Ekf) (obs_index : nat) :
  (obs_index < 6)%nat ->
  bget (fuse_map l) obs_index = true ->
  bget (innov_check_pass_map l) obs_index = true ->
  let Kfusion := kalman_gain ekf obs_index in
  let KHP := cov_decrement ekf Kfusion obs_index in
  (forall i, (i < _k_num_states)%nat -> variance_fails (P ekf) KHP i = false) ->
  let ekf' := fuse_obs fixCovarianceErrors fuse l ekf obs_index in
  P ekf' = fixCovarianceErrors (cov_subtract (P ekf) KHP)
  /\ _state ekf' = fuse Kfusion (fget (innovation l) obs_index) (_state ekf)
  /\ bad_flag obs_index (_fault_status ekf') = false.
Proof.
  intros Hk Hlive Hpass. cbv zeta. intros Hok.
  unfold fuse_obs. rewrite Hlive, Hpass. cbn [negb orb]. cbv zeta.
  unfold health_check.
  destruct (@health_fold_healthy obs_index
              (cov_decrement ekf (kalman_gain ekf obs_index) obs_index)
              (seq 0 _k_num_states) ekf true) as (HP & Hx & Hh & Hflag).
  { intros i Hi. apply in_seq in Hi. apply Hok. lia. }
  destruct (fold_left _ (seq 0 _k_num_states) (ekf, true)) as [ekf1 healthy].
  cbn [fst snd] in HP, Hx, Hh, Hflag. subst healthy. ekf_simpl.
  rewrite HP, Hx. repeat split.
  apply Hflag; [exact Hk | discriminate].
Qed.

(** The fault flag of a slot is written only when that slot is fused: for
    a slot that is not live, or whose group failed the innovation check, the
    flag is the same on return, whatever happens to the other slots. *)
Theorem unfused_slot_keeps_fault_flag (ekf : Ekf) (j : nat) :
  (j < 6)%nat ->
  let l := fst (gate_and_record ekf) in
  bget (fuse_map l) j && bget (innov_check_pass_map l) j = false ->
  bad_flag j (_fault_status (fuseVelPosHeight fixCovarianceErrors fuse ekf))
  = bad_flag j (_fault_status ekf).
Proof.
  intros Hj. cbv zeta. rewrite gate_and_record_eq. cbn [fst]. intros Hskip.
  rewrite fuseVelPosHeight_eq.
  assert (Hfold : forall slots e,
            bad_flag j (_fault_status
              (sequential_fusion fixCovarianceErrors fuse (gate_locals ekf) slots e))
            = bad_flag j (_fault_status e)).
  { unfold sequential_fusion. induction slots as [|k slots IH]; intros e; cbn [fold_left].
    - reflexivity.
    - rewrite IH. destruct (Nat.eq_dec k j) as [->|Hne].
      + now rewrite fuse_obs_skipped.
      + unfold fuse_obs.
        destruct (negb (bget (fuse_map (gate_locals ekf)) k)
                  || negb (bget (innov_check_pass_map (gate_locals ekf)) k));
          [reflexivity|]. cbv zeta. unfold health_check.
        pose proof (@health_fold_other_flags k j
                      (cov_decrement e (kalman_gain e k) k) (seq 0 _k_num_states)
                      Hj Hne e true) as Hflags.
        destruct (fold_left _ (seq 0 _k_num_states) (e, true)) as [e1 healthy].
        cbn [fst] in Hflags. destruct healthy; ekf_simpl; exact Hflags. }
  rewrite Hfold.
  destruct (gate_ekf_frame ekf) as (_ & _ & -> & _).
  now destruct (ratio_ekf_fields ekf) as (_ & _ & -> & _).
Qed.

End Healthy.

Lemma healthy_update_applied_witness :
  let l := fst (gate_and_record ekf_pos) in
  let ekf0 := snd (gate_and_record ekf_pos) in
  let KHP := cov_decrement ekf0 (kalman_gain ekf0 3) 3 in
  let ekf' := fuse_obs keep_covariance fuse_linear l ekf0 3 in
  (bget (fuse_map l) 3 = true /\ bget (innov_check_pass_map l) 3 = true
   /\ forall i, (i < _k_num_states)%nat -> variance_fails (P ekf0) KHP i = false)
  /\ P ekf' = cov_subtract sample_P KHP
  /\ bad_pos_N (_fault_status ekf0) = true
  /\ bad_pos_N (_fault_status ekf') = false.
Proof.
  cbv zeta.
  assert (Hok : forall i, (i < _k_num_states)%nat ->
            variance_fails (P (snd (gate_and_record ekf_pos)))
              (cov_decrement (snd (gate_and_record ekf_pos))
                 (kalman_gain (snd (gate_and_record ekf_pos)) 3) 3) i = false).
  { intros i Hi. unfold _k_num_states in Hi.
    do 24 (destruct i as [|i]; [vm_compute; reflexivity|]). lia. }
  assert (H3 : (3 < 6)%nat) by lia.
  destruct (@healthy_update_applied keep_covariance fuse_linear
              (fst (gate_and_record ekf_pos)) (snd (gate_and_record ekf_pos)) 3%nat
              H3 eq_refl eq_refl Hok) as (HP & _ & Hflag).
  split; [split; [reflexivity | split; [reflexivity | exact Hok]]|].
  split; [exact HP|]. split; [reflexivity | exact Hflag].
Defined.

Lemma unfused_slot_keeps_fault_flag_witness :
  let l := fst (gate_and_record ekf_stale_vel) in
  (bget (fuse_map l) 2 = true /\ bget (innov_check_pass_map l) 2 = false)
  /\ bad_vel_D (_fault_status
                  (fuseVelPosHeight keep_covariance fuse_linear ekf_stale_vel)) = true.
Proof.
  cbv zeta. split; [split; reflexivity|].
  assert (H2 : (2 < 6)%nat) by lia.
  exact (@unfused_slot_keeps_fault_flag keep_covariance fuse_linear ekf_stale_vel
           2%nat H2 eq_refl).
Defined.

Section FrozenVariance.

Variable fixCovarianceErrors : matrix -> matrix.
Variable fuse : list float32 -> float32 -> list float32 -> list float32.

(** C9 (amended).  Only the innovation variances of the live slots are
    computed: [P[k+4][k+4] + R[k]] of a live slot [k] is taken from the
    covariance the routine was entered with, before the sequential loop,
    while the variance of a slot that is not live is left as it was stored.
    The loop does not write the variances, so the gain of a live slot [k]
    divides the covariance column left by the slots before it by that frozen
    variance, and this gain is the one the state update of an accepted,
    healthy slot is made with. *)
Theorem innov_var_frozen (ekf : Ekf) :
  length (_vel_pos_innov_var ekf) = 6%nat ->
  let l := fst (gate_and_record ekf) in
  let ekf0 := snd (gate_and_record ekf) in
  (forall k, bget (fuse_map l) k = false ->
     fget (_vel_pos_innov_var (fuseVelPosHeight fixCovarianceErrors fuse ekf)) k
     = fget (_vel_pos_innov_var ekf) k)
  /\ forall k, (k < 6)%nat -> bget (fuse_map l) k = true ->
    let S := mget (P ekf) (k + 4) (k + 4) + fget (R l) k in
    let ekf_k := sequential_fusion fixCovarianceErrors fuse l (seq 0 k) ekf0 in
    let Kfusion :=
      map (fun row => mget (P ekf_k) row (k + 4) / S) (seq 0 _k_num_states) in
    fget (_vel_pos_innov_var ekf0) k = S
    /\ fget (_vel_pos_innov_var ekf_k) k = S
    /\ kalman_gain ekf_k k = Kfusion
    /\ fuseVelPosHeight fixCovarianceErrors fuse ekf
       = sequential_fusion fixCovarianceErrors fuse l (seq k (6 - k)) ekf_k
    /\ fget (_vel_pos_innov_var (fuseVelPosHeight fixCovarianceErrors fuse ekf)) k = S
    /\ (bget (innov_check_pass_map l) k = true ->
        (forall i, (i < _k_num_states)%nat ->
           variance_fails (P ekf_k) (cov_decrement ekf_k Kfusion k) i = false) ->
        _state (fuse_obs fixCovarianceErrors fuse l ekf_k k)
        = fuse Kfusion (fget (innovation l) k) (_state ekf_k)
        /\ P (fuse_obs fixCovarianceErrors fuse l ekf_k k)
           = fixCovarianceErrors
               (cov_subtract (P ekf_k) (cov_decrement ekf_k Kfusion k))).
Proof.
  intros Hlen. cbv zeta. rewrite gate_and_record_eq. cbn [fst snd]. split.
  { intros k Hdead. rewrite final_innov_var.
    unfold gate_locals in Hdead. rewrite fuse_map_innov_checks in Hdead.
    now destruct (ratio_ekf_inactive ekf k Hdead) as [_ ->]. }
  intros k Hk Hlive.
  assert (HS : fget (_vel_pos_innov_var (ratio_ekf ekf)) k
               = mget (P ekf) (k + 4) (k + 4) + fget (R (gate_locals ekf)) k).
  { destruct (gate_locals_obs ekf) as (_ & -> & _).
    unfold gate_locals in Hlive. rewrite fuse_map_innov_checks in Hlive.
    unfold ratio_ekf, test_ratios.
    destruct (assembled_ekf_frame ekf) as (a & Ha).
    rewrite test_ratio_fold_live.
    - rewrite Ha. reflexivity.
    - apply seq_NoDup.
    - apply in_seq. lia.
    - exact Hlive.
    - rewrite Ha. ekf_simpl. lia. }
  assert (H0 : fget (_vel_pos_innov_var (gate_ekf ekf)) k
               = mget (P ekf) (k + 4) (k + 4) + fget (R (gate_locals ekf)) k).
  { destruct (gate_ekf_frame ekf) as (_ & _ & _ & _ & -> & _). exact HS. }
  assert (Hk' : fget (_vel_pos_innov_var
                        (sequential_fusion fixCovarianceErrors fuse (gate_locals ekf)
                           (seq 0 k) (gate_ekf ekf))) k
                = mget (P ekf) (k + 4) (k + 4) + fget (R (gate_locals ekf)) k).
  { destruct (sequential_fusion_preserves fixCovarianceErrors fuse (gate_locals ekf)
                (seq 0 k) (gate_ekf ekf))
      as (_ & _ & _ & _ & _ & _ & _ & _ & _ & _ & _ & -> & _).
    exact H0. }
  assert (HK : kalman_gain
                 (sequential_fusion fixCovarianceErrors fuse (gate_locals ekf)
                    (seq 0 k) (gate_ekf ekf)) k
               = map (fun row =>
                        mget (P (sequential_fusion fixCovarianceErrors fuse
                                   (gate_locals ekf) (seq 0 k) (gate_ekf ekf)))
                          row (k + 4)
                        / (mget (P ekf) (k + 4) (k + 4)
                           + fget (R (gate_locals ekf)) k))
                   (seq 0 _k_num_states)).
  { unfold kalman_gain. now rewrite Hk'. }
  split; [exact H0|]. split; [exact Hk'|]. split; [exact HK|].
  split; [|split].
  - rewrite fuseVelPosHeight_eq. unfold sequential_fusion.
    rewrite <- fold_left_app. rewrite <- seq_app.
    replace (k + (6 - k))%nat with 6%nat by lia. reflexivity.
  - rewrite final_innov_var. exact HS.
  - rewrite <- HK. clear HK Hk' H0 HS.
    generalize (sequential_fusion fixCovarianceErrors fuse (gate_locals ekf)
                  (seq 0 k) (gate_ekf ekf)).
    intros ek Hpass Hok.
    unfold fuse_obs. rewrite Hlive, Hpass. cbn [negb orb]. cbv zeta.
    unfold health_check.
    destruct (@health_fold_healthy k
                (cov_decrement ek (kalman_gain ek k) k)
                (seq 0 _k_num_states) ek true) as (HP & Hx & Hh & _).
    { intros i Hi. apply in_seq in Hi. apply Hok. lia. }
    destruct (fold_left _ (seq 0 _k_num_states) (ek, true)) as [ekf1 healthy].
    cbn [fst snd] in HP, Hx, Hh. subst healthy. ekf_simpl.
    rewrite HP, Hx. split; reflexivity.
Qed.

End FrozenVariance.

(** C9 as stated fails: on a call that requests the position only, the
    variances of the four slots that are not live are not computed at all;
    they return as stored (0 here), not as [P[i+4][i+4] + R[i]]. *)
Lemma innov_var_not_all_six :
  let l := fst (gate_and_record ekf_pos) in
  let ekf' := fuseVelPosHeight keep_covariance fuse_linear ekf_pos in
  map (bget (fuse_map l)) (seq 0 6) = [false; false; false; true; true; false]
  /\ _vel_pos_innov_var ekf' = [f0; f0; f0; f32_ratio 5 4; f32_ratio 5 4; f0]
  /\ map (fun i => mget (P ekf_pos) (i + 4) (i + 4) + fget (R l) i) (seq 0 6)
     = [f1; f1; f1; f32_ratio 5 4; f32_ratio 5 4; f32_ratio 1 10]
  /\ ~ (forall i, (i < 6)%nat ->
          fget (_vel_pos_innov_var ekf') i
          = mget (P ekf_pos) (i + 4) (i + 4) + fget (R l) i).
Proof.
  cbv zeta. split; [vm_compute; reflexivity|].
  split; [vm_compute; reflexivity|]. split; [vm_compute; reflexivity|].
  intros Hall. specialize (Hall 0%nat ltac:(lia)). vm_compute in Hall.
  discriminate Hall.
Qed.

Lemma innov_var_frozen_witness :
  let l := fst (gate_and_record ekf_pos) in
  let ekf0 := snd (gate_and_record ekf_pos) in
  let ekf' := fuseVelPosHeight keep_covariance fuse_linear ekf_pos in
  let ekf_4 := sequential_fusion keep_covariance fuse_linear l (seq 0 4) ekf0 in
  let S3 := mget (P ekf_pos) 7 7 + fget (R l) 3 in
  let S4 := mget (P ekf_pos) 8 8 + fget (R l) 4 in
  let K3 := map (fun row => mget (P ekf0) row 7 / S3) (seq 0 _k_num_states) in
  length (_vel_pos_innov_var ekf_pos) = 6%nat
  /\ (bget (fuse_map l) 0 = false
      /\ fget (_vel_pos_innov_var ekf') 0 = fget (_vel_pos_innov_var ekf_pos) 0)
  /\ (bget (fuse_map l) 4 = true
      /\ mget (P ekf_4) 8 8 <> mget (P ekf_pos) 8 8
      /\ fget (_vel_pos_innov_var ekf_4) 4 = S4
      /\ kalman_gain ekf_4 4
         = map (fun row => mget (P ekf_4) row 8 / S4) (seq 0 _k_num_states))
  /\ (bget (fuse_map l) 3 = true /\ bget (innov_check_pass_map l) 3 = true
      /\ (forall i, (i < _k_num_states)%nat ->
            variance_fails (P ekf0) (cov_decrement ekf0 K3 3) i = false)
      /\ _state (fuse_obs keep_covariance fuse_linear l ekf0 3)
         = fuse_linear K3 (fget (innovation l) 3) (_state ekf0)).
Proof.
  cbv zeta.
  assert (Hdead : bget (fuse_map (fst (gate_and_record ekf_pos))) 0 = false)
    by (vm_compute; reflexivity).
  assert (Hlive4 : bget (fuse_map (fst (gate_and_record ekf_pos))) 4 = true)
    by (vm_compute; reflexivity).
  assert (Hlive3 : bget (fuse_map (fst (gate_and_record ekf_pos))) 3 = true)
    by (vm_compute; reflexivity).
  assert (Hpass3 : bget (innov_check_pass_map (fst (gate_and_record ekf_pos))) 3 = true)
    by (vm_compute; reflexivity).
  assert (H4 : (4 < 6)%nat) by lia.
  assert (H3 : (3 < 6)%nat) by lia.
  assert (Hok : forall i, (i < _k_num_states)%nat ->
            variance_fails (P (snd (gate_and_record ekf_pos)))
              (cov_decrement (snd (gate_and_record ekf_pos))
                 (map (fun row =>
                         mget (P (snd (gate_and_record ekf_pos))) row 7
                         / (mget (P ekf_pos) 7 7
                            + fget (R (fst (gate_and_record ekf_pos))) 3))
                    (seq 0 _k_num_states)) 3) i = false).
  { intros i Hi. unfold _k_num_states in Hi.
    do 24 (destruct i as [|i]; [vm_compute; reflexivity|]). lia. }
  destruct (@innov_var_frozen keep_covariance fuse_linear ekf_pos eq_refl)
    as (Hkeep & Hfrozen).
  destruct (Hfrozen 4%nat H4 Hlive4) as (_ & Hk & HK & _).
  destruct (Hfrozen 3%nat H3 Hlive3) as (_ & _ & _ & _ & _ & Hupd).
  split; [reflexivity|].
  split; [split; [exact Hdead | exact (Hkeep 0%nat Hdead)]|].
  split; [split; [exact Hlive4 | split; [vm_compute; discriminate | split; [exact Hk | exact HK]]]|].
  split; [exact Hlive3|]. split; [exact Hpass3|]. split; [exact Hok|].
  exact (proj1 (Hupd Hpass3 Hok)).
Defined.
(** ** The position and height groups *)

Lemma pos_check_iff (ekf : Ekf) :
  pos_check ekf = true
  <-> ((fget (_vel_pos_test_ratio ekf) 3 <=? f1) = true
       /\ (fget (_vel_pos_test_ratio ekf) 4 <=? f1) = true)
      \/ tilt_align (_control_status ekf) = false.
Proof.
  unfold pos_check. rewrite orb_true_iff, andb_true_iff, negb_true_iff. reflexivity.
Qed.

Lemma hgt_check_iff (ekf : Ekf) :
  hgt_check ekf = true
  <-> (fget (_vel_pos_test_ratio ekf) 5 <=? f1) = true
      \/ tilt_align (_control_status ekf) = false.
Proof.
  unfold hgt_check. rewrite orb_true_iff, negb_true_iff. reflexivity.
Qed.

Lemma ratio_ekf_tilt_align (ekf : Ekf) :
  tilt_align (_control_status (ratio_ekf ekf)) = tilt_align (_control_status ekf).
Proof. now destruct (ratio_ekf_fields ekf) as (_ & _ & _ & -> & _). Qed.

Section Groups.

Variable fixCovarianceErrors : matrix -> matrix.
Variable fuse : list float32 -> float32 -> list float32 -> list float32.

(** On a position request the two horizontal position slots are accepted or
    rejected together: they pass when both test ratios of this call are at
    most 1, or when tilt alignment is not complete.  A pass clears
    [reject_pos_NE] and stamps exactly one time, [_time_last_delpos_fuse]
    when the position is fused as odometry and [_time_last_pos_fuse]
    otherwise; a failure sets [reject_pos_NE] and stamps neither. *)
Theorem pos_group_decision (ekf : Ekf) :
  _fuse_pos ekf = true ->
  let l := fst (gate_and_record ekf) in
  let ekf' := fuseVelPosHeight fixCovarianceErrors fuse ekf in
  let pass i := bget (innov_check_pass_map l) i in
  let ratio i := fget (_vel_pos_test_ratio ekf') i in
  (bget (fuse_map l) 3 = true /\ bget (fuse_map l) 4 = true)
  /\ pass 4%nat = pass 3%nat
  /\ (pass 3%nat = true <->
      ((ratio 3%nat <=? f1) = true /\ (ratio 4%nat <=? f1) = true)
      \/ tilt_align (_control_status ekf) = false)
  /\ (pass 3%nat = true ->
      reject_pos_NE (_innov_check_fail_status ekf') = false
      /\ (_fuse_hpos_as_odom ekf = false ->
          _time_last_pos_fuse ekf' = _time_last_imu ekf
          /\ _time_last_delpos_fuse ekf' = _time_last_delpos_fuse ekf)
      /\ (_fuse_hpos_as_odom ekf = true ->
          _time_last_delpos_fuse ekf' = _time_last_imu ekf
          /\ _time_last_pos_fuse ekf' = _time_last_pos_fuse ekf))
  /\ (pass 3%nat = false ->
      reject_pos_NE (_innov_check_fail_status ekf') = true
      /\ _time_last_pos_fuse ekf' = _time_last_pos_fuse ekf
      /\ _time_last_delpos_fuse ekf' = _time_last_delpos_fuse ekf).
Proof.
  intros Hreq. cbv zeta. rewrite gate_and_record_eq. cbn [fst].
  rewrite gate_locals_pass_map, gate_locals_fuse_map, final_test_ratio.
  destruct (final_ledger fixCovarianceErrors fuse ekf) as (_ & -> & -> & _ & ->).
  destruct (gate_ekf_ledger ekf) as (_ & -> & -> & _ & _ & -> & _).
  rewrite Hreq. cbn [bget nth]. rewrite !andb_true_r.
  split; [split; reflexivity|]. split; [reflexivity|].
  split; [rewrite pos_check_iff, ratio_ekf_tilt_align; reflexivity|].
  split; [intros Hpass | intros Hfail].
  - rewrite Hpass. cbn [andb]. split; [reflexivity|].
    split; intros Hodom; rewrite Hodom; split; reflexivity.
  - rewrite Hfail. cbn [andb negb]. repeat split.
Qed.

(** When the height slot is live it passes if its test ratio of this call
    is at most 1, or if tilt alignment is not complete.  A pass stamps
    [_time_last_hgt_fuse] and clears [reject_pos_D]; a failure sets
    [reject_pos_D] and leaves the time alone. *)
Theorem hgt_decision (ekf : Ekf) :
  let l := fst (gate_and_record ekf) in
  let ekf' := fuseVelPosHeight fixCovarianceErrors fuse ekf in
  let pass i := bget (innov_check_pass_map l) i in
  bget (fuse_map l) 5 = true ->
  (pass 5%nat = true <->
   (fget (_vel_pos_test_ratio ekf') 5 <=? f1) = true
   \/ tilt_align (_control_status ekf) = false)
  /\ (pass 5%nat = true ->
      _time_last_hgt_fuse ekf' = _time_last_imu ekf
      /\ reject_pos_D (_innov_check_fail_status ekf') = false)
  /\ (pass 5%nat = false ->
      _time_last_hgt_fuse ekf' = _time_last_hgt_fuse ekf
      /\ reject_pos_D (_innov_check_fail_status ekf') = true).
Proof.
  cbv zeta. rewrite gate_and_record_eq. cbn [fst].
  rewrite gate_locals_pass_map, gate_locals_fuse_map, final_test_ratio.
  destruct (final_ledger fixCovarianceErrors fuse ekf) as (_ & _ & _ & -> & ->).
  destruct (gate_ekf_ledger ekf) as (_ & _ & _ & -> & _ & _ & ->).
  cbn [bget nth]. intros Hlive. apply andb_true_iff in Hlive.
  destruct Hlive as [Hreq _]. rewrite Hreq, !andb_true_r.
  split; [rewrite hgt_check_iff, ratio_ekf_tilt_align; reflexivity|].
  split; [intros Hpass; rewrite Hpass | intros Hfail; rewrite Hfail];
    split; reflexivity.
Qed.

(** Before tilt alignment is complete the position and the height checks
    always pass, whatever the test ratios: [pass[3..5]] are all true, a
    position request clears [reject_pos_NE] and a live height slot stamps
    [_time_last_hgt_fuse] and clears [reject_pos_D]. *)
Theorem tilt_align_override (ekf : Ekf) :
  tilt_align (_control_status ekf) = false ->
  let l := fst (gate_and_record ekf) in
  let ekf' := fuseVelPosHeight fixCovarianceErrors fuse ekf in
  let pass i := bget (innov_check_pass_map l) i in
  pass 3%nat = true /\ pass 4%nat = true /\ pass 5%nat = true
  /\ (_fuse_pos ekf = true -> reject_pos_NE (_innov_check_fail_status ekf') = false)
  /\ (bget (fuse_map l) 5 = true ->
      _time_last_hgt_fuse ekf' = _time_last_imu ekf
      /\ reject_pos_D (_innov_check_fail_status ekf') = false).
Proof.
  intros Htilt. cbv zeta. rewrite gate_and_record_eq. cbn [fst].
  rewrite gate_locals_pass_map, gate_locals_fuse_map.
  destruct (final_ledger fixCovarianceErrors fuse ekf) as (_ & _ & _ & -> & ->).
  destruct (gate_ekf_ledger ekf) as (_ & _ & _ & -> & _ & -> & ->).
  cbn [bget nth].
  assert (Hp : pos_check (ratio_ekf ekf) = true)
    by (apply pos_check_iff; right; now rewrite ratio_ekf_tilt_align).
  assert (Hh : hgt_check (ratio_ekf ekf) = true)
    by (apply hgt_check_iff; right; now rewrite ratio_ekf_tilt_align).
  rewrite Hp, Hh. cbn [andb].
  split; [reflexivity|]. split; [reflexivity|]. split; [reflexivity|].
  split; [intros Hreq; now rewrite Hreq|].
  intros Hlive. apply andb_true_iff in Hlive. destruct Hlive as [Hreq _].
  rewrite Hreq. split; reflexivity.
Qed.

(** A NaN test ratio is never accepted by a comparison: a NaN in one of
    the velocity ratios rejects the velocity group, sets [reject_vel_NED]
    and leaves [_time_last_vel_fuse] alone; once tilt alignment is complete
    a NaN position ratio sets [reject_pos_NE] and a NaN height ratio sets
    [reject_pos_D]. *)
Theorem nan_ratio_rejected (ekf : Ekf) :
  let l := fst (gate_and_record ekf) in
  let ekf' := fuseVelPosHeight fixCovarianceErrors fuse ekf in
  let pass i := bget (innov_check_pass_map l) i in
  let ratio i := fget (_vel_pos_test_ratio ekf') i in
  ((exists i, (i < 3)%nat /\ ratio i = S754_nan) ->
   pass 0%nat = false
   /\ reject_vel_NED (_innov_check_fail_status ekf') = true
   /\ _time_last_vel_fuse ekf' = _time_last_vel_fuse ekf)
  /\ (tilt_align (_control_status ekf) = true ->
      ratio 3%nat = S754_nan \/ ratio 4%nat = S754_nan ->
      pass 3%nat = false /\ reject_pos_NE (_innov_check_fail_status ekf') = true)
  /\ (tilt_align (_control_status ekf) = true -> ratio 5%nat = S754_nan ->
      pass 5%nat = false /\ reject_pos_D (_innov_check_fail_status ekf') = true).
Proof.
  cbv zeta. rewrite gate_and_record_eq. cbn [fst].
  rewrite gate_locals_pass_map, final_test_ratio.
  destruct (final_ledger fixCovarianceErrors fuse ekf) as (-> & _ & _ & _ & ->).
  destruct (gate_ekf_ledger ekf) as (-> & _ & _ & _ & -> & -> & ->).
  cbn [bget nth].
  split; [|split].
  - intros (i & Hi & Hnan).
    assert (Hv : vel_check (ratio_ekf ekf) = false).
    { unfold vel_check. destruct i as [|[|[|i]]]; try lia; rewrite Hnan; cbn;
        rewrite ?andb_false_r; reflexivity. }
    rewrite Hv, andb_false_r. repeat split.
  - intros Htilt Hnan.
    assert (Hp : pos_check (ratio_ekf ekf) = false).
    { unfold pos_check. rewrite ratio_ekf_tilt_align, Htilt.
      destruct Hnan as [-> | ->]; cbn; rewrite ?andb_false_r; reflexivity. }
    rewrite Hp. repeat split.
  - intros Htilt Hnan.
    assert (Hh : hgt_check (ratio_ekf ekf) = false).
    { unfold hgt_check. rewrite ratio_ekf_tilt_align, Htilt, Hnan. reflexivity. }
    rewrite Hh. repeat split.
Qed.

End Groups.

Lemma pos_group_decision_witness :
  let l := fst (gate_and_record ekf_pos) in
  let ekf' := fuseVelPosHeight keep_covariance fuse_linear ekf_pos in
  _fuse_pos ekf_pos = true
  /\ bget (innov_check_pass_map l) 3 = true
  /\ _time_last_pos_fuse ekf' = 1000%Z
  /\ _time_last_delpos_fuse ekf' = 0%Z.
Proof.
  cbv zeta. split; [reflexivity|].
  destruct (pos_group_decision keep_covariance fuse_linear ekf_pos eq_refl)
    as (_ & _ & _ & Hpass & _).
  assert (Hp : bget (innov_check_pass_map (fst (gate_and_record ekf_pos))) 3 = true)
    by reflexivity.
  split; [exact Hp|].
  destruct (Hpass Hp) as (_ & Hpos & _). exact (Hpos eq_refl).
Defined.

Lemma hgt_decision_witness :
  let l := fst (gate_and_record ekf_pos_hgt) in
  let ekf' := fuseVelPosHeight keep_covariance fuse_linear ekf_pos_hgt in
  bget (fuse_map l) 5 = true
  /\ bget (innov_check_pass_map l) 5 = true
  /\ _time_last_hgt_fuse ekf' = 1000%Z
  /\ reject_pos_D (_innov_check_fail_status ekf') = false.
Proof.
  cbv zeta. split; [reflexivity|].
  destruct (hgt_decision keep_covariance fuse_linear ekf_pos_hgt eq_refl)
    as (_ & Hpass & _).
  assert (Hp : bget (innov_check_pass_map (fst (gate_and_record ekf_pos_hgt))) 5 = true)
    by reflexivity.
  split; [exact Hp | exact (Hpass Hp)].
Defined.

Lemma tilt_align_override_witness :
  let l := fst (gate_and_record ekf_unaligned) in
  let ekf' := fuseVelPosHeight keep_covariance fuse_linear ekf_unaligned in
  tilt_align (_control_status ekf_unaligned) = false
  /\ fget (_vel_pos_test_ratio ekf') 3 = f32_of_Z 2
  /\ bget (innov_check_pass_map l) 3 = true
  /\ reject_pos_D (_innov_check_fail_status ekf_unaligned) = true
  /\ _time_last_hgt_fuse ekf' = 1000%Z
  /\ reject_pos_D (_innov_check_fail_status ekf') = false.
Proof.
  cbv zeta. split; [reflexivity|]. split; [vm_compute; reflexivity|].
  destruct (tilt_align_override keep_covariance fuse_linear ekf_unaligned eq_refl)
    as (Hp3 & _ & _ & _ & Hhgt).
  split; [exact Hp3|]. split; [reflexivity|]. exact (Hhgt eq_refl).
Defined.

Lemma nan_ratio_rejected_witness :
  let ekf' := fuseVelPosHeight keep_covariance fuse_linear ekf_nan_ratio in
  fget (_vel_pos_test_ratio ekf') 0 = S754_nan
  /\ _innov_check_fail_status ekf_nan_ratio
     = {| reject_vel_NED := false; reject_pos_NE := false; reject_pos_D := false |}
  /\ reject_vel_NED (_innov_check_fail_status ekf') = true
  /\ reject_pos_NE (_innov_check_fail_status ekf') = true
  /\ reject_pos_D (_innov_check_fail_status ekf') = true.
Proof.
  cbv zeta. split; [vm_compute; reflexivity|]. split; [reflexivity|].
  destruct (nan_ratio_rejected keep_covariance fuse_linear ekf_nan_ratio)
    as (Hvel & Hpos & Hhgt).
  split; [apply Hvel; exists 0%nat; split; [lia | vm_compute; reflexivity]|].
  split; [apply Hpos; [reflexivity | right; vm_compute; reflexivity]|].
  apply Hhgt; [reflexivity | vm_compute; reflexivity].
Defined.
(** ** Calling the routine again *)

Lemma test_ratios_idle (l : locals) (ekf : Ekf) :
  fuse_map l = repeat false 6 -> test_ratios l ekf = ekf.
Proof.
  intros Hl. unfold test_ratios, test_ratio_step. rewrite Hl. reflexivity.
Qed.

(** Without a request the assembler and the test ratio loop do nothing. *)
Lemma ratio_ekf_idle (ekf : Ekf) :
  _fuse_hor_vel ekf = false -> _fuse_hor_vel_aux ekf = false ->
  _fuse_vert_vel ekf = false -> _fuse_pos ekf = false -> _fuse_height ekf = false ->
  ratio_ekf ekf = ekf.
Proof.
  intros H1 H2 H3 H4 H5. unfold ratio_ekf.
  rewrite test_ratios_idle
    by (rewrite fuse_map_assembled, H1, H2, H3, H4, H5; reflexivity).
  unfold assembled_ekf, assemble_height. now rewrite H5.
Qed.

(** The ledger does nothing to a filter without requests whose reject flags
    agree with the checks. *)
Lemma ledger_fixpoint (l : locals) (v p : bool) (ekf : Ekf) :
  _fuse_hor_vel ekf = false -> _fuse_hor_vel_aux ekf = false ->
  _fuse_vert_vel ekf = false -> _fuse_pos ekf = false -> _fuse_height ekf = false ->
  (v = false -> reject_vel_NED (_innov_check_fail_status ekf) = true) ->
  (p = false -> reject_pos_NE (_innov_check_fail_status ekf) = true) ->
  (bget (innov_check_pass_map l) 5 = false ->
   reject_pos_D (_innov_check_fail_status ekf) = true) ->
  record_hgt_fuse l (record_pos_fuse p (record_vel_fuse v ekf)) = ekf.
Proof.
  rewrite record_hgt_fuse_eq, record_pos_fuse_eq, record_vel_fuse_eq. cbv zeta.
  generalize (bget (innov_check_pass_map l) 5). intros h.
  destruct ekf as [M x vi av ov hg pn pg pr gs bs rs es bo ga ho rr cs
                   fhv fha fvv fp fh odom iv tr ti tv tp td th [rv rp rd] fs].
  ekf_simpl. intros -> -> -> -> -> Hv Hp Hh.
  cbn [orb andb]. rewrite !andb_false_r. cbn [andb].
  destruct v, p, h; cbn [negb];
    rewrite ?(Hv eq_refl), ?(Hp eq_refl), ?(Hh eq_refl); reflexivity.
Qed.

Section Again.

Variable fixCovarianceErrors : matrix -> matrix.
Variable fuse : list float32 -> float32 -> list float32 -> list float32.

(** A call without requests on a filter whose reject flags agree with the
    stored test ratios returns the filter as it was. *)
Lemma idle_call (ekf : Ekf) :
  _fuse_hor_vel ekf = false -> _fuse_hor_vel_aux ekf = false ->
  _fuse_vert_vel ekf = false -> _fuse_pos ekf = false -> _fuse_height ekf = false ->
  (vel_check ekf = false -> reject_vel_NED (_innov_check_fail_status ekf) = true) ->
  (pos_check ekf = false -> reject_pos_NE (_innov_check_fail_status ekf) = true) ->
  (hgt_check ekf = false -> reject_pos_D (_innov_check_fail_status ekf) = true) ->
  fuseVelPosHeight fixCovarianceErrors fuse ekf = ekf.
Proof.
  intros H1 H2 H3 H4 H5 Hv Hp Hh. rewrite fuseVelPosHeight_eq.
  rewrite sequential_fusion_idle.
  - unfold gate_ekf.
    pose proof (gate_locals_pass_map ekf) as Hmap.
    rewrite (ratio_ekf_idle ekf H1 H2 H3 H4 H5) in *.
    apply ledger_fixpoint; auto.
    rewrite Hmap. exact Hh.
  - intros i _. rewrite gate_locals_fuse_map, H1, H2, H3, H4, H5.
    cbn [orb andb]. unfold bget.
    do 6 (destruct i as [|i]; [reflexivity|]). now destruct i.
Qed.

Lemma final_control_status (ekf : Ekf) :
  _control_status (fuseVelPosHeight fixCovarianceErrors fuse ekf) = _control_status ekf.
Proof.
  rewrite fuseVelPosHeight_eq.
  destruct (sequential_fusion_frame fixCovarianceErrors fuse (gate_locals ekf)
              (seq 0 6) (gate_ekf ekf)) as (M & x & s & ->).
  destruct (updater_same_inputs M x s (gate_ekf ekf)) as (_ & -> & _).
  now destruct (gate_ekf_same_inputs ekf) as (_ & -> & _).
Qed.

(** The routine is idempotent: it consumes the requests, so calling it
    again straight away returns the very filter the first call returned;
    nothing is fused, stamped or flagged a second time. *)
Theorem second_call_is_identity (ekf : Ekf) :
  let ekf' := fuseVelPosHeight fixCovarianceErrors fuse ekf in
  fuseVelPosHeight fixCovarianceErrors fuse ekf' = ekf'.
Proof.
  cbv zeta.
  pose proof (final_test_ratio fixCovarianceErrors fuse ekf) as Htr.
  destruct (final_ledger fixCovarianceErrors fuse ekf) as (_ & _ & _ & _ & Hics).
  destruct (gate_ekf_ledger ekf) as (_ & _ & _ & _ & Hrv & Hrp & Hrd).
  pose proof (final_control_status ekf) as Hcs.
  assert (Hflags : _fuse_hor_vel (fuseVelPosHeight fixCovarianceErrors fuse ekf) = false
                   /\ _fuse_hor_vel_aux (fuseVelPosHeight fixCovarianceErrors fuse ekf) = false
                   /\ _fuse_vert_vel (fuseVelPosHeight fixCovarianceErrors fuse ekf) = false
                   /\ _fuse_pos (fuseVelPosHeight fixCovarianceErrors fuse ekf) = false
                   /\ _fuse_height (fuseVelPosHeight fixCovarianceErrors fuse ekf) = false).
  { rewrite fuseVelPosHeight_eq.
    destruct (sequential_fusion_preserves fixCovarianceErrors fuse (gate_locals ekf)
                (seq 0 6) (gate_ekf ekf)) as (-> & -> & -> & -> & -> & _).
    apply gate_ekf_flags. }
  destruct Hflags as (F1 & F2 & F3 & F4 & F5).
  apply idle_call; auto.
  - unfold vel_check. rewrite Htr, Hics, Hrv.
    fold (vel_check (ratio_ekf ekf)). intros ->. now rewrite andb_false_r.
  - unfold pos_check. rewrite Htr, Hcs, Hics, Hrp.
    rewrite <- (ratio_ekf_tilt_align ekf). fold (pos_check (ratio_ekf ekf)).
    intros ->. reflexivity.
  - unfold hgt_check. rewrite Htr, Hcs, Hics, Hrd.
    rewrite <- (ratio_ekf_tilt_align ekf). fold (hgt_check (ratio_ekf ekf)).
    intros ->. reflexivity.
Qed.

End Again.
(** ** The observations of the velocity slots and the innovation log *)

(** The height branch writes entry 5 of the local arrays only. *)
Lemma assemble_height_other (ekf : Ekf) (l : locals) (i : nat) :
  i <> 5%nat ->
  let l' := fst (assemble_height ekf l) in
  fget (innovation l') i = fget (innovation l) i
  /\ fget (R l') i = fget (R l) i
  /\ fget (gate_size l') i = fget (gate_size l) i.
Proof.
  intros Hi. cbv zeta. unfold assemble_height.
  assert (H5 : 5%nat <> i) by congruence.
  destruct (_fuse_height ekf); [|cbn [fst]; repeat split].
  cbn [fst].
  destruct (baro_hgt (_control_status ekf));
    [ | destruct (gps_hgt (_control_status ekf));
        [ | destruct (rng_hgt (_control_status ekf)
                      && (_R_rng_to_earth_2_2 ekf >? range_cos_max_tilt (_params ekf)));
            [ | destruct (ev_hgt (_control_status ekf)) ] ] ];
    unfold assemble_baro_hgt, assemble_gps_hgt, assemble_rng_hgt, assemble_ev_hgt;
    ekf_simpl; unfold fget; rewrite ?nth_aset_ne by exact H5; repeat split.
Qed.

Lemma gate_locals_entry (ekf : Ekf) (i : nat) :
  i <> 5%nat ->
  let l := gate_locals ekf in
  fget (innovation l) i = fget (innovation (locals_before_height ekf)) i
  /\ fget (R l) i = fget (R (locals_before_height ekf)) i
  /\ fget (gate_size l) i = fget (gate_size (locals_before_height ekf)) i.
Proof.
  intros Hi. cbv zeta. destruct (gate_locals_obs ekf) as (-> & -> & ->).
  unfold assembled_locals. now apply assemble_height_other.
Qed.

(** The locals of the velocity slots before the height branch. *)
Lemma hor_vel_before_height (ekf : Ekf) :
  let l := locals_before_height ekf in
  (_fuse_hor_vel ekf = true ->
   fget (innovation l) 0 = fget (_vel_pos_innov ekf) 0
   /\ fget (innovation l) 1 = fget (_vel_pos_innov ekf) 1)
  /\ (_fuse_hor_vel ekf = false -> _fuse_hor_vel_aux ekf = true ->
      fget (innovation l) 0 = fget (_aux_vel_innov ekf) 0
      /\ fget (innovation l) 1 = fget (_aux_vel_innov ekf) 1)
  /\ (_fuse_hor_vel ekf || _fuse_hor_vel_aux ekf = true ->
      fget (R l) 0 = fget (_velObsVarNE ekf) 0
      /\ fget (R l) 1 = fget (_velObsVarNE ekf) 1
      /\ fget (gate_size l) 0 = _hvelInnovGate ekf
      /\ fget (gate_size l) 1 = _hvelInnovGate ekf).
Proof.
  cbv zeta. unfold locals_before_height, assemble_pos, assemble_vert_vel, assemble_hor_vel.
  destruct (_fuse_hor_vel ekf), (_fuse_hor_vel_aux ekf), (_fuse_vert_vel ekf),
    (_fuse_pos ekf); cbn [orb negb];
    (split; [|split]); intros; try discriminate; repeat split.
Qed.

Lemma vert_vel_before_height (ekf : Ekf) :
  _fuse_vert_vel ekf = true ->
  let l := locals_before_height ekf in
  fget (R l) 2
  = sq (f1_5 * fmaxf (fmaxf (gps_vel_noise (_params ekf)) f0_01)
                     (gpsSample.sacc (_gps_sample_delayed ekf)))
  /\ fget (gate_size l) 2 = fmaxf (vel_innov_gate (_params ekf)) f1.
Proof.
  intros Hv. cbv zeta.
  unfold locals_before_height, assemble_pos, assemble_vert_vel, assemble_hor_vel.
  rewrite Hv.
  destruct (_fuse_hor_vel ekf), (_fuse_hor_vel_aux ekf), (_fuse_pos ekf);
    cbn [orb negb]; split; reflexivity.
Qed.

(** Two numbers that are not NaN are comparable. *)
Lemma fltb_false_fleb (x y : float32) :
  x <> S754_nan -> y <> S754_nan -> (x <? y) = false -> (y <=? x) = true.
Proof.
  intros Hx Hy. unfold fltb, fleb, SFltb, SFleb.
  rewrite (SFcompare_antisym x y).
  destruct (SFcompare x y) as [[| |]|] eqn:Hc; cbn; try reflexivity; try discriminate.
  intros _. destruct x as [[]|[]| |[] mx ex], y as [[]|[]| |[] my ey];
    try discriminate Hc; congruence.
Qed.

(** [fmaxf] of a number against 1 is at least 1. *)
Lemma fmaxf_ge_one (x : float32) :
  x <> S754_nan -> (f1 <=? fmaxf x f1) = true.
Proof.
  intros Hx. unfold fmaxf. destruct x as [s|s| |s m e].
  - destruct s; reflexivity.
  - destruct s; reflexivity.
  - now elim Hx.
  - destruct (S754_finite s m e <? f1) eqn:Hlt; [reflexivity|].
    apply fltb_false_fleb; [discriminate | discriminate | exact Hlt].
Qed.

Section Observations.

Variable fixCovarianceErrors : matrix -> matrix.
Variable fuse : list float32 -> float32 -> list float32 -> list float32.

(** The horizontal velocity slots take the innovations of the filter
    whenever [_fuse_hor_vel] is set, also when the auxiliary request is set
    with it; the auxiliary innovations are used only on an auxiliary request
    without the primary one.  Either way the two slots are live with the
    observation variances [_velObsVarNE] and the gate [_hvelInnovGate]. *)
Theorem hor_vel_observation (ekf : Ekf) :
  let l := fst (gate_and_record ekf) in
  (_fuse_hor_vel ekf = true ->
   fget (innovation l) 0 = fget (_vel_pos_innov ekf) 0
   /\ fget (innovation l) 1 = fget (_vel_pos_innov ekf) 1)
  /\ (_fuse_hor_vel ekf = false -> _fuse_hor_vel_aux ekf = true ->
      fget (innovation l) 0 = fget (_aux_vel_innov ekf) 0
      /\ fget (innovation l) 1 = fget (_aux_vel_innov ekf) 1)
  /\ (_fuse_hor_vel ekf || _fuse_hor_vel_aux ekf = true ->
      bget (fuse_map l) 0 = true /\ bget (fuse_map l) 1 = true
      /\ fget (R l) 0 = fget (_velObsVarNE ekf) 0
      /\ fget (R l) 1 = fget (_velObsVarNE ekf) 1
      /\ fget (gate_size l) 0 = _hvelInnovGate ekf
      /\ fget (gate_size l) 1 = _hvelInnovGate ekf).
Proof.
  cbv zeta. rewrite gate_and_record_eq. cbn [fst].
  assert (H05 : 0%nat <> 5%nat) by lia. assert (H15 : 1%nat <> 5%nat) by lia.
  destruct (gate_locals_entry ekf H05) as (-> & -> & ->).
  destruct (gate_locals_entry ekf H15) as (-> & -> & ->).
  destruct (hor_vel_before_height ekf) as (Hprim & Haux & Hobs).
  split; [exact Hprim|]. split; [exact Haux|].
  intros Hreq. rewrite gate_locals_fuse_map, Hreq.
  split; [reflexivity|]. split; [reflexivity|]. now apply Hobs.
Qed.

(** The gates of the vertical velocity and of the height slot are never
    below 1 when the gate parameters are numbers: a parameter below 1, zero
    or negative is replaced by 1. *)
Theorem clamped_gates_at_least_one (ekf : Ekf) :
  let l := fst (gate_and_record ekf) in
  (bget (fuse_map l) 2 = true ->
   vel_innov_gate (_params ekf) <> S754_nan ->
   (f1 <=? fget (gate_size l) 2) = true)
  /\ (bget (fuse_map l) 5 = true ->
      baro_innov_gate (_params ekf) <> S754_nan ->
      range_innov_gate (_params ekf) <> S754_nan ->
      ev_innov_gate (_params ekf) <> S754_nan ->
      (f1 <=? fget (gate_size l) 5) = true).
Proof.
  cbv zeta. rewrite gate_and_record_eq. cbn [fst].
  rewrite gate_locals_fuse_map. cbn [bget nth]. split.
  - intros Hv Hnum. assert (H25 : 2%nat <> 5%nat) by lia.
    destruct (gate_locals_entry ekf H25) as (_ & _ & ->).
    destruct (vert_vel_before_height ekf Hv) as (_ & ->).
    apply fmaxf_ge_one. exact Hnum.
  - intros Hlive Hbaro Hrng Hev.
    apply andb_true_iff in Hlive. destruct Hlive as [Hreq Hsel].
    destruct (gate_locals_obs ekf) as (_ & _ & ->).
    rewrite (assembled_locals_source ekf Hreq). cbv zeta.
    destruct (lengths_before_height ekf) as (Hi & Hr & Hg).
    unfold hgt_source_selected in Hsel.
    destruct (baro_hgt (_control_status ekf));
      [ destruct (baro_slot5 ekf _ Hi Hr Hg) as (_ & _ & ->);
        apply fmaxf_ge_one; exact Hbaro |].
    destruct (gps_hgt (_control_status ekf));
      [ destruct (gps_slot5 ekf _ Hi Hr Hg) as (_ & _ & ->);
        apply fmaxf_ge_one; exact Hbaro |].
    destruct (rng_hgt (_control_status ekf)
              && (_R_rng_to_earth_2_2 ekf >? range_cos_max_tilt (_params ekf)));
      [ destruct (rng_slot5 ekf _ Hi Hr Hg) as (_ & _ & ->);
        apply fmaxf_ge_one; exact Hrng |].
    destruct (ev_hgt (_control_status ekf));
      [ destruct (ev_slot5 ekf _ Hi Hr Hg) as (_ & _ & ->);
        apply fmaxf_ge_one; exact Hev |].
    discriminate Hsel.
Qed.

(** The innovation log [_vel_pos_innov]: entries 0..4 are never written,
    so the auxiliary velocity innovations that were fused do not show in it;
    without a height request the whole array is kept, and on a height
    request entry 5 receives the height innovation the routine used. *)
Theorem innovation_log (ekf : Ekf) :
  let l := fst (gate_and_record ekf) in
  let ekf' := fuseVelPosHeight fixCovarianceErrors fuse ekf in
  (forall i, i <> 5%nat ->
             fget (_vel_pos_innov ekf') i = fget (_vel_pos_innov ekf) i)
  /\ (_fuse_height ekf = false -> _vel_pos_innov ekf' = _vel_pos_innov ekf)
  /\ (_fuse_height ekf = true -> (5 < length (_vel_pos_innov ekf))%nat ->
      fget (_vel_pos_innov ekf') 5 = fget (innovation l) 5).
Proof.
  cbv zeta. rewrite gate_and_record_eq. cbn [fst].
  rewrite fuseVelPosHeight_eq.
  destruct (sequential_fusion_preserves fixCovarianceErrors fuse (gate_locals ekf)
              (seq 0 6) (gate_ekf ekf))
    as (_ & _ & _ & _ & _ & _ & _ & _ & _ & _ & -> & _).
  destruct (gate_ekf_frame ekf) as (_ & _ & _ & -> & _).
  destruct (gate_locals_obs ekf) as (-> & _ & _).
  unfold ratio_ekf.
  destruct (test_ratios_frame (assembled_locals ekf) (assembled_ekf ekf))
    as (iv & tr & ->). ekf_simpl.
  unfold assembled_ekf, assembled_locals, assemble_height.
  destruct (_fuse_height ekf); cbn [fst snd]; ekf_simpl.
  - split; [|split].
    + intros i Hi. unfold fget. apply nth_aset_ne. congruence.
    + discriminate.
    + intros _ Hlen. now apply fget_aset_eq.
  - split; [reflexivity|]. split; [reflexivity | discriminate].
Qed.

End Observations.

Lemma hor_vel_observation_witness :
  let l := fst (gate_and_record ekf_aux_vel) in
  (_fuse_hor_vel ekf_aux_vel = false /\ _fuse_hor_vel_aux ekf_aux_vel = true)
  /\ fget (_vel_pos_innov ekf_aux_vel) 0 = f1
  /\ fget (innovation l) 0 = f0 /\ fget (innovation l) 1 = f0
  /\ bget (fuse_map l) 0 = true /\ fget (gate_size l) 0 = f32_of_Z 3.
Proof.
  cbv zeta. split; [split; reflexivity|]. split; [reflexivity|].
  destruct (hor_vel_observation ekf_aux_vel) as (_ & Haux & Hobs).
  destruct (Haux eq_refl eq_refl) as (H0 & H1).
  destruct (Hobs eq_refl) as (Hlive & _ & _ & _ & Hgate & _).
  split; [exact H0|]. split; [exact H1|]. split; [exact Hlive | exact Hgate].
Defined.

Lemma clamped_gates_at_least_one_witness :
  let l := fst (gate_and_record ekf_low_gates) in
  (bget (fuse_map l) 2 = true
   /\ vel_innov_gate (_params ekf_low_gates) <> S754_nan)
  /\ (bget (fuse_map l) 5 = true
      /\ baro_innov_gate (_params ekf_low_gates) <> S754_nan
      /\ range_innov_gate (_params ekf_low_gates) <> S754_nan
      /\ ev_innov_gate (_params ekf_low_gates) <> S754_nan)
  /\ (fget (gate_size l) 2 = f1 /\ (f1 <=? fget (gate_size l) 2) = true)
  /\ (fget (gate_size l) 5 = f1 /\ (f1 <=? fget (gate_size l) 5) = true).
Proof.
  cbv zeta.
  split; [split; [reflexivity | discriminate]|].
  split; [split; [reflexivity | repeat split; discriminate]|].
  destruct (clamped_gates_at_least_one ekf_low_gates) as (H2 & H5).
  split; (split; [vm_compute; reflexivity|]).
  - apply H2; [reflexivity | discriminate].
  - apply H5; [reflexivity | discriminate | discriminate | discriminate].
Defined.

Lemma innovation_log_witness :
  let ekf' := fuseVelPosHeight keep_covariance fuse_linear ekf_aux_vel in
  let hgt' := fuseVelPosHeight keep_covariance fuse_linear ekf_pos_hgt in
  (_fuse_height ekf_aux_vel = false /\ _fuse_height ekf_pos_hgt = true
   /\ (5 < length (_vel_pos_innov ekf_pos_hgt))%nat)
  /\ _vel_pos_innov ekf' = [f1; f1; f0; f0; f0; f0]
  /\ fget (_vel_pos_innov hgt') 5
     = fget (innovation (fst (gate_and_record ekf_pos_hgt))) 5.
Proof.
  cbv zeta. split; [split; [reflexivity | split; [reflexivity | cbn; lia]]|].
  destruct (innovation_log keep_covariance fuse_linear ekf_aux_vel) as (_ & Hkeep & _).
  destruct (innovation_log keep_covariance fuse_linear ekf_pos_hgt) as (_ & _ & Hlog).
  split; [exact (Hkeep eq_refl)|].
  apply Hlog; [reflexivity | cbn; lia].
Defined.
(** ** Test ratios of the live slots *)

Lemma test_ratio_step_lengths (l : locals) (ekf : Ekf) (j : nat) :
  P (test_ratio_step l ekf j) = P ekf
  /\ length (_vel_pos_innov_var (test_ratio_step l ekf j)) = length (_vel_pos_innov_var ekf)
  /\ length (_vel_pos_test_ratio (test_ratio_step l ekf j))
     = length (_vel_pos_test_ratio ekf).
Proof.
  unfold test_ratio_step. destruct (bget (fuse_map l) j); ekf_simpl;
    rewrite ?length_aset; auto.
Qed.

Lemma test_ratio_fold_other_ratio (l : locals) (i : nat) (idx : list nat) :
  ~ In i idx ->
  forall ekf : Ekf,
    fget (_vel_pos_test_ratio (fold_left (test_ratio_step l) idx ekf)) i
    = fget (_vel_pos_test_ratio ekf) i.
Proof.
  induction idx as [|j idx IH]; intros Hni ekf; cbn [fold_left]; auto.
  rewrite IH by (intros Hin; apply Hni; now right).
  assert (Hji : j <> i) by (intros ->; apply Hni; now left).
  unfold test_ratio_step. destruct (bget (fuse_map l) j); ekf_simpl; auto.
  unfold fget. now rewrite nth_aset_ne.
Qed.

(** The test ratio of a live slot is the squared innovation over the
    squared gate times the innovation variance. *)
Lemma test_ratio_fold_live_ratio (l : locals) (i : nat) (idx : list nat) :
  NoDup idx -> In i idx -> bget (fuse_map l) i = true ->
  forall ekf : Ekf,
    (i < length (_vel_pos_innov_var ekf))%nat ->
    (i < length (_vel_pos_test_ratio ekf))%nat ->
    fget (_vel_pos_test_ratio (fold_left (test_ratio_step l) idx ekf)) i
    = sq (fget (innovation l) i)
      / (sq (fget (gate_size l) i) * (mget (P ekf) (i + 4) (i + 4) + fget (R l) i)).
Proof.
  intros Hnd. induction Hnd as [|j idx Hj Hnd IH]; intros Hin Hlive ekf Hiv Htr.
  - destruct Hin.
  - cbn [fold_left]. destruct (Nat.eq_dec j i) as [->|Hne].
    + rewrite test_ratio_fold_other_ratio by exact Hj.
      unfold test_ratio_step. rewrite Hlive. ekf_simpl.
      rewrite fget_aset_eq by exact Htr. now rewrite fget_aset_eq by exact Hiv.
    + destruct (test_ratio_step_lengths l ekf j) as (HP & Hl1 & Hl2).
      rewrite IH; [now rewrite HP | | exact Hlive | now rewrite Hl1 | now rewrite Hl2].
      destruct Hin as [Heq|Hin]; [contradiction|exact Hin].
Qed.

Section Ratios.

Variable fixCovarianceErrors : matrix -> matrix.
Variable fuse : list float32 -> float32 -> list float32 -> list float32.

(** For every live slot the test ratio the routine returns is
    [innovation^2 / (gate^2 * (P[s][s] + R))], with [s = slot + 4], the
    covariance the routine was entered with and the innovation, gate and
    observation variance assembled in this call. *)
Theorem test_ratio_of_live_slot (ekf : Ekf) :
  length (_vel_pos_innov_var ekf) = 6%nat ->
  length (_vel_pos_test_ratio ekf) = 6%nat ->
  let l := fst (gate_and_record ekf) in
  forall i, (i < 6)%nat -> bget (fuse_map l) i = true ->
    fget (_vel_pos_test_ratio (fuseVelPosHeight fixCovarianceErrors fuse ekf)) i
    = sq (fget (innovation l) i)
      / (sq (fget (gate_size l) i) * (mget (P ekf) (i + 4) (i + 4) + fget (R l) i)).
Proof.
  intros Hiv Htr. cbv zeta. rewrite gate_and_record_eq. cbn [fst].
  intros i Hi Hlive. rewrite final_test_ratio.
  destruct (gate_locals_obs ekf) as (-> & -> & ->).
  unfold gate_locals in Hlive. rewrite fuse_map_innov_checks in Hlive.
  unfold ratio_ekf, test_ratios.
  destruct (assembled_ekf_frame ekf) as (a & Ha).
  rewrite test_ratio_fold_live_ratio.
  - rewrite Ha. reflexivity.
  - apply seq_NoDup.
  - apply in_seq. lia.
  - exact Hlive.
  - rewrite Ha. ekf_simpl. lia.
  - rewrite Ha. ekf_simpl. lia.
Qed.

End Ratios.

Lemma test_ratio_of_live_slot_witness :
  let l := fst (gate_and_record ekf_pos_hgt) in
  let ekf' := fuseVelPosHeight keep_covariance fuse_linear ekf_pos_hgt in
  (length (_vel_pos_innov_var ekf_pos_hgt) = 6%nat
   /\ length (_vel_pos_test_ratio ekf_pos_hgt) = 6%nat
   /\ bget (fuse_map l) 5 = true)
  /\ fget (_vel_pos_test_ratio ekf') 5
     = sq (fget (innovation l) 5)
       / (sq (f32_of_Z 5) * (f32_ratio 1 10 + fget (R l) 5)).
Proof.
  cbv zeta. split; [repeat split|].
  assert (H5 : (5 < 6)%nat) by lia.
  exact (@test_ratio_of_live_slot keep_covariance fuse_linear ekf_pos_hgt
           eq_refl eq_refl 5%nat H5 eq_refl).
Defined.

(** Which slots are live depends on the request flags and on the height
    source only: the two horizontal velocity slots on a primary or an
    auxiliary velocity request, the vertical velocity slot on its request,
    the two position slots on a position request, and the height slot on a
    height request for which a source is selected. *)
Theorem live_slots (ekf : Ekf) :
  fuse_map (fst (gate_and_record ekf)) =
  [ _fuse_hor_vel ekf || _fuse_hor_vel_aux ekf;
    _fuse_hor_vel ekf || _fuse_hor_vel_aux ekf;
    _fuse_vert_vel ekf; _fuse_pos ekf; _fuse_pos ekf;
    _fuse_height ekf
    && (baro_hgt (_control_status ekf)
        || gps_hgt (_control_status ekf)
        || (rng_hgt (_control_status ekf)
            && (_R_rng_to_earth_2_2 ekf >? range_cos_max_tilt (_params ekf)))
        || ev_hgt (_control_status ekf)) ].
Proof. rewrite gate_and_record_eq. cbn [fst]. apply gate_locals_fuse_map. Qed.
